(** * evidence-connector-mssql: retry, type mapping, credentials and query execution

    A shallow embedding of the connector's two source files,
    [src/datasource/src/index.cjs] (module [Index] below: the pooled variant
    with [retry]) and [src/unnamed/part_000] (module [Part000]: the per-query
    variant with [withRetry]).  [nativeTypeToEvidenceType],
    [mapResultsToEvidenceColumnTypes] and [buildConfig] have the same text in
    both files and are embedded once.

    Conventions.
    - JavaScript strings are [string]s; [toLowerCase] acts on ASCII letters.
    - Numbers that count attempts are [Z]; delays in milliseconds are exact
      rationals [Q] (no floating-point rounding).
    - An [async] function is a state-passing function on a world [W]; a
      rejected promise and a thrown exception are the same [Rejected] outcome.
    - [console.log], [console.warn] and [console.error] do not influence
      control flow and are left out.
    - A row stream is the finite list of the rows it delivers up to its end.
      A streamed request whose ['recordset'] event never fires leaves the
      promise of [runQuery] pending for ever; such runs, and streams that
      break off with an error after they were handed over, have no outcome
      here. *)

From Stdlib Require Import List String Ascii Bool ZArith QArith Qminmax Lia Lqa.
Import ListNotations.

Local Open Scope string_scope.
Local Open Scope Z_scope.

(** ** Strings *)

Definition LF : ascii := "010"%char.
Definition CR : ascii := "013"%char.

(** The characters matched by the regular expression [/\n|\r/]. *)
Definition is_newline (c : ascii) : bool :=
  Ascii.eqb c LF || Ascii.eqb c CR.

(** [s.replace(/\n|\r/g, ' ')] *)
Fixpoint replace_newlines (s : string) : string :=
  match s with
  | EmptyString => EmptyString
  | String c s' => String (if is_newline c then " "%char else c) (replace_newlines s')
  end.

(** [s.includes(t)] *)
Fixpoint includes (s t : string) : bool :=
  String.prefix t s ||
  match s with
  | EmptyString => false
  | String _ s' => includes s' t
  end.

Definition lower (c : ascii) : ascii :=
  let n := nat_of_ascii c in
  if (Nat.leb 65 n && Nat.leb n 90)%bool then ascii_of_nat (n + 32) else c.

(** [s.toLowerCase()] *)
Fixpoint toLowerCase (s : string) : string :=
  match s with
  | EmptyString => EmptyString
  | String c s' => String (lower c) (toLowerCase s')
  end.

(** Truthiness of a string: only the empty string is falsy. *)
Definition truthy (s : string) : bool :=
  match s with EmptyString => false | _ => true end.

(** Does the character [c] occur in [s]? *)
Fixpoint occurs (c : ascii) (s : string) : bool :=
  match s with
  | EmptyString => false
  | String d s' => Ascii.eqb c d || occurs c s'
  end.

(** [s.endsWith(suffix)] *)
Fixpoint endsWith (s suffix : string) : bool :=
  String.eqb s suffix ||
  match s with
  | EmptyString => false
  | String _ s' => endsWith s' suffix
  end.

(** ** Values *)

(** Plain data found in a configuration object or a result row. *)
Inductive JsValue : Type :=
| JUndefined
| JNull
| JBoolean (b : bool)
| JNumber (n : Z)
| JNaN
| JString (s : string).

(** [a ?? b] *)
Definition nullish_or (a b : JsValue) : JsValue :=
  match a with
  | JUndefined | JNull => b
  | _ => a
  end.

(** What a [throw] or a rejected promise may carry, told apart the way the
    source tells them apart: [instanceof Error], [typeof err === 'string'],
    the [message] property and a callable [toString].  A [message], when
    there is one, is a string. *)
Inductive Thrown : Type :=
| ErrorObject (name message : string)
| StringValue (s : string)
| ObjectValue (message : option string) (toString : option string)
| NullValue
| UndefinedValue.

Definition Error (message : string) : Thrown := ErrorObject "Error" message.
Definition TypeError (message : string) : Thrown := ErrorObject "TypeError" message.

(** [Error.prototype.toString] *)
Definition Error_toString (name message : string) : string :=
  if negb (truthy name) then message
  else if negb (truthy message) then name
  else (name ++ ": " ++ message)%string.

(** ** Completions and asynchronous computations *)

Inductive Completion (A : Type) : Type :=
| Fulfilled (a : A)
| Rejected (e : Thrown).
Arguments Fulfilled {A} a.
Arguments Rejected {A} e.

Definition Async (W A : Type) : Type := W -> Completion A * W.

Definition resolve {W A} (a : A) : Async W A := fun w => (Fulfilled a, w).
Definition reject {W A} (e : Thrown) : Async W A := fun w => (Rejected e, w).

(** [await] followed by a continuation. *)
Definition bind {W A B} (m : Async W A) (k : A -> Async W B) : Async W B :=
  fun w =>
    match m w with
    | (Fulfilled a, w') => k a w'
    | (Rejected e, w') => (Rejected e, w')
    end.

(** [try { m } catch (err) { h err }], also [m.catch(h)]. *)
Definition catch {W A} (m : Async W A) (h : Thrown -> Async W A) : Async W A :=
  fun w =>
    match m w with
    | (Fulfilled a, w') => (Fulfilled a, w')
    | (Rejected e, w') => h e w'
    end.

(** [await] on a promise that has no reject path: it settles as fulfilled. *)
Definition settle {W A} (f : W -> A * W) : Async W A :=
  fun w => let '(a, w') := f w in (Fulfilled a, w').

(** A synchronous function that may throw, called from asynchronous code. *)
Definition lift {W A} (c : Completion A) : Async W A := fun w => (c, w).

Declare Scope async_scope.
Delimit Scope async_scope with async.
Notation "x <- m ;; k" := (bind m (fun x => k))
  (at level 61, m at next level, right associativity) : async_scope.
Notation "' p <- m ;; k" := (bind m (fun x => let p := x in k))
  (at level 61, p pattern, m at next level, right associativity) : async_scope.

(** Timers and the random source of the JavaScript runtime. *)
Class Timers (W : Type) : Type := {
  (** [await new Promise(resolve => setTimeout(resolve, ms))] *)
  setTimeout : Q -> W -> W;
  (** [Math.random()] *)
  Math_random : W -> Q * W
}.

(** ** Type mapper (both files) *)

Module mssql.
  (** The members of [mssql.TYPES] named by the source. *)
Inductive TYPES : Type :=
  | Int | TinyInt | BigInt | SmallInt | Float | Real | Decimal | Numeric
  | SmallMoney | Money
  | DateTime | SmallDateTime | DateTimeOffset | Date | DateTime2
  | VarChar | NVarChar | Char | NChar | Xml | Text | NText
  | Bit
  | Time | UniqueIdentifier | Binary | VarBinary | Image | TVP | UDT
  | Geography | Geometry | Variant.
End mssql.

Inductive EvidenceType : Type := NUMBER | DATE | STRING | BOOLEAN.
Inductive TypeFidelity : Type := PRECISE | INFERRED.

(** The [switch] of the source; [None] is a [type] that is no member of
    [mssql.TYPES] and so reaches [default]. *)
Definition nativeTypeToEvidenceType
    (data_type : option mssql.TYPES) (defaultType : option EvidenceType)
  : option EvidenceType :=
  match data_type with
  | Some (mssql.Int | mssql.TinyInt | mssql.BigInt | mssql.SmallInt
         | mssql.Float | mssql.Real | mssql.Decimal | mssql.Numeric
         | mssql.SmallMoney | mssql.Money) => Some NUMBER
  | Some (mssql.DateTime | mssql.SmallDateTime | mssql.DateTimeOffset
         | mssql.Date | mssql.DateTime2) => Some DATE
  | Some (mssql.VarChar | mssql.NVarChar | mssql.Char | mssql.NChar
         | mssql.Xml | mssql.Text | mssql.NText) => Some STRING
  | Some mssql.Bit => Some BOOLEAN
  | Some (mssql.Time | mssql.UniqueIdentifier | mssql.Binary | mssql.VarBinary
         | mssql.Image | mssql.TVP | mssql.UDT | mssql.Geography
         | mssql.Geometry | mssql.Variant)
  | None => defaultType
  end.

(** One entry of the driver's column metadata. *)
Record Field : Type := { field_name : string; field_type : option mssql.TYPES }.

Record ColumnType : Type := {
  name : string;
  evidenceType : EvidenceType;
  typeFidelity : TypeFidelity
}.

(** [fields] is the metadata in the order [Object.values] lists it. *)
Definition mapResultsToEvidenceColumnTypes (fields : list Field) : list ColumnType :=
  map (fun field =>
         match nativeTypeToEvidenceType (field_type field) None with
         | Some evidenceType =>
             {| name := field_name field; evidenceType := evidenceType;
                typeFidelity := PRECISE |}
         | None =>
             {| name := field_name field; evidenceType := STRING;
                typeFidelity := INFERRED |}
         end) fields.

(** ** Credential builder (both files) *)

(** Library functions the source calls and this repository does not define. *)
Class Builtins : Type := {
  (** the global [parseInt] *)
  parseInt : JsValue -> JsValue;
  (** [cleanQuery] of [@evidence-dev/db-commons] *)
  cleanQuery : string -> string
}.

(** [options] argument of [withRetry], also the [retryOptions] property of
    the configuration; [None] is a property left undefined. *)
Record RetryOptions : Type := {
  maxRetries : option Z;
  baseDelay : option Q;
  maxDelay : option Q
}.

Module database.
  (** The properties of the configuration object the source reads; a property
      that is not set is [JUndefined]. *)
Record t : Type := {
    user : JsValue;
    server : JsValue;
    database : JsValue;
    password : JsValue;
    connection_port : JsValue;
    connection_timeout : JsValue;
    request_timeout : JsValue;
    trust_server_certificate : JsValue;
    encrypt : JsValue;
    authenticationType : JsValue;
    attoken : JsValue;
    pwuname : JsValue;
    pwpword : JsValue;
    pwclientid : JsValue;
    pwtenantid : JsValue;
    spclientid : JsValue;
    spclientsecret : JsValue;
    sptenantid : JsValue;
    retryOptions : option RetryOptions
  }.

  (** The object literal [{}]. *)
Definition empty : t :=
    {| user := JUndefined; server := JUndefined; database := JUndefined;
       password := JUndefined; connection_port := JUndefined;
       connection_timeout := JUndefined; request_timeout := JUndefined;
       trust_server_certificate := JUndefined; encrypt := JUndefined;
       authenticationType := JUndefined; attoken := JUndefined;
       pwuname := JUndefined; pwpword := JUndefined; pwclientid := JUndefined;
       pwtenantid := JUndefined; spclientid := JUndefined;
       spclientsecret := JUndefined; sptenantid := JUndefined;
       retryOptions := None |}.
End database.

(** The value passed where a configuration object is expected. *)
Inductive ConfigArg : Type :=
| NotGiven                      (* undefined *)
| NotAnObject                   (* null, or a value whose typeof is not 'object' *)
| Given (d : database.t).

(** The value passed as [opts] where its properties are read before any
    check. *)
Inductive Opts : Type :=
| UndefinedOpts                 (* undefined, or no argument *)
| NullOpts                      (* null *)
| PrimitiveOpts                 (* a number, a string or a boolean *)
| ObjectOpts (d : database.t).

Module authentication.
  (** [options] lists the properties of the nested object in source order;
      [None] is an [authentication] object without [options]. *)
Record t : Type := {
    type : string;
    options : option (list (string * JsValue))
  }.
End authentication.

Module credentials.
Record options_t : Type := {
    trustServerCertificate : bool;
    encrypt : bool
  }.

Record t : Type := {
    user : JsValue;
    server : JsValue;
    database : JsValue;
    password : JsValue;
    port : JsValue;
    connectionTimeout : JsValue;
    requestTimeout : JsValue;
    options : options_t;
    authentication : option authentication.t
  }.

  (** [credentials.authentication = a] *)
Definition set_authentication (c : t) (a : authentication.t) : t :=
    {| user := user c; server := server c; database := database c;
       password := password c; port := port c;
       connectionTimeout := connectionTimeout c;
       requestTimeout := requestTimeout c; options := options c;
       authentication := Some a |}.
End credentials.

(** [v === s] for a string literal [s] *)
Definition is_string (v : JsValue) (s : string) : bool :=
  match v with
  | JString s' => String.eqb s' s
  | _ => false
  end.

(** [v === 'true' || v === true] *)
Definition is_true (v : JsValue) : bool :=
  match v with
  | JString s => String.eqb s "true"
  | JBoolean b => b
  | _ => false
  end.

Section BuildConfig.
Context {B : Builtins}.

  (** [buildConfig]; [Fulfilled None] is a call that returns [undefined]. *)
Definition buildConfig (arg : ConfigArg) : Completion (option credentials.t) :=
    match arg with
    | NotGiven | NotAnObject =>
        Rejected (Error "Database configuration is required and must be an object")
    | Given d =>
        let trust_server_certificate :=
          nullish_or (database.trust_server_certificate d) (JString "false") in
        let encrypt := nullish_or (database.encrypt d) (JString "true") in
        let connection_timeout :=
          nullish_or (database.connection_timeout d) (JNumber 30000) in
        let request_timeout :=
          nullish_or (database.request_timeout d) (JNumber 30000) in
        let database_port :=
          nullish_or (database.connection_port d) (JNumber 1433) in
        let credentials :=
          {| credentials.user := database.user d;
             credentials.server := database.server d;
             credentials.database := database.database d;
             credentials.password := database.password d;
             credentials.port := parseInt database_port;
             credentials.connectionTimeout := parseInt connection_timeout;
             credentials.requestTimeout := parseInt request_timeout;
             credentials.options :=
               {| credentials.trustServerCertificate := is_true trust_server_certificate;
                  credentials.encrypt := is_true encrypt |};
             credentials.authentication := None |} in
        let authenticationType := database.authenticationType d in
        if is_string authenticationType "default" then
          Fulfilled (Some credentials)
        else if is_string authenticationType "azure-active-directory-default" then
          Fulfilled (Some (credentials.set_authentication credentials
            {| authentication.type := "azure-active-directory-default";
               authentication.options := None |}))
        else if is_string authenticationType "azure-active-directory-access-token" then
          Fulfilled (Some (credentials.set_authentication credentials
            {| authentication.type := "azure-active-directory-access-token";
               authentication.options := Some [("token", database.attoken d)] |}))
        else if is_string authenticationType "azure-active-directory-password" then
          Fulfilled (Some (credentials.set_authentication credentials
            {| authentication.type := "azure-active-directory-password";
               authentication.options :=
                 Some [("userName", database.pwuname d);
                       ("password", database.pwpword d);
                       ("clientId", database.pwclientid d);
                       ("tenantId", database.pwtenantid d)] |}))
        else if is_string authenticationType
                  "azure-active-directory-service-principal-secret" then
          Fulfilled (Some (credentials.set_authentication credentials
            {| authentication.type := "azure-active-directory-service-principal-secret";
               authentication.options :=
                 Some [("clientId", database.spclientid d);
                       ("clientSecret", database.spclientsecret d);
                       ("tenantId", database.sptenantid d)] |}))
        else Fulfilled None
    end.
End BuildConfig.

(** [options.x] with the destructuring default [d]. *)
Definition default {A} (d : A) (o : option A) : A :=
  match o with
  | Some a => a
  | None => d
  end.

(** ** [retry] of src/datasource/src/index.cjs *)

Module Retry.
  (** The options object of [retry]; [None] is a property left undefined. *)
Record Options : Type := {
    retries : option Z;
    delay : option Q;
    backoffFactor : option Q;
    retryableErrors : option (list string)
  }.

  (** The object literal [{}], also the default of the parameter. *)
Definition no_options : Options :=
    {| retries := None; delay := None; backoffFactor := None;
       retryableErrors := None |}.

  (** "Normalise error": the name and the message of the [Error] that [err]
      is, or is wrapped in. *)
Definition normalise (err : Thrown) : string * string :=
    match err with
    | ErrorObject name message => (name, message)
    | StringValue s => ("Error", s)
    | ObjectValue _ (Some str) => ("Error", str)
    | ObjectValue _ None => ("Error", "Unknown error")
    | NullValue | UndefinedValue => ("Error", "Unknown error")
    end.

Definition normalised (err : Thrown) : Thrown :=
    let '(name, message) := normalise err in ErrorObject name message.

  (** [err.message || err.toString()] of the normalised error. *)
Definition errorMessage (err : Thrown) : string :=
    let '(name, message) := normalise err in
    if truthy message then message else Error_toString name message.

  (** [retryableErrors.some(retryError => errorMessage.includes(retryError))] *)
Definition isRetryable (retryableErrors : list string) (err : Thrown) : bool :=
    existsb (fun retryError => includes (errorMessage err) retryError) retryableErrors.

  (** [delay * Math.pow(backoffFactor, attempt - 1)] *)
Definition waitTime (delay backoffFactor : Q) (attempt : Z) : Q :=
    (delay * backoffFactor ^ (attempt - 1))%Q.

(** The options as [retry] destructures them. *)
Definition retries_of (options : Options) : Z := default 3 (retries options).
Definition delay_of (options : Options) : Q := default 1000%Q (delay options).
Definition backoffFactor_of (options : Options) : Q :=
  default 2%Q (backoffFactor options).
Definition retryableErrors_of (options : Options) : list string :=
  default [] (retryableErrors options).

Section retry.
Context {W : Type} {T : Timers W} {A : Type}.
Variable fn : Async W A.

(** The [for] loop with [n] iterations left, the next one numbered
    [attempt].  Leaving the loop returns [undefined], here [None]. *)
Fixpoint retry_from (retries : Z) (delay backoffFactor : Q)
    (retryableErrors : list string) (n : nat) (attempt : Z)
  : Async W (option A) :=
  match n with
  | O => resolve None
  | S n' => fun w =>
      match fn w with
      | (Fulfilled a, w1) => (Fulfilled (Some a), w1)
      | (Rejected err, w1) =>
          let lastError := normalised err in
          if negb (isRetryable retryableErrors err) || (attempt =? retries + 1)
          then (Rejected lastError, w1)
          else retry_from retries delay backoffFactor retryableErrors n' (attempt + 1)
                 (setTimeout (waitTime delay backoffFactor attempt) w1)
      end
  end.

(** [{ retries = 3, delay = 1000, backoffFactor = 2, retryableErrors = [] }]
    and [for (let attempt = 1; attempt <= retries + 1; attempt++)] *)
Definition retry (options : Options) : Async W (option A) :=
  let retries := retries_of options in
  let delay := delay_of options in
  let backoffFactor := backoffFactor_of options in
  let retryableErrors := retryableErrors_of options in
  retry_from retries delay backoffFactor retryableErrors (Z.to_nat (retries + 1)) 1.
End retry.
End Retry.

(** ** [withRetry] of src/unnamed/part_000 *)

Module WithRetry.
Definition retryableErrors : list string :=
    [ "ETIMEOUT"; "ECONNRESET"; "ECONNREFUSED"; "ESOCKET";
      "PROTOCOL_SEQUENCE_TIMEOUT"; "EALREADYCONNECTED"; "EALREADYCONNECTING";
      "Failed to connect"; "Connection lost"; "Timeout"; "Socket hang up";
      "Network error"; "Request failed"; "Deadlock";
      "The connection has been lost"; "The server has reset the connection" ].

  (** [retryableErrors.some(errMsg =>
        text.toLowerCase().includes(errMsg.toLowerCase()))] *)
Definition matches (text : string) : bool :=
    existsb (fun errMsg => includes (toLowerCase text) (toLowerCase errMsg))
            retryableErrors.

Definition shouldRetry (err : Thrown) : bool :=
    match err with
    | ErrorObject _ message | ObjectValue (Some message) _ =>
        if truthy message then matches message else false
    | StringValue s => matches s
    | ObjectValue None _ | NullValue | UndefinedValue => false
    end.

  (** [Math.min(maxDelay, baseDelay * Math.pow(2, attempts - 1) *
      (1 + Math.random() * 0.2))], [random] being the value drawn. *)
Definition jitter (random : Q) : Q := (1 + random * 0.2)%Q.

Definition backoff (baseDelay maxDelay : Q) (attempts : Z) (random : Q) : Q :=
    Qmin maxDelay (baseDelay * 2 ^ (attempts - 1) * jitter random)%Q.

(** The options as [withRetry] destructures them. *)
Definition options_or_empty (options : option RetryOptions) : RetryOptions :=
  default {| maxRetries := None; baseDelay := None; maxDelay := None |} options.
Definition maxRetries_of (options : option RetryOptions) : Z :=
  default 3 (maxRetries (options_or_empty options)).
Definition baseDelay_of (options : option RetryOptions) : Q :=
  default 1000%Q (baseDelay (options_or_empty options)).
Definition maxDelay_of (options : option RetryOptions) : Q :=
  default 10000%Q (maxDelay (options_or_empty options)).

Section withRetry.
Context {W : Type} {T : Timers W} {A : Type}.
Variable fn : Async W A.

(** The [while (true)] loop, entered with [attempts] failures so far.
    [budget] bounds the iterations still to come; the branch that has none
    left is never taken when the loop starts with [Z.to_nat maxRetries]
    (lemma [withRetry_loop_budget]). *)
Fixpoint withRetry_loop (maxRetries : Z) (baseDelay maxDelay : Q)
    (budget : nat) (attempts : Z) : Async W A :=
  fun w =>
    match fn w with
    | (Fulfilled a, w1) => (Fulfilled a, w1)
    | (Rejected err, w1) =>
        let attempts := attempts + 1 in
        if (attempts >=? maxRetries) || negb (shouldRetry err)
        then (Rejected err, w1)
        else
          let '(random, w2) := Math_random w1 in
          let delay := backoff baseDelay maxDelay attempts random in
          match budget with
          | S budget' =>
              withRetry_loop maxRetries baseDelay maxDelay budget' attempts
                (setTimeout delay w2)
          | O => (Rejected err, w2)
          end
    end.

(** [options = {}] and
    [{ maxRetries = 3, baseDelay = 1000, maxDelay = 10000 } = options] *)
Definition withRetry (options : option RetryOptions) : Async W A :=
  let maxRetries := maxRetries_of options in
  let baseDelay := baseDelay_of options in
  let maxDelay := maxDelay_of options in
  withRetry_loop maxRetries baseDelay maxDelay (Z.to_nat maxRetries) 0.
End withRetry.
End WithRetry.

(** ** A test harness: scripted work functions and fake timers *)

Module Harness.
  (** The world of a test: how often the work function was called, the
      timeouts that were awaited (oldest first) and how many random numbers
      were drawn. *)
Record World : Type := {
    calls : nat;
    timeouts : list Q;
    draws : nat
  }.

Definition start : World := {| calls := 0; timeouts := []; draws := 0 |}.

  (** A work function whose [i]-th call (from 0) settles as [script i]. *)
Definition scripted {A} (script : nat -> Completion A) : Async World A :=
    fun w =>
      (script (calls w),
       {| calls := S (calls w); timeouts := timeouts w; draws := draws w |}).

  (** Fake timers; the [i]-th call of [Math.random] (from 0) yields [rnd i]. *)
Definition timers (rnd : nat -> Q) : Timers World := {|
    setTimeout ms w :=
      {| calls := calls w; timeouts := timeouts w ++ [ms]; draws := draws w |};
    Math_random w :=
      (rnd (draws w),
       {| calls := calls w; timeouts := timeouts w; draws := S (draws w) |})
  |}.

(** [retry] and [withRetry] run on a scripted work function, from [start]. *)
Definition run_retry {A} (script : nat -> Completion A) (options : Retry.Options)
  : Completion (option A) * World :=
  @Retry.retry World (timers (fun _ => 0%Q)) A (scripted script) options start.

Definition run_withRetry {A} (script : nat -> Completion A) (rnd : nat -> Q)
    (options : option RetryOptions) : Completion A * World :=
  @WithRetry.withRetry World (timers rnd) A (scripted script) options start.
End Harness.

(** ** The driver and the stream helpers *)

(** A result row: its columns in order. *)
Definition Row : Type := list (string * JsValue).

(** [row.key] *)
Fixpoint property (key : string) (row : Row) : JsValue :=
  match row with
  | [] => JUndefined
  | (k, v) :: row' => if String.eqb k key then v else property key row'
  end.

(** A connection pool handle. *)
Definition Pool : Type := nat.

(** What [pool.request().query(sql)] resolves to; [recordset] is [None] when
    the statement produced no record set. *)
Record QueryResult : Type := { recordset : option (list Row) }.

(** The calls into the [mssql] package. *)
Class Driver (W : Type) : Type := {
  (** [mssql.connect(config)] *)
  mssql_connect : option credentials.t -> Async W Pool;
  (** [pool.request().query(sql)] *)
  request_query : Pool -> string -> Async W QueryResult;
  (** [new mssql.Request(pool)] with [stream = true], [query(queryString)],
      the ['recordset'] event and [toReadableStream()]: the column metadata
      the event carries and the rows the stream delivers, in order, to its
      end.  The source waits for the event through
      [new Promise((res) => request.once('recordset', res))], a promise
      without a reject path, so this step has no failing outcome: a request
      on which the event never fires (a query the server refuses) leaves
      [runQuery] unsettled, and such a run has no outcome in this model. *)
  request_stream : Pool -> string -> W -> (list Field * list Row) * W;
  (** [pool.close()] *)
  pool_close : Pool -> Async W unit
}.

(** The streamed query as the source awaits it. *)
Definition stream_query {W} {D : Driver W} (pool : Pool) (queryString : string)
  : Async W (list Field * list Row) :=
  settle (request_stream pool queryString).

(** The decorated batch sequence handed to the host.  [closeConnection] is
    the pool that the [closeConnection] callback given to
    [asyncIterableToBatchedAsyncGenerator] closes, [None] when no callback
    was given. *)
Record ResultStream : Type := {
  rows : list (list Row);
  closeConnection : option Pool;
  columnTypes : list ColumnType;
  expectedRowCount : JsValue
}.

(** [results.columnTypes = t] *)
Definition set_columnTypes (t : list ColumnType) (results : ResultStream) : ResultStream :=
  {| rows := rows results; closeConnection := closeConnection results;
     columnTypes := t; expectedRowCount := expectedRowCount results |}.

(** [results.expectedRowCount = c] *)
Definition set_expectedRowCount (c : JsValue) (results : ResultStream) : ResultStream :=
  {| rows := rows results; closeConnection := closeConnection results;
     columnTypes := columnTypes results; expectedRowCount := c |}.

Fixpoint batches_of (fuel batchSize : nat) (stream : list Row) : list (list Row) :=
  match fuel, stream with
  | _, [] => []
  | O, _ :: _ => []
  | S fuel', _ :: _ =>
      firstn batchSize stream :: batches_of fuel' batchSize (skipn batchSize stream)
  end.

(** Modelled from the spec: [asyncIterableToBatchedAsyncGenerator] of
    [@evidence-dev/db-commons], which is not part of this repository.  It
    converts the row stream "into a sequence of batches, each containing at
    most batchSize rows, preserving source row order", "all of size B except
    possibly the last".  The spec is silent on a batch size of 0.  The third
    argument is the [closeConnection] callback of the options object, [None]
    when the call has no third argument; [columnTypes] and
    [expectedRowCount] are set by the caller afterwards. *)
Definition asyncIterableToBatchedAsyncGenerator
    (stream : list Row) (batchSize : nat) (closeConnection : option Pool)
  : ResultStream :=
  {| rows := batches_of (List.length stream) batchSize stream;
     closeConnection := closeConnection;
     columnTypes := [];
     expectedRowCount := JUndefined |}.

(** Modelled from the spec: [exhaustStream] of [@evidence-dev/db-commons],
    which "fully drains the resulting stream".  Every batch is pulled; the
    sequence then ends, and "the underlying connection resource is released
    when the stream is fully consumed": the [closeConnection] callback, when
    there is one, is called.  The spec does not say what a failing release
    does to the drain; here it fails the drain. *)
Definition exhaustStream {W} {D : Driver W} (results : ResultStream) : Async W unit :=
  match closeConnection results with
  | Some pool => pool_close pool
  | None => resolve tt
  end.

(** The template literal that wraps [cleaned_string] in the counting query. *)
Definition count_query (cleaned_string : string) : string :=
  ("SELECT COUNT(*) as expected_row_count FROM (" ++ cleaned_string
     ++ ") as subquery")%string.

(** [expected_count?.recordset[0].expected_row_count]; [None] is the [null]
    left by [.catch(() => null)]. *)
Definition expected_row_count_of (expected_count : option QueryResult)
  : Completion JsValue :=
  match expected_count with
  | None => Fulfilled JUndefined
  | Some result =>
      match recordset result with
      | None =>
          Rejected (TypeError "Cannot read properties of undefined (reading '0')")
      | Some [] =>
          Rejected (TypeError
            "Cannot read properties of undefined (reading 'expected_row_count')")
      | Some (row :: _) => Fulfilled (property "expected_row_count" row)
      end
  end.

(** [m.catch(() => null)] *)
Definition or_null {W A} (m : Async W A) : Async W (option A) :=
  catch (bind m (fun a => resolve (Some a))) (fun _ => resolve None).

(** The value [testConnection] resolves to: [true] or [{ reason }]. *)
Inductive TestResult : Type :=
| IsTrue
| Reason (reason : string).

(** [(e) => ({ reason: e.message ?? (e.toString() || 'Invalid Credentials') })] *)
Definition reason_of (e : Thrown) : Completion TestResult :=
  match e with
  | ErrorObject _ message | ObjectValue (Some message) _ =>
      Fulfilled (Reason message)
  | StringValue s =>
      Fulfilled (Reason (if truthy s then s else "Invalid Credentials"))
  | ObjectValue None (Some str) =>
      Fulfilled (Reason (if truthy str then str else "Invalid Credentials"))
  | ObjectValue None None =>
      Rejected (TypeError "e.toString is not a function")
  | NullValue =>
      Rejected (TypeError "Cannot read properties of null (reading 'message')")
  | UndefinedValue =>
      Rejected (TypeError "Cannot read properties of undefined (reading 'message')")
  end.

(** The default of the [database] parameter: [database = {}]. *)
Definition database_or_empty (database : ConfigArg) : ConfigArg :=
  match database with
  | NotGiven => Given database.empty
  | _ => database
  end.

(** The default of the [batchSize] parameter: [batchSize = 100000]. *)
Definition default_batchSize : nat := Z.to_nat 100000.

(** [v || d] for a number [v]: [undefined] and 0 are falsy. *)
Definition or_number (v : option nat) (d : nat) : nat :=
  match v with
  | Some (S n) => S n
  | _ => d
  end.

(** ** Query execution of src/datasource/src/index.cjs *)

Module Index.
(** The module-level [poolPromise] next to the rest of the world. *)
Record State (W : Type) : Type := {
  poolPromise : option Pool;
  world : W
}.
Arguments poolPromise {W} s.
Arguments world {W} s.

(** A computation that leaves [poolPromise] alone. *)
Definition run {W A} (m : Async W A) : Async (State W) A :=
  fun s =>
    let '(r, w) := m (world s) in
    (r, {| poolPromise := poolPromise s; world := w |}).

#[export] Instance state_timers {W} {T : Timers W} : Timers (State W) := {|
  setTimeout ms s :=
    {| poolPromise := poolPromise s; world := setTimeout ms (world s) |};
  Math_random s :=
    let '(x, w) := Math_random (world s) in
    (x, {| poolPromise := poolPromise s; world := w |})
|}.

Definition retryableErrors : list string :=
  [ "ETIMEOUT"; "ECONNREFUSED"; "RequestError: Timeout";
    "A network-related or instance-specific error occurred";
    "Connection lost"; "Failed to connect" ].

(** The options [runQuery] passes to [retry]. *)
Definition retry_options : Retry.Options :=
  {| Retry.retries := Some 3;
     Retry.delay := Some 1000%Q;
     Retry.backoffFactor := Some 2%Q;
     Retry.retryableErrors := Some retryableErrors |}.

(** [(typeof err === 'string') ? err
      : (err?.message ?? err?.toString?.() ?? 'Unknown error')] *)
Definition errStr (err : Thrown) : string :=
  match err with
  | StringValue s => s
  | ErrorObject _ message | ObjectValue (Some message) _ => message
  | ObjectValue None (Some str) => str
  | ObjectValue None None | NullValue | UndefinedValue => "Unknown error"
  end.

Section Index.
Context {W : Type} {T : Timers W} {D : Driver W} {B : Builtins}.

Definition getPool (config : option credentials.t) : Async (State W) Pool :=
  fun s =>
    match poolPromise s with
    | Some pool => (Fulfilled pool, s)
    | None =>
        match mssql_connect config (world s) with
        | (Fulfilled pool, w) => (Fulfilled pool, {| poolPromise := Some pool; world := w |})
        | (Rejected err, w) => (Rejected err, {| poolPromise := None; world := w |})
        end
    end.

Section runQuery.
Variable queryString : string.
Variable database : ConfigArg.
Variable batchSize : option nat.

(** The part of [queryExecution] from [new mssql.Request(pool)] on. *)
Definition streamed (pool : Pool) (expected_row_count : JsValue)
  : Async (State W) ResultStream :=
  ('(columns, stream) <- run (stream_query pool queryString) ;;
   let results :=
     asyncIterableToBatchedAsyncGenerator stream
       (default default_batchSize batchSize) None in
   let results := set_columnTypes (mapResultsToEvidenceColumnTypes columns) results in
   let results := set_expectedRowCount expected_row_count results in
   resolve results)%async.

(** The part of [queryExecution] after the pool is there. *)
Definition counted_then_streamed (pool : Pool) : Async (State W) ResultStream :=
  (let cleaned_string := cleanQuery queryString in
   expected_count <-
     or_null (run (request_query pool (count_query cleaned_string))) ;;
   expected_row_count <- lift (expected_row_count_of expected_count) ;;
   streamed pool expected_row_count)%async.

Definition queryExecution : Async (State W) ResultStream :=
  (config <- lift (buildConfig (database_or_empty database)) ;;
   pool <- getPool config ;;
   counted_then_streamed pool)%async.

(** The [catch] block of [runQuery]. *)
Definition surface {A} (err : Thrown) : Async (State W) A :=
  reject (StringValue (replace_newlines (errStr err))).

Definition runQuery : Async (State W) (option ResultStream) :=
  catch
    (Retry.retry queryExecution retry_options)
    surface.
End runQuery.

(** [then(exhaustStream)] on what [runQuery] resolved to; [None] is
    [undefined], which [runQuery] never resolves to (lemma
    [runQuery_defined]). *)
Definition drain (results : option ResultStream) : Async (State W) unit :=
  match results with
  | Some results => run (exhaustStream results)
  | None => reject (TypeError "Cannot destructure 'undefined'")
  end.

Definition testConnection (opts : ConfigArg) : Async (State W) TestResult :=
  catch
    (results <- runQuery "SELECT 1 AS TEST;" opts None ;;
     _ <- drain results ;;
     resolve IsTrue)%async
    (fun e => lift (reason_of e)).
End Index.
End Index.

(** ** Query execution of src/unnamed/part_000 *)

Module Part000.
(** The [throw] statements of the [catch] block of [runQuery]:
    [if (err.message) throw err.message.replace(...)] [else throw
    err.replace(...)].  Only a string has a [replace] method. *)
Definition rethrown (err : Thrown) : Thrown :=
  match err with
  | ErrorObject _ message | ObjectValue (Some message) _ =>
      if truthy message then StringValue (replace_newlines message)
      else TypeError "err.replace is not a function"
  | StringValue s => StringValue (replace_newlines s)
  | ObjectValue None _ => TypeError "err.replace is not a function"
  | NullValue =>
      TypeError "Cannot read properties of null (reading 'message')"
  | UndefinedValue =>
      TypeError "Cannot read properties of undefined (reading 'message')"
  end.

Section Part000.
Context {W : Type} {T : Timers W} {D : Driver W} {B : Builtins}.

(** [database.retryOptions || {}] *)
Definition retryOptions_of (d : database.t) : option RetryOptions :=
  Some (default {| maxRetries := None; baseDelay := None; maxDelay := None |}
                (database.retryOptions d)).

Section runQuery.
Variable queryString : string.
Variable database : ConfigArg.
Variable batchSize : option nat.

(** The work function of the third [withRetry]. *)
Definition streamed (pool : Pool) (expected_row_count : JsValue)
  : Async W ResultStream :=
  ('(columns, stream) <- stream_query pool queryString ;;
   let results :=
     asyncIterableToBatchedAsyncGenerator stream
       (default default_batchSize batchSize) (Some pool) in
   let results := set_columnTypes (mapResultsToEvidenceColumnTypes columns) results in
   let results := set_expectedRowCount expected_row_count results in
   resolve results)%async.

(** The [try] block up to the assignment of [pool]. *)
Definition connected : Async W (Pool * option RetryOptions) :=
  (config <- lift (buildConfig (database_or_empty database)) ;;
   let retryOptions :=
     match database_or_empty database with
     | Given d => retryOptions_of d
     | _ => None
     end in
   pool <- WithRetry.withRetry (mssql_connect config) retryOptions ;;
   resolve (pool, retryOptions))%async.

(** The rest of the [try] block. *)
Definition counted_then_streamed (pool : Pool) (retryOptions : option RetryOptions)
  : Async W ResultStream :=
  (let cleaned_string := cleanQuery queryString in
   expected_count <-
     or_null (WithRetry.withRetry
                (request_query pool (count_query cleaned_string)) retryOptions) ;;
   expected_row_count <- lift (expected_row_count_of expected_count) ;;
   WithRetry.withRetry (streamed pool expected_row_count) retryOptions)%async.

(** The [catch] block; [pool] is [None] while the variable is unassigned. *)
Definition failed {A} (pool : option Pool) (err : Thrown) : Async W A :=
  (_ <- match pool with
        | Some pool => catch (pool_close pool) (fun closeErr => resolve tt)
        | None => resolve tt
        end ;;
   reject (rethrown err))%async.

Definition runQuery : Async W ResultStream :=
  fun w =>
    match connected w with
    | (Rejected err, w1) => failed None err w1
    | (Fulfilled (pool, retryOptions), w1) =>
        catch (counted_then_streamed pool retryOptions) (failed (Some pool)) w1
    end.
End runQuery.

(** [opts.retryOptions || {}], the first statement of [testConnection],
    outside any [try]: reading a property of [undefined] or [null] throws a
    [TypeError]; a primitive has no such property. *)
Definition retryOptions_of_opts (opts : Opts) : Completion (option RetryOptions) :=
  match opts with
  | UndefinedOpts =>
      Rejected (TypeError "Cannot read properties of undefined (reading 'retryOptions')")
  | NullOpts =>
      Rejected (TypeError "Cannot read properties of null (reading 'retryOptions')")
  | PrimitiveOpts => Fulfilled None
  | ObjectOpts d => Fulfilled (retryOptions_of d)
  end.

(** [opts] as the [database] argument of [runQuery]; this is reached with a
    value that is neither [undefined] nor [null]. *)
Definition database_of_opts (opts : Opts) : ConfigArg :=
  match opts with
  | UndefinedOpts => NotGiven
  | NullOpts | PrimitiveOpts => NotAnObject
  | ObjectOpts d => Given d
  end.

(** [testConnection] *)
Definition testConnection (opts : Opts) : Async W TestResult :=
  (retryOptions <- lift (retryOptions_of_opts opts) ;;
   WithRetry.withRetry
     (catch
        (results <- runQuery "SELECT 1 AS TEST;" (database_of_opts opts) None ;;
         _ <- exhaustStream results ;;
         resolve IsTrue)%async
        (fun e => lift (reason_of e)))
     retryOptions)%async.

(** [getRunner]: the runner resolves to [None] for [null]. *)
Definition getRunner (opts : ConfigArg)
    (queryContent queryPath : string) (batchSize : option nat)
  : Async W (option ResultStream) :=
  if negb (endsWith queryPath ".sql") then resolve None
  else (results <- runQuery queryContent opts batchSize ;;
        resolve (Some results))%async.

(** [processSource]: [batchSize] is [sourceConfig.batchSize], [None] when the
    property is not set. *)
Definition processSource (sourceConfig : database.t) (batchSize : option nat)
    (queryContent queryPath : string)
  : Async W (option ResultStream) :=
  if negb (endsWith queryPath ".sql") then resolve None
  else (results <- runQuery queryContent (Given sourceConfig)
                     (Some (or_number batchSize (Z.to_nat 100000))) ;;
        resolve (Some results))%async.
End Part000.
End Part000.

(** ** The Azure-only module text in src/datasource/src/index.cjs

    The file holds a second module after its separator line (lines 469-820
    of the file): [getAuthenticationMethod] and a [runQuery] without retry. *)

Module Azure.
Module database.
(** The properties of the configuration object this module reads. *)
Record t : Type := {
  authenticator : JsValue;
  server : JsValue;
  database : JsValue;
  port : JsValue;
  pwuname : JsValue;
  pwpword : JsValue;
  pwclientid : JsValue;
  pwtenantid : JsValue;
  attoken : JsValue;
  spclientid : JsValue;
  spclientsecret : JsValue;
  sptenantid : JsValue
}.

(** The object literal [{}]. *)
Definition empty : t :=
  {| authenticator := JUndefined; server := JUndefined; database := JUndefined;
     port := JUndefined; pwuname := JUndefined; pwpword := JUndefined;
     pwclientid := JUndefined; pwtenantid := JUndefined; attoken := JUndefined;
     spclientid := JUndefined; spclientsecret := JUndefined;
     sptenantid := JUndefined |}.
End database.

Module credentials.
Record options_t : Type := {
  trustServerCertificate : bool;
  port : JsValue;
  encrypt : bool
}.

Record t : Type := {
  authentication : authentication.t;
  server : JsValue;
  database : JsValue;
  options : options_t
}.
End credentials.

(** The calls into the [mssql] package; [new mssql.Request()] takes no pool.
    As in the other modules, the wait for the ['recordset'] event has no
    reject path. *)
Class Driver (W : Type) : Type := {
  mssql_connect : option credentials.t -> Async W Pool;
  request_query : Pool -> string -> Async W QueryResult;
  request_stream : string -> W -> (list Field * list Row) * W;
  pool_close : Pool -> Async W unit
}.

(** The streamed query as the source awaits it. *)
Definition stream_query {W} {D : Driver W} (queryString : string)
  : Async W (list Field * list Row) :=
  settle (request_stream queryString).

Section Azure.
Context {W : Type} {D : Driver W} {B : Builtins}.

(** [getAuthenticationMethod]; [None] is a call that returns [undefined]. *)
Definition getAuthenticationMethod (d : database.t) (authtype : JsValue)
  : option credentials.t :=
  let authentication_method := authtype in
  let described (a : authentication.t) : option credentials.t :=
    Some {| credentials.authentication := a;
            credentials.server := database.server d;
            credentials.database := database.database d;
            credentials.options :=
              {| credentials.trustServerCertificate := true;
                 credentials.port :=
                   parseInt (nullish_or (database.port d) (JNumber 1433));
                 credentials.encrypt := true |} |} in
  if is_string authentication_method "aadpassword" then
    described {| authentication.type := "azure-active-directory-password";
                 authentication.options :=
                   Some [("userName", database.pwuname d);
                         ("password", database.pwpword d);
                         ("clientId", database.pwclientid d);
                         ("tenantId", database.pwtenantid d)] |}
  else if is_string authentication_method "aadaccesstoken" then
    described {| authentication.type := "azure-active-directory-access-token";
                 authentication.options := Some [("token", database.attoken d)] |}
  else if is_string authentication_method "aadserviceprincipal" then
    described {| authentication.type :=
                   "azure-active-directory-service-principal-secret";
                 authentication.options :=
                   Some [("clientId", database.spclientid d);
                         ("clientSecret", database.spclientsecret d);
                         ("tenantId", database.sptenantid d)] |}
  else if is_string authentication_method "aaddefault" then
    described {| authentication.type := "azure-active-directory-default";
                 authentication.options := None |}
  else None.

Section runQuery.
Variable queryString : string.
(** [None] is an argument left [undefined], which the default [{}] replaces;
    otherwise the argument is an object, as its JSDoc type says. *)
Variable database : option database.t.
Variable batchSize : option nat.

(** The [try] block. *)
Definition attempted : Async W ResultStream :=
  (let d := default database.empty database in
   let authtype := nullish_or (database.authenticator d) (JString "aadaccesstoken") in
   let credentials := getAuthenticationMethod d authtype in
   pool <- mssql_connect credentials ;;
   let cleaned_string := cleanQuery queryString in
   expected_count <- or_null (request_query pool (count_query cleaned_string)) ;;
   expected_row_count <- lift (expected_row_count_of expected_count) ;;
   '(columns, stream) <- stream_query queryString ;;
   let results :=
     asyncIterableToBatchedAsyncGenerator stream
       (default default_batchSize batchSize) (Some pool) in
   let results := set_columnTypes (mapResultsToEvidenceColumnTypes columns) results in
   let results := set_expectedRowCount expected_row_count results in
   resolve results)%async.

(** The [catch] block: [if (err.message)] it throws the flattened message,
    otherwise it only logs, and the function returns [undefined]. *)
Definition handled (err : Thrown) : Completion (option ResultStream) :=
  match err with
  | ErrorObject _ message | ObjectValue (Some message) _ =>
      if truthy message then Rejected (StringValue (replace_newlines message))
      else Fulfilled None
  | StringValue _ | ObjectValue None _ => Fulfilled None
  | NullValue =>
      Rejected (TypeError "Cannot read properties of null (reading 'message')")
  | UndefinedValue =>
      Rejected (TypeError "Cannot read properties of undefined (reading 'message')")
  end.

Definition runQuery : Async W (option ResultStream) :=
  catch (results <- attempted ;; resolve (Some results))%async
        (fun err => lift (handled err)).
End runQuery.
End Azure.
End Azure.

(** ** A stateless driver for examples *)

Module Demo.
(** How each driver call settles, whenever it is made. *)
Record Behaviour : Type := {
  connecting : Completion Pool;
  counting : Completion QueryResult;
  streaming : list Field * list Row;
  closing : Completion unit
}.

Definition driver (b : Behaviour) : Driver unit := {|
  mssql_connect _ := lift (connecting b);
  request_query _ _ := lift (counting b);
  request_stream _ _ w := (streaming b, w);
  pool_close _ := lift (closing b)
|}.

Definition timers : Timers unit := {|
  setTimeout _ w := w;
  Math_random w := (0%Q, w)
|}.

(** [parseInt] on values that are numbers already; [cleanQuery] on text that
    is clean already. *)
Definition builtins : Builtins := {|
  parseInt v := v;
  cleanQuery q := q
|}.

Definition sql_login : database.t :=
  {| database.user := JString "sa";
     database.server := JString "localhost";
     database.database := JString "master";
     database.password := JString "secret";
     database.connection_port := JUndefined;
     database.connection_timeout := JUndefined;
     database.request_timeout := JUndefined;
     database.trust_server_certificate := JUndefined;
     database.encrypt := JUndefined;
     database.authenticationType := JString "default";
     database.attoken := JUndefined;
     database.pwuname := JUndefined;
     database.pwpword := JUndefined;
     database.pwclientid := JUndefined;
     database.pwtenantid := JUndefined;
     database.spclientid := JUndefined;
     database.spclientsecret := JUndefined;
     database.sptenantid := JUndefined;
     database.retryOptions := None |}.

(** [sql_login] with another [authenticationType]. *)
Definition with_authenticationType (a : JsValue) : database.t :=
  {| database.user := database.user sql_login;
     database.server := database.server sql_login;
     database.database := database.database sql_login;
     database.password := database.password sql_login;
     database.connection_port := JUndefined;
     database.connection_timeout := JUndefined;
     database.request_timeout := JUndefined;
     database.trust_server_certificate := JUndefined;
     database.encrypt := JUndefined;
     database.authenticationType := a;
     database.attoken := JString "tok";
     database.pwuname := JUndefined;
     database.pwpword := JUndefined;
     database.pwclientid := JUndefined;
     database.pwtenantid := JUndefined;
     database.spclientid := JUndefined;
     database.spclientsecret := JUndefined;
     database.sptenantid := JUndefined;
     database.retryOptions := None |}.

(** A work function that fails [k] times with [e] and then returns [v]. *)
Definition flaky (k : nat) (e : Thrown) (v : nat) : nat -> Completion nat :=
  fun i => if (i <? k)%nat then Rejected e else Fulfilled v.

(** A work function that fails with [e] whenever it is called. *)
Definition failing (e : Thrown) : nat -> Completion nat :=
  fun _ => Rejected e.

(** [{ maxRetries: n }] *)
Definition at_most (n : Z) : option RetryOptions :=
  Some {| maxRetries := Some n; baseDelay := None; maxDelay := None |}.

(** Five rows, numbered. *)
Definition five_rows : list Row :=
  [ [("n", JNumber 1)]; [("n", JNumber 2)]; [("n", JNumber 3)];
    [("n", JNumber 4)]; [("n", JNumber 5)] ].

Definition one_row : Row := [("TEST", JNumber 1)].
Definition test_column : Field := {| field_name := "TEST"; field_type := Some mssql.Int |}.

(** A server that accepts the login and answers every query. *)
Definition healthy : Behaviour :=
  {| connecting := Fulfilled 1%nat;
     counting := Fulfilled {| recordset := Some [[("expected_row_count", JNumber 1)]] |};
     streaming := ([test_column], [one_row]);
     closing := Fulfilled tt |}.

(** A server that rejects the login. *)
Definition login_failed : Behaviour :=
  {| connecting := Rejected (ErrorObject "ConnectionError" "Login failed for user 'sa'.");
     counting := Rejected (Error "unreachable");
     streaming := ([], []);
     closing := Fulfilled tt |}.

(** A connection attempt that fails with an [Error] without a message. *)
Definition silent_failure : Behaviour :=
  {| connecting := Rejected (Error "");
     counting := Rejected (Error "unreachable");
     streaming := ([], []);
     closing := Fulfilled tt |}.

(** A server on which the counting query is refused and the query itself
    runs. *)
Definition count_refused (stream : list Row) : Behaviour :=
  {| connecting := Fulfilled 1%nat;
     counting := Rejected (ErrorObject "RequestError" "Incorrect syntax near ';'.");
     streaming := ([test_column], stream);
     closing := Fulfilled tt |}.

(** A server on which the counting query answers [count] and the query
    itself runs. *)
Definition count_answered (count : Z) (stream : list Row) : Behaviour :=
  {| connecting := Fulfilled 1%nat;
     counting :=
       Fulfilled {| recordset := Some [[("expected_row_count", JNumber count)]] |};
     streaming := ([test_column], stream);
     closing := Fulfilled tt |}.
End Demo.

(** A driver for the Azure-only module whose connection attempt fails with
    [e]. *)
Definition refusing (e : Thrown) : Azure.Driver unit := {|
  Azure.mssql_connect _ := reject e;
  Azure.request_query _ _ := reject (Error "unreachable");
  Azure.request_stream _ w := (([], []), w);
  Azure.pool_close _ := resolve tt
|}.

(** The names [getAuthenticationMethod] knows, each with the [type] of the
    authentication block it makes. *)
Definition authentication_methods : list (string * string) :=
  [ ("aadpassword", "azure-active-directory-password");
    ("aadaccesstoken", "azure-active-directory-access-token");
    ("aadserviceprincipal", "azure-active-directory-service-principal-secret");
    ("aaddefault", "azure-active-directory-default") ].

(** ** Vocabulary of the properties *)

(** The table of the [switch]: the tags that have a portable type. *)
Definition number_tags : list mssql.TYPES :=
  [ mssql.Int; mssql.TinyInt; mssql.BigInt; mssql.SmallInt; mssql.Float;
    mssql.Real; mssql.Decimal; mssql.Numeric; mssql.SmallMoney; mssql.Money ].
Definition date_tags : list mssql.TYPES :=
  [ mssql.DateTime; mssql.SmallDateTime; mssql.DateTimeOffset; mssql.Date;
    mssql.DateTime2 ].
Definition string_tags : list mssql.TYPES :=
  [ mssql.VarChar; mssql.NVarChar; mssql.Char; mssql.NChar; mssql.Xml;
    mssql.Text; mssql.NText ].
Definition boolean_tags : list mssql.TYPES := [ mssql.Bit ].

Definition table : list (mssql.TYPES * EvidenceType) :=
  map (fun t => (t, NUMBER)) number_tags ++ map (fun t => (t, DATE)) date_tags
  ++ map (fun t => (t, STRING)) string_tags
  ++ map (fun t => (t, BOOLEAN)) boolean_tags.

Definition in_table (data_type : option mssql.TYPES) (e : EvidenceType) : Prop :=
  exists tag, data_type = Some tag /\ In (tag, e) table.

Definition outside_table (data_type : option mssql.TYPES) : Prop :=
  forall e, ~ in_table data_type e.

(** The five values of [authenticationType] that [buildConfig] knows. *)
Definition known_authenticationTypes : list string :=
  [ "default"; "azure-active-directory-default";
    "azure-active-directory-access-token"; "azure-active-directory-password";
    "azure-active-directory-service-principal-secret" ].

(** The [i]-th call is rejected with an error that [test] accepts. *)
Definition fails_at {A} (script : nat -> Completion A) (test : Thrown -> bool)
    (i : nat) : Prop :=
  exists e, script i = Rejected e /\ test e = true.

(** [ceil(R / B)] for a positive [B]. *)
Definition ceil_div (R B : nat) : nat := ((R + B - 1) / B)%nat.

(** What the spec asks of the batch sequence made from [stream] with batch
    size [B]. *)
Record batched (B : nat) (stream : list Row) (batches : list (list Row)) : Prop := {
  batch_count : List.length batches = ceil_div (List.length stream) B;
  batch_full : forall i, (S i < List.length batches)%nat ->
                 List.length (nth i batches []) = B;
  batch_last : (0 < List.length (last batches []) <= B)%nat \/ batches = [];
  batch_order : List.concat batches = stream
}.

(** [results.expectedRowCount = c] on the outcome of a computation. *)
Definition relabel {W} (c : JsValue) (r : Completion ResultStream * W)
  : Completion ResultStream * W :=
  match r with
  | (Fulfilled results, w) => (Fulfilled (set_expectedRowCount c results), w)
  | (Rejected e, w) => (Rejected e, w)
  end.

(** What [.catch(() => null)] leaves of a settled promise. *)
Definition caught_null {A} (r : Completion A) : option A :=
  match r with
  | Fulfilled a => Some a
  | Rejected _ => None
  end.

(** The value [runQuery] returns for the delivered [columns] and [stream]:
    the batches, then [results.columnTypes] and [results.expectedRowCount]. *)
Definition returned (closeConnection : option Pool) (size : nat)
    (columns : list Field) (stream : list Row) (expected_row_count : JsValue)
  : ResultStream :=
  set_expectedRowCount expected_row_count
    (set_columnTypes (mapResultsToEvidenceColumnTypes columns)
       (asyncIterableToBatchedAsyncGenerator stream size closeConnection)).

(** * Properties *)

(** ** Strings *)

Lemma occurs_replace_newlines (c : ascii) (s : string) :
  is_newline c = true -> occurs c (replace_newlines s) = false.
Proof.
  intros Hc. induction s as [|d s IH]; simpl; [reflexivity|].
  rewrite IH, orb_false_r.
  destruct (is_newline d) eqn:Hd.
  - apply Ascii.eqb_neq. intros ->. discriminate Hc.
  - apply Ascii.eqb_neq. intros ->. congruence.
Qed.

Lemma replace_newlines_flat (s : string) :
  occurs LF (replace_newlines s) = false /\ occurs CR (replace_newlines s) = false.
Proof. split; apply occurs_replace_newlines; reflexivity. Qed.

Lemma replace_newlines_truthy (s : string) :
  truthy (replace_newlines s) = truthy s.
Proof. destruct s; reflexivity. Qed.

Lemma truthy_nonempty (s : string) : truthy s = true -> s <> "".
Proof. destruct s; simpl; congruence. Qed.

(** ** Type mapper *)

Lemma nativeTypeToEvidenceType_in_table data_type e :
  in_table data_type e -> nativeTypeToEvidenceType data_type None = Some e.
Proof.
  intros (tag & -> & H). unfold table in H. simpl in H.
  repeat (destruct H as [H|H]; [inversion H; reflexivity|]).
  contradiction.
Qed.

Lemma nativeTypeToEvidenceType_outside_table data_type :
  outside_table data_type -> nativeTypeToEvidenceType data_type None = None.
Proof.
  intros H. destruct data_type as [tag|]; [|reflexivity].
  destruct (nativeTypeToEvidenceType (Some tag) None) as [e|] eqn:E; [|reflexivity].
  exfalso. apply (H e). exists tag. split; [reflexivity|].
  destruct tag; simpl in E; inversion E; subst e; unfold table; simpl; tauto.
Qed.

(** The time-of-day tag is one of those the [switch] sends to [default]. *)
Lemma Time_outside_table : outside_table (Some mssql.Time).
Proof.
  intros e (tag & Htag & H). inversion Htag; subst tag.
  unfold table in H; simpl in H.
  repeat (destruct H as [H|H]; [discriminate H|]). contradiction.
Qed.

(** C2, as amended.  The mapper is a total function that keeps the columns in
    the order given and their names; column by column, a tag of the table
    (the ten numeric tags, [DateTime], [SmallDateTime], [DateTimeOffset],
    [Date] and [DateTime2], the seven character tags, [Bit]) yields the
    table's portable type with fidelity PRECISE, and every other tag, among
    them [Time], yields STRING with fidelity INFERRED. *)
Theorem mapResultsToEvidenceColumnTypes_table (fields : list Field) :
  map name (mapResultsToEvidenceColumnTypes fields) = map field_name fields
  /\ forall i field, nth_error fields i = Some field ->
       exists column,
         nth_error (mapResultsToEvidenceColumnTypes fields) i = Some column
         /\ name column = field_name field
         /\ (forall e, in_table (field_type field) e ->
               evidenceType column = e /\ typeFidelity column = PRECISE)
         /\ (outside_table (field_type field) ->
               evidenceType column = STRING /\ typeFidelity column = INFERRED).
Proof.
  split.
  - unfold mapResultsToEvidenceColumnTypes. rewrite map_map.
    apply map_ext. intros field.
    destruct (nativeTypeToEvidenceType _ _); reflexivity.
  - intros i field Hi. unfold mapResultsToEvidenceColumnTypes.
    rewrite nth_error_map, Hi. simpl. eexists. split; [reflexivity|].
    split; [destruct (nativeTypeToEvidenceType _ _); reflexivity|].
    split.
    + intros e He. rewrite (nativeTypeToEvidenceType_in_table _ _ He).
      split; reflexivity.
    + intros Ho. rewrite (nativeTypeToEvidenceType_outside_table _ Ho).
      split; reflexivity.
Qed.

Lemma mapResultsToEvidenceColumnTypes_table_witness :
  exists column,
    nth_error (mapResultsToEvidenceColumnTypes
                 [ {| field_name := "id"; field_type := Some mssql.Int |};
                   {| field_name := "at"; field_type := Some mssql.Time |} ]) 1
      = Some column
    /\ name column = "at"
    /\ evidenceType column = STRING /\ typeFidelity column = INFERRED.
Proof.
  destruct (proj2 (mapResultsToEvidenceColumnTypes_table
              [ {| field_name := "id"; field_type := Some mssql.Int |};
                {| field_name := "at"; field_type := Some mssql.Time |} ])
              1%nat {| field_name := "at"; field_type := Some mssql.Time |}
              eq_refl) as (column & H1 & H2 & _ & H4).
  exists column. split; [exact H1|]. split; [exact H2|].
  exact (H4 Time_outside_table).
Defined.

(** A column of the time-of-day type is not given the portable type DATE with
    fidelity PRECISE: it comes out as STRING, INFERRED. *)
Lemma Time_column_is_inferred_string :
  mapResultsToEvidenceColumnTypes
    [ {| field_name := "at"; field_type := Some mssql.Time |} ]
  = [ {| name := "at"; evidenceType := STRING; typeFidelity := INFERRED |} ]
  /\ mapResultsToEvidenceColumnTypes
       [ {| field_name := "at"; field_type := Some mssql.Time |} ]
     <> [ {| name := "at"; evidenceType := DATE; typeFidelity := PRECISE |} ].
Proof. split; [reflexivity | discriminate]. Qed.

(** ** Credential builder *)

Lemma is_string_true v s : v = JString s -> is_string v s = true.
Proof. intros ->. simpl. apply String.eqb_refl. Qed.

Lemma is_string_false v s : v <> JString s -> is_string v s = false.
Proof.
  intros H. destruct v; try reflexivity. simpl.
  apply String.eqb_neq. intros ->. apply H. reflexivity.
Qed.

Section BuildConfigProperties.
Context {B : Builtins}.

(** C4, as amended.  For an object [d]: with ['default'] the descriptor has
    no authentication block (the login goes by the top-level [user] and
    [password]); with each of the four Azure values it has exactly one
    authentication block, whose [type] is that value and whose [options]
    hold that variant's properties and no others (none at all for
    ['azure-active-directory-default']); with any other value
    [buildConfig] does not throw and returns [undefined], no descriptor. *)
Theorem buildConfig_authentication (d : database.t) :
  let a := database.authenticationType d in
  (a = JString "default" ->
     exists c, buildConfig (Given d) = Fulfilled (Some c)
       /\ credentials.authentication c = None
       /\ credentials.user c = database.user d
       /\ credentials.password c = database.password d)
  /\ (a = JString "azure-active-directory-default" ->
     exists c, buildConfig (Given d) = Fulfilled (Some c)
       /\ credentials.authentication c =
            Some {| authentication.type := "azure-active-directory-default";
                    authentication.options := None |})
  /\ (a = JString "azure-active-directory-access-token" ->
     exists c, buildConfig (Given d) = Fulfilled (Some c)
       /\ credentials.authentication c =
            Some {| authentication.type := "azure-active-directory-access-token";
                    authentication.options :=
                      Some [("token", database.attoken d)] |})
  /\ (a = JString "azure-active-directory-password" ->
     exists c, buildConfig (Given d) = Fulfilled (Some c)
       /\ credentials.authentication c =
            Some {| authentication.type := "azure-active-directory-password";
                    authentication.options :=
                      Some [("userName", database.pwuname d);
                            ("password", database.pwpword d);
                            ("clientId", database.pwclientid d);
                            ("tenantId", database.pwtenantid d)] |})
  /\ (a = JString "azure-active-directory-service-principal-secret" ->
     exists c, buildConfig (Given d) = Fulfilled (Some c)
       /\ credentials.authentication c =
            Some {| authentication.type :=
                      "azure-active-directory-service-principal-secret";
                    authentication.options :=
                      Some [("clientId", database.spclientid d);
                            ("clientSecret", database.spclientsecret d);
                            ("tenantId", database.sptenantid d)] |})
  /\ ((forall s, In s known_authenticationTypes -> a <> JString s) ->
     buildConfig (Given d) = Fulfilled None).
Proof.
  intros a. subst a. unfold buildConfig.
  repeat split.
  - intros H. rewrite H. simpl. eexists. repeat split.
  - intros H. rewrite H. simpl. eexists. repeat split.
  - intros H. rewrite H. simpl. eexists. repeat split.
  - intros H. rewrite H. simpl. eexists. repeat split.
  - intros H. rewrite H. simpl. eexists. repeat split.
  - intros H.
    rewrite !is_string_false; [reflexivity | | | | |];
      apply H; simpl; tauto.
Qed.
End BuildConfigProperties.

Lemma buildConfig_authentication_witness :
  (exists c,
     @buildConfig Demo.builtins (Given Demo.sql_login) = Fulfilled (Some c)
     /\ credentials.authentication c = None
     /\ credentials.user c = JString "sa"
     /\ credentials.password c = JString "secret")
  /\ (exists c,
     @buildConfig Demo.builtins
       (Given (Demo.with_authenticationType
                 (JString "azure-active-directory-access-token")))
       = Fulfilled (Some c)
     /\ credentials.authentication c =
          Some {| authentication.type := "azure-active-directory-access-token";
                  authentication.options := Some [("token", JString "tok")] |})
  /\ @buildConfig Demo.builtins
       (Given (Demo.with_authenticationType (JString "sqlauth")))
     = Fulfilled None.
Proof.
  split; [|split].
  - apply (proj1 (@buildConfig_authentication Demo.builtins Demo.sql_login)).
    reflexivity.
  - apply (proj1 (proj2 (proj2 (@buildConfig_authentication Demo.builtins
             (Demo.with_authenticationType
                (JString "azure-active-directory-access-token"))))));
      reflexivity.
  - apply (proj2 (proj2 (proj2 (proj2 (proj2
             (@buildConfig_authentication Demo.builtins
                (Demo.with_authenticationType (JString "sqlauth")))))))).
    intros s Hs. simpl in Hs.
    repeat (destruct Hs as [<- | Hs]; [discriminate|]). contradiction.
Defined.

(** With ['default'], one of the five known values, the descriptor has no
    authentication block at all; with ['sqlauth'], the default the options
    schema declares and not one of the five, no descriptor is returned. *)
Lemma buildConfig_default_has_no_authentication :
  (exists c,
     @buildConfig Demo.builtins (Given Demo.sql_login) = Fulfilled (Some c)
     /\ credentials.authentication c = None)
  /\ ~ (exists c,
     @buildConfig Demo.builtins
       (Given (Demo.with_authenticationType (JString "sqlauth")))
     = Fulfilled (Some c)).
Proof.
  split.
  - eexists. split; reflexivity.
  - intros (c & H). discriminate H.
Qed.
(** ** The retry wrappers *)

Section RetryLoops.
Context {W : Type} {T : Timers W} {A : Type}.
Variable fn : Async W A.

Lemma retry_from_S retries delay backoffFactor retryableErrors n attempt w :
  Retry.retry_from fn retries delay backoffFactor retryableErrors (S n) attempt w
  = match fn w with
    | (Fulfilled a, w1) => (Fulfilled (Some a), w1)
    | (Rejected err, w1) =>
        if negb (Retry.isRetryable retryableErrors err) || (attempt =? retries + 1)
        then (Rejected (Retry.normalised err), w1)
        else Retry.retry_from fn retries delay backoffFactor retryableErrors n
               (attempt + 1)
               (setTimeout (Retry.waitTime delay backoffFactor attempt) w1)
    end.
Proof. reflexivity. Qed.

(** A first call that fulfils is the only call. *)
Lemma retry_from_fulfilled retries delay backoffFactor retryableErrors n attempt w a w1 :
  fn w = (Fulfilled a, w1) ->
  Retry.retry_from fn retries delay backoffFactor retryableErrors (S n) attempt w
  = (Fulfilled (Some a), w1).
Proof. intros H. simpl. rewrite H. reflexivity. Qed.

(** A failure that is not retryable ends the loop at once. *)
Lemma retry_from_fatal retries delay backoffFactor retryableErrors n attempt w err w1 :
  fn w = (Rejected err, w1) ->
  Retry.isRetryable retryableErrors err = false ->
  Retry.retry_from fn retries delay backoffFactor retryableErrors (S n) attempt w
  = (Rejected (Retry.normalised err), w1).
Proof. intros H Hr. simpl. rewrite H, Hr. reflexivity. Qed.

Lemma withRetry_loop_fatal maxRetries baseDelay maxDelay budget attempts w err w1 :
  fn w = (Rejected err, w1) ->
  WithRetry.shouldRetry err = false ->
  WithRetry.withRetry_loop fn maxRetries baseDelay maxDelay budget attempts w
  = (Rejected err, w1).
Proof.
  intros H Hr. destruct budget; simpl; rewrite H, Hr, orb_true_r; reflexivity.
Qed.

(** The budget of [withRetry_loop] is immaterial once it covers the retries
    that [maxRetries] still allows. *)
Lemma withRetry_loop_budget maxRetries baseDelay maxDelay :
  forall b1 b2 attempts w,
    (Z.to_nat (maxRetries - (attempts + 1)) <= b1)%nat ->
    (Z.to_nat (maxRetries - (attempts + 1)) <= b2)%nat ->
    WithRetry.withRetry_loop fn maxRetries baseDelay maxDelay b1 attempts w
    = WithRetry.withRetry_loop fn maxRetries baseDelay maxDelay b2 attempts w.
Proof.
  induction b1 as [|b1 IH]; intros b2 attempts w H1 H2.
  - destruct b2; simpl; [reflexivity|].
    destruct (fn w) as [[a|err] w1]; [reflexivity|].
    destruct (attempts + 1 >=? maxRetries) eqn:E; [reflexivity|].
    rewrite Z.geb_leb in E. apply Z.leb_gt in E. lia.
  - destruct b2 as [|b2]; simpl.
    + destruct (fn w) as [[a|err] w1]; [reflexivity|].
      destruct (attempts + 1 >=? maxRetries) eqn:E; [reflexivity|].
      rewrite Z.geb_leb in E. apply Z.leb_gt in E. lia.
    + destruct (fn w) as [[a|err] w1]; [reflexivity|].
      destruct (attempts + 1 >=? maxRetries) eqn:E; [reflexivity|].
      simpl. destruct (WithRetry.shouldRetry err); [|reflexivity]. simpl.
      destruct (Math_random w1) as [random w2].
      rewrite Z.geb_leb in E. apply Z.leb_gt in E.
      apply IH; lia.
Qed.
End RetryLoops.

(** ** Runs of the retry wrappers on scripted work functions *)

Section ScriptedRuns.
Context {A : Type}.
Variable script : nat -> Completion A.
Variable rnd : nat -> Q.

Local Abbreviation retry_from :=
  (@Retry.retry_from _ (Harness.timers rnd) _ (Harness.scripted script)).
Local Abbreviation withRetry_loop :=
  (@WithRetry.withRetry_loop _ (Harness.timers rnd) _ (Harness.scripted script)).

Lemma retry_from_recovers retries delay backoffFactor retryableErrors v :
  forall k n attempt h,
    (forall i, (i < k)%nat ->
       fails_at script (Retry.isRetryable retryableErrors) (Harness.calls h + i)) ->
    script (Harness.calls h + k) = Fulfilled v ->
    (k < n)%nat ->
    attempt + Z.of_nat k <= retries + 1 ->
    exists h',
      retry_from retries delay backoffFactor retryableErrors n attempt h
      = (Fulfilled (Some v), h')
      /\ Harness.calls h' = (Harness.calls h + k + 1)%nat.
Proof.
  induction k as [|k IH]; intros n attempt h Hfail Hok Hn Hatt;
    (destruct n as [|n]; [lia|]); cbn [Retry.retry_from]; unfold Harness.scripted.
  - rewrite Nat.add_0_r in Hok. rewrite Hok.
    eexists. split; [reflexivity|]. simpl. lia.
  - destruct (Hfail 0%nat) as (e & He & Hr); [lia|].
    rewrite Nat.add_0_r in He. rewrite He, Hr.
    replace (attempt =? retries + 1) with false by (symmetry; apply Z.eqb_neq; lia).
    cbn [negb orb].
    match goal with |- context [Retry.retry_from _ _ _ _ _ n _ ?h'] => set (h1 := h') end.
    destruct (IH n (attempt + 1) h1) as (h' & H1 & H2).
    + intros i Hi. simpl. rewrite <- Nat.add_succ_r. apply Hfail. lia.
    + simpl. rewrite <- Nat.add_succ_r. exact Hok.
    + lia.
    + lia.
    + exists h'. split; [exact H1|]. rewrite H2. simpl. lia.
Qed.

Lemma retry_from_exhausts retries delay backoffFactor retryableErrors :
  (forall i, fails_at script (Retry.isRetryable retryableErrors) i) ->
  forall n attempt h,
    Z.of_nat n = retries + 1 - attempt ->
    exists e h',
      script (Harness.calls h + n) = Rejected e
      /\ retry_from retries delay backoffFactor retryableErrors (S n) attempt h
         = (Rejected (Retry.normalised e), h')
      /\ Harness.calls h' = (Harness.calls h + n + 1)%nat.
Proof.
  intros Hfail. induction n as [|n IH]; intros attempt h Hn;
    rewrite retry_from_S; unfold Harness.scripted at 1;
    destruct (Hfail (Harness.calls h)) as (e & He & Hr); rewrite He, Hr.
  - replace (attempt =? retries + 1) with true by (symmetry; apply Z.eqb_eq; lia).
    cbn [negb orb]. exists e. eexists. rewrite Nat.add_0_r.
    split; [exact He|]. split; [reflexivity|]. simpl. lia.
  - replace (attempt =? retries + 1) with false by (symmetry; apply Z.eqb_neq; lia).
    cbn [negb orb].
    match goal with |- context [Retry.retry_from _ _ _ _ _ (S n) _ ?h'] => set (h1 := h') end.
    destruct (IH (attempt + 1) h1) as (e' & h' & He' & H1 & H2); [lia|].
    exists e', h'. split; [|split].
    + rewrite <- He'. f_equal. simpl. lia.
    + exact H1.
    + rewrite H2. simpl. lia.
Qed.

Lemma withRetry_loop_recovers maxRetries baseDelay maxDelay v :
  forall k budget attempts h,
    (forall i, (i < k)%nat -> fails_at script WithRetry.shouldRetry (Harness.calls h + i)) ->
    script (Harness.calls h + k) = Fulfilled v ->
    (k <= budget)%nat ->
    attempts + Z.of_nat k < maxRetries ->
    exists h',
      withRetry_loop maxRetries baseDelay maxDelay budget attempts h
      = (Fulfilled v, h')
      /\ Harness.calls h' = (Harness.calls h + k + 1)%nat.
Proof.
  induction k as [|k IH]; intros budget attempts h Hfail Hok Hb Hatt.
  - rewrite Nat.add_0_r in Hok.
    destruct budget; cbn [WithRetry.withRetry_loop]; unfold Harness.scripted;
      rewrite Hok; (eexists; split; [reflexivity|]; simpl; lia).
  - destruct budget as [|budget]; [lia|].
    cbn [WithRetry.withRetry_loop]. unfold Harness.scripted.
    destruct (Hfail 0%nat) as (e & He & Hr); [lia|].
    rewrite Nat.add_0_r in He. rewrite He, Hr.
    replace (attempts + 1 >=? maxRetries) with false
      by (symmetry; rewrite Z.geb_leb; apply Z.leb_gt; lia).
    cbn [negb orb Math_random Harness.timers].
    match goal with
    | |- context [WithRetry.withRetry_loop _ _ _ _ budget _ ?h'] => set (h1 := h')
    end.
    destruct (IH budget (attempts + 1) h1) as (h' & H1 & H2).
    + intros i Hi. simpl. rewrite <- Nat.add_succ_r. apply Hfail. lia.
    + simpl. rewrite <- Nat.add_succ_r. exact Hok.
    + lia.
    + lia.
    + exists h'. split; [exact H1|]. rewrite H2. simpl. lia.
Qed.

Lemma withRetry_loop_exhausts maxRetries baseDelay maxDelay :
  (forall i, fails_at script WithRetry.shouldRetry i) ->
  forall n budget attempts h,
    n = Z.to_nat (maxRetries - (attempts + 1)) ->
    (n <= budget)%nat ->
    exists e h',
      script (Harness.calls h + n) = Rejected e
      /\ withRetry_loop maxRetries baseDelay maxDelay budget attempts h
         = (Rejected e, h')
      /\ Harness.calls h' = (Harness.calls h + n + 1)%nat.
Proof.
  intros Hfail. induction n as [|n IH]; intros budget attempts h Hn Hb.
  - destruct (Hfail (Harness.calls h)) as (e & He & Hr).
    assert (E : (attempts + 1 >=? maxRetries) = true)
      by (rewrite Z.geb_leb; apply Z.leb_le; lia).
    exists e.
    destruct budget; cbn [WithRetry.withRetry_loop]; unfold Harness.scripted;
      rewrite He, E; cbn [orb]; rewrite Nat.add_0_r;
      (eexists; split; [exact He|]; split; [reflexivity|]; simpl; lia).
  - destruct budget as [|budget]; [lia|].
    cbn [WithRetry.withRetry_loop]. unfold Harness.scripted.
    destruct (Hfail (Harness.calls h)) as (e & He & Hr). rewrite He, Hr.
    replace (attempts + 1 >=? maxRetries) with false
      by (symmetry; rewrite Z.geb_leb; apply Z.leb_gt; lia).
    cbn [negb orb Math_random Harness.timers].
    match goal with
    | |- context [WithRetry.withRetry_loop _ _ _ _ budget _ ?h'] => set (h1 := h')
    end.
    destruct (IH budget (attempts + 1) h1) as (e' & h' & He' & H1 & H2); [lia|lia|].
    exists e', h'. split; [|split].
    + rewrite <- He'. f_equal. simpl. lia.
    + exact H1.
    + rewrite H2. simpl. lia.
Qed.
End ScriptedRuns.

Lemma nth_error_map_seq {X} (f : nat -> X) :
  forall n s i d, nth_error (map f (seq s n)) i = Some d -> d = f (s + i)%nat.
Proof.
  induction n as [|n IH]; intros s i d H.
  - destruct i; discriminate H.
  - destruct i as [|i]; simpl in H.
    + inversion H. f_equal. lia.
    + rewrite (IH (S s) i d H). f_equal. lia.
Qed.

Section ScriptedWaits.
Context {A : Type}.
Variable script : nat -> Completion A.
Variable rnd : nat -> Q.

(** The world [withRetry_loop] ends in: [n] retries leave [n] timeouts behind,
    the one after failure number [attempts] computed by [backoff] from the
    random number drawn for it. *)
Lemma withRetry_loop_waits maxRetries baseDelay maxDelay :
  forall budget attempts h,
    (Z.to_nat (maxRetries - (attempts + 1)) <= budget)%nat ->
    exists n,
      snd (@WithRetry.withRetry_loop _ (Harness.timers rnd) _
             (Harness.scripted script) maxRetries baseDelay maxDelay
             budget attempts h)
      = {| Harness.calls := Harness.calls h + n + 1;
           Harness.timeouts :=
             Harness.timeouts h ++
             map (fun j => WithRetry.backoff baseDelay maxDelay
                             (attempts + 1 + Z.of_nat j)
                             (rnd (Harness.draws h + j)))
                 (seq 0 n);
           Harness.draws := Harness.draws h + n |}.
Proof.
  assert (Stop : forall h : Harness.World,
            {| Harness.calls := S (Harness.calls h);
               Harness.timeouts := Harness.timeouts h;
               Harness.draws := Harness.draws h |}
            = {| Harness.calls := Harness.calls h + 0 + 1;
                 Harness.timeouts := Harness.timeouts h ++ [];
                 Harness.draws := Harness.draws h + 0 |}).
  { intros h. rewrite app_nil_r. f_equal; lia. }
  induction budget as [|budget IH]; intros attempts h Hb;
    cbn [WithRetry.withRetry_loop]; unfold Harness.scripted at 1;
    (destruct (script (Harness.calls h)) as [a|err];
       [exists 0%nat; apply Stop|]);
    (destruct (attempts + 1 >=? maxRetries) eqn:E;
       [exists 0%nat; apply Stop|]);
    rewrite Z.geb_leb in E; apply Z.leb_gt in E; [lia|].
  cbn [orb].
  destruct (WithRetry.shouldRetry err); cbn [negb];
    [|exists 0%nat; apply Stop].
  cbn [Math_random Harness.timers].
  match goal with
  | |- context [WithRetry.withRetry_loop _ _ _ _ budget _ ?h'] => set (h1 := h')
  end.
  destruct (IH (attempts + 1) h1) as (n & Hn); [lia|].
  exists (S n). rewrite Hn. subst h1. cbn [Harness.calls Harness.timeouts Harness.draws setTimeout Harness.timers].
  f_equal; [lia| |lia].
  rewrite <- app_assoc. f_equal. cbn [seq map app].
  rewrite Nat.add_0_r. f_equal; [f_equal; lia|].
  rewrite <- seq_shift, map_map. apply map_ext. intros j.
  f_equal; [lia | f_equal; lia].
Qed.

(** The world [retry_from] ends in, when the iterations left are those of the
    [for] loop: the waits grow by [backoffFactor] from [delay], and no random
    number is drawn. *)
Lemma retry_from_waits retries delay backoffFactor retryableErrors :
  forall n attempt h,
    n = 0%nat \/ Z.of_nat n = retries + 2 - attempt ->
    let h' := snd (@Retry.retry_from _ (Harness.timers rnd) _
                     (Harness.scripted script) retries delay backoffFactor
                     retryableErrors n attempt h) in
    (Harness.calls h <= Harness.calls h' <= Harness.calls h + n)%nat
    /\ (n <> 0%nat -> Harness.calls h + 1 <= Harness.calls h')%nat
    /\ Harness.draws h' = Harness.draws h
    /\ Harness.timeouts h'
       = (Harness.timeouts h
          ++ map (fun j => Retry.waitTime delay backoffFactor (attempt + Z.of_nat j))
                 (seq 0 (Harness.calls h' - Harness.calls h - 1)))%list.
Proof.
  induction n as [|n IH]; intros attempt h Hn; cbv zeta.
  - simpl. rewrite Nat.sub_diag. simpl. rewrite app_nil_r.
    repeat split; lia.
  - destruct Hn as [Hn|Hn]; [discriminate Hn|].
    match goal with |- context [snd ?t] => destruct t as [r h'] eqn:E end.
    cbn [snd]. rewrite retry_from_S in E. unfold Harness.scripted at 1 in E.
    assert (Stop : forall h0 : Harness.World,
              Harness.timeouts h0
              = (Harness.timeouts h0
                 ++ map (fun j => Retry.waitTime delay backoffFactor (attempt + Z.of_nat j))
                        (seq 0 (S (Harness.calls h0) - Harness.calls h0 - 1)))%list).
    { intros h0. replace (S (Harness.calls h0) - Harness.calls h0 - 1)%nat with 0%nat by lia.
      simpl. rewrite app_nil_r. reflexivity. }
    destruct (script (Harness.calls h)) as [a|err].
    { inversion E; subst. cbn [Harness.calls Harness.draws Harness.timeouts].
      repeat split; try lia. apply Stop. }
    destruct (negb (Retry.isRetryable retryableErrors err) || (attempt =? retries + 1)) eqn:G.
    { inversion E; subst. cbn [Harness.calls Harness.draws Harness.timeouts].
      repeat split; try lia. apply Stop. }
    apply orb_false_iff in G. destruct G as [_ G]. apply Z.eqb_neq in G.
    assert (Hn1 : n = 0%nat \/ Z.of_nat n = retries + 2 - (attempt + 1)) by lia.
    assert (Hpos : n <> 0%nat) by lia.
    match type of E with
    | Retry.retry_from _ _ _ _ _ _ _ ?h1 = _ =>
        destruct (IH (attempt + 1) h1 Hn1) as (H1 & H2 & H3 & H4)
    end.
    specialize (H2 Hpos). rewrite E in H1, H2, H3, H4.
    cbn [snd Harness.calls Harness.draws Harness.timeouts setTimeout Harness.timers] in *.
    repeat split; try lia.
    rewrite H4, <- app_assoc. f_equal.
    replace (Harness.calls h' - Harness.calls h - 1)%nat
      with (S (Harness.calls h' - S (Harness.calls h) - 1)) by lia.
    cbn [seq map app]. rewrite Z.add_0_r. f_equal.
    rewrite <- seq_shift, map_map. apply map_ext. intros j. f_equal. lia.
Qed.
End ScriptedWaits.

Lemma jitter_range (random : Q) :
  (0 <= random)%Q -> (random < 1)%Q ->
  (1 <= WithRetry.jitter random)%Q /\ (WithRetry.jitter random < 1.2)%Q.
Proof. unfold WithRetry.jitter. intros H0 H1. split; lra. Qed.

(** ** The claims on the retry wrappers *)

(** C1, as amended.  On a work function that fails [k] times with errors
    classified transient and then succeeds, either wrapper whose limit
    exceeds [k] returns the successful result after exactly [k+1] calls.  On
    a work function that always fails with such errors, [withRetry] rejects
    with the error of its last call after exactly [max(1, maxRetries)] calls,
    and [retry] (with [retries] at least 0) rejects with the normalised error
    of its last call after exactly [retries + 1] calls. *)
Theorem retry_wrappers_attempts {A} (script : nat -> Completion A) (rnd : nat -> Q) :
  (forall options k v,
     (forall i, (i < k)%nat -> fails_at script WithRetry.shouldRetry i) ->
     script k = Fulfilled v ->
     Z.of_nat k < WithRetry.maxRetries_of options ->
     exists h, Harness.run_withRetry script rnd options = (Fulfilled v, h)
               /\ Harness.calls h = (k + 1)%nat)
  /\ (forall options,
     (forall i, fails_at script WithRetry.shouldRetry i) ->
     let n := Z.to_nat (Z.max 1 (WithRetry.maxRetries_of options)) in
     exists e h, script (n - 1)%nat = Rejected e
                 /\ Harness.run_withRetry script rnd options = (Rejected e, h)
                 /\ Harness.calls h = n)
  /\ (forall options k v,
     (forall i, (i < k)%nat ->
        fails_at script (Retry.isRetryable (Retry.retryableErrors_of options)) i) ->
     script k = Fulfilled v ->
     Z.of_nat k < Retry.retries_of options ->
     exists h, Harness.run_retry script options = (Fulfilled (Some v), h)
               /\ Harness.calls h = (k + 1)%nat)
  /\ (forall options,
     0 <= Retry.retries_of options ->
     (forall i,
        fails_at script (Retry.isRetryable (Retry.retryableErrors_of options)) i) ->
     let n := Z.to_nat (Retry.retries_of options + 1) in
     exists e h, script (n - 1)%nat = Rejected e
                 /\ Harness.run_retry script options
                    = (Rejected (Retry.normalised e), h)
                 /\ Harness.calls h = n).
Proof.
  split; [|split; [|split]].
  - intros options k v Hfail Hok Hk.
    destruct (withRetry_loop_recovers script rnd (WithRetry.maxRetries_of options)
                (WithRetry.baseDelay_of options) (WithRetry.maxDelay_of options) v
                k (Z.to_nat (WithRetry.maxRetries_of options)) 0 Harness.start)
      as (h & H1 & H2); try (simpl; assumption); try lia.
    exists h. split; [exact H1 | exact H2].
  - intros options Hfail n.
    destruct (withRetry_loop_exhausts script rnd (WithRetry.maxRetries_of options)
                (WithRetry.baseDelay_of options) (WithRetry.maxDelay_of options)
                Hfail (n - 1)%nat (Z.to_nat (WithRetry.maxRetries_of options)) 0
                Harness.start)
      as (e & h & He & H1 & H2); try (subst n; lia).
    exists e, h. split; [exact He|]. split; [exact H1|].
    rewrite H2. simpl. subst n. lia.
  - intros options k v Hfail Hok Hk.
    destruct (retry_from_recovers script (fun _ => 0%Q) (Retry.retries_of options)
                (Retry.delay_of options) (Retry.backoffFactor_of options)
                (Retry.retryableErrors_of options) v
                k (Z.to_nat (Retry.retries_of options + 1)) 1 Harness.start)
      as (h & H1 & H2); try (simpl; assumption); try lia.
    exists h. split; [exact H1 | exact H2].
  - intros options Hr Hfail n.
    destruct (retry_from_exhausts script (fun _ => 0%Q) (Retry.retries_of options)
                (Retry.delay_of options) (Retry.backoffFactor_of options)
                (Retry.retryableErrors_of options) Hfail
                (n - 1)%nat 1 Harness.start)
      as (e & h & He & H1 & H2); try (subst n; lia).
    exists e, h. split; [exact He|]. split.
    + unfold Harness.run_retry, Retry.retry.
      replace (Z.to_nat (Retry.retries_of options + 1)) with (S (n - 1))
        by (subst n; lia).
      exact H1.
    + rewrite H2. simpl. subst n. lia.
Qed.

Lemma retry_wrappers_attempts_witness :
  (exists h,
     Harness.run_withRetry (Demo.flaky 2 (Error "ETIMEOUT") 7%nat) (fun _ => 0%Q) None
     = (Fulfilled 7%nat, h) /\ Harness.calls h = 3%nat)
  /\ (exists e h,
     Demo.failing (StringValue "socket hang up") 2%nat = Rejected e
     /\ Harness.run_withRetry (Demo.failing (StringValue "socket hang up"))
          (fun _ => 0%Q) None = (Rejected e, h)
     /\ Harness.calls h = 3%nat)
  /\ (exists h,
     Harness.run_retry (Demo.flaky 2 (Error "ETIMEOUT") 7%nat) Index.retry_options
     = (Fulfilled (Some 7%nat), h) /\ Harness.calls h = 3%nat)
  /\ (exists e h,
     Demo.failing (Error "ETIMEOUT") 3%nat = Rejected e
     /\ Harness.run_retry (Demo.failing (Error "ETIMEOUT")) Index.retry_options
        = (Rejected (Retry.normalised e), h)
     /\ Harness.calls h = 4%nat).
Proof.
  split; [|split; [|split]].
  - apply (proj1 (retry_wrappers_attempts
                    (Demo.flaky 2 (Error "ETIMEOUT") 7%nat) (fun _ => 0%Q))
             None 2%nat 7%nat).
    + intros i Hi. destruct i as [|[|i]]; [| |lia];
        (exists (Error "ETIMEOUT"); split; reflexivity).
    + reflexivity.
    + reflexivity.
  - apply (proj1 (proj2 (retry_wrappers_attempts
                    (Demo.failing (StringValue "socket hang up")) (fun _ => 0%Q)))
             None).
    intros i. exists (StringValue "socket hang up"). split; reflexivity.
  - apply (proj1 (proj2 (proj2 (retry_wrappers_attempts
                    (Demo.flaky 2 (Error "ETIMEOUT") 7%nat) (fun _ => 0%Q))))
             Index.retry_options 2%nat 7%nat).
    + intros i Hi. destruct i as [|[|i]]; [| |lia];
        (exists (Error "ETIMEOUT"); split; reflexivity).
    + reflexivity.
    + reflexivity.
  - apply (proj2 (proj2 (proj2 (retry_wrappers_attempts
                    (Demo.failing (Error "ETIMEOUT")) (fun _ => 0%Q))))
             Index.retry_options).
    + discriminate.
    + intros i. exists (Error "ETIMEOUT"). split; reflexivity.
Defined.

(** With the options [runQuery] passes ([retries: 3]), [retry] calls a work
    function that keeps failing with a retryable error four times, one more
    than its limit; with [maxRetries: 0], [withRetry] calls it once. *)
Lemma retry_exceeds_its_limit :
  Retry.retries_of Index.retry_options = 3
  /\ Harness.calls
       (snd (Harness.run_retry (Demo.failing (Error "ETIMEOUT")) Index.retry_options))
     = 4%nat
  /\ WithRetry.maxRetries_of (Demo.at_most 0) = 0
  /\ Harness.calls
       (snd (Harness.run_withRetry (Demo.failing (Error "ETIMEOUT"))
               (fun _ => 0%Q) (Demo.at_most 0)))
     = 1%nat.
Proof. repeat split. Qed.

(** C3, as amended.  When the first call fails with an error that matches no
    transient signature, [withRetry] rejects after that one call, whatever
    its limit, with the very value the work function threw, and awaits no
    timeout.  [retry] with [retries] at least 0 rejects after that one call,
    without a timeout, with the normalised error: the thrown value itself
    when it is an [Error] instance, otherwise a new [Error] that carries its
    text.  [retry] with a negative [retries] does not call the work function
    at all and resolves to [undefined]. *)
Theorem fatal_error_is_not_retried {A} (script : nat -> Completion A) (e : Thrown) :
  script 0%nat = Rejected e ->
  (forall rnd options,
     WithRetry.shouldRetry e = false ->
     Harness.run_withRetry script rnd options
     = (Rejected e,
        {| Harness.calls := 1; Harness.timeouts := []; Harness.draws := 0 |}))
  /\ (forall options,
     Retry.isRetryable (Retry.retryableErrors_of options) e = false ->
     (0 <= Retry.retries_of options ->
      Harness.run_retry script options
      = (Rejected (Retry.normalised e),
         {| Harness.calls := 1; Harness.timeouts := []; Harness.draws := 0 |}))
     /\ (Retry.retries_of options < 0 ->
         Harness.run_retry script options
         = (Fulfilled None,
            {| Harness.calls := 0; Harness.timeouts := []; Harness.draws := 0 |}))
     /\ (forall name message,
           e = ErrorObject name message -> Retry.normalised e = e)).
Proof.
  intros He. split.
  - intros rnd options Hr. unfold Harness.run_withRetry, WithRetry.withRetry.
    apply withRetry_loop_fatal; [|exact Hr].
    unfold Harness.scripted. simpl. rewrite He. reflexivity.
  - intros options Hr. split; [|split].
    + intros Hn. unfold Harness.run_retry, Retry.retry.
      destruct (Z.to_nat (Retry.retries_of options + 1)) as [|n] eqn:En; [lia|].
      apply retry_from_fatal; [|exact Hr].
      unfold Harness.scripted. simpl. rewrite He. reflexivity.
    + intros Hn. unfold Harness.run_retry, Retry.retry.
      replace (Z.to_nat (Retry.retries_of options + 1)) with 0%nat by lia.
      reflexivity.
    + intros name message ->. reflexivity.
Qed.

Lemma fatal_error_is_not_retried_witness :
  Harness.run_withRetry (Demo.failing (StringValue "Login failed")) (fun _ => 0%Q) None
  = (Rejected (StringValue "Login failed"),
     {| Harness.calls := 1; Harness.timeouts := []; Harness.draws := 0 |})
  /\ Harness.run_retry (Demo.failing (Error "Login failed")) Index.retry_options
     = (Rejected (Error "Login failed"),
        {| Harness.calls := 1; Harness.timeouts := []; Harness.draws := 0 |})
  /\ Harness.run_retry (Demo.failing (Error "Login failed"))
       {| Retry.retries := Some (-2); Retry.delay := None;
          Retry.backoffFactor := None; Retry.retryableErrors := None |}
     = (Fulfilled None,
        {| Harness.calls := 0; Harness.timeouts := []; Harness.draws := 0 |}).
Proof.
  split; [|split].
  - apply (proj1 (fatal_error_is_not_retried
                    (Demo.failing (StringValue "Login failed"))
                    (StringValue "Login failed") eq_refl)).
    reflexivity.
  - apply (proj1 (proj2 (fatal_error_is_not_retried
                           (Demo.failing (Error "Login failed"))
                           (Error "Login failed") eq_refl)
                    Index.retry_options eq_refl)).
    discriminate.
  - apply (proj1 (proj2 (proj2 (fatal_error_is_not_retried
                           (Demo.failing (Error "Login failed"))
                           (Error "Login failed") eq_refl)
                    {| Retry.retries := Some (-2); Retry.delay := None;
                       Retry.backoffFactor := None; Retry.retryableErrors := None |}
                    eq_refl))).
    reflexivity.
Defined.

(** A work function that throws the string ['Login failed'], which matches
    no retryable signature: [retry] does not reject with that string but with
    a new [Error] object made from it. *)
Lemma retry_wraps_a_thrown_string :
  fst (Harness.run_retry (Demo.failing (StringValue "Login failed"))
         Index.retry_options)
  = Rejected (ErrorObject "Error" "Login failed")
  /\ fst (Harness.run_retry (Demo.failing (StringValue "Login failed"))
            Index.retry_options)
     <> Rejected (StringValue "Login failed").
Proof. split; [reflexivity | discriminate]. Qed.

(** C10, as amended.  Without a [retryableErrors] option the list is empty
    and no error is classified retryable.  With [retries] at least 0, [retry]
    settles as the first call of the work function does, after that one call
    and without awaiting a timeout, whatever [retries], [delay] and
    [backoffFactor].  With a negative [retries] the work function is not
    called at all and [retry] resolves to [undefined]. *)
Theorem retry_without_retryableErrors {A} (script : nat -> Completion A)
    (options : Retry.Options) :
  Retry.retryableErrors options = None ->
  Retry.retryableErrors_of options = []
  /\ (forall err, Retry.isRetryable (Retry.retryableErrors_of options) err = false)
  /\ (0 <= Retry.retries_of options ->
      Harness.run_retry script options
      = (match script 0%nat with
         | Fulfilled a => Fulfilled (Some a)
         | Rejected err => Rejected (Retry.normalised err)
         end,
         {| Harness.calls := 1; Harness.timeouts := []; Harness.draws := 0 |}))
  /\ (Retry.retries_of options < 0 ->
      Harness.run_retry script options
      = (Fulfilled None,
         {| Harness.calls := 0; Harness.timeouts := []; Harness.draws := 0 |})).
Proof.
  intros Hnone.
  assert (E : Retry.retryableErrors_of options = [])
    by (unfold Retry.retryableErrors_of; rewrite Hnone; reflexivity).
  split; [exact E|]. split; [intros err; rewrite E; reflexivity|]. split.
  - intros Hn. unfold Harness.run_retry, Retry.retry.
    destruct (Z.to_nat (Retry.retries_of options + 1)) as [|n] eqn:En; [lia|].
    destruct (script 0%nat) as [a|err] eqn:Es.
    + apply retry_from_fulfilled.
      unfold Harness.scripted. simpl. rewrite Es. reflexivity.
    + apply retry_from_fatal; [|rewrite E; reflexivity].
      unfold Harness.scripted. simpl. rewrite Es. reflexivity.
  - intros Hn. unfold Harness.run_retry, Retry.retry.
    replace (Z.to_nat (Retry.retries_of options + 1)) with 0%nat by lia.
    reflexivity.
Qed.

Lemma retry_without_retryableErrors_witness :
  Harness.run_retry (Demo.failing (Error "ETIMEOUT"))
    {| Retry.retries := Some 5; Retry.delay := Some 10%Q;
       Retry.backoffFactor := Some 3%Q; Retry.retryableErrors := None |}
  = (Rejected (Error "ETIMEOUT"),
     {| Harness.calls := 1; Harness.timeouts := []; Harness.draws := 0 |})
  /\ Harness.run_retry (Demo.flaky 0 (Error "ETIMEOUT") 7%nat)
       {| Retry.retries := Some (-1); Retry.delay := Some 10%Q;
          Retry.backoffFactor := Some 3%Q; Retry.retryableErrors := None |}
     = (Fulfilled None,
        {| Harness.calls := 0; Harness.timeouts := []; Harness.draws := 0 |}).
Proof.
  split.
  - apply (proj1 (proj2 (proj2
             (retry_without_retryableErrors (Demo.failing (Error "ETIMEOUT"))
                {| Retry.retries := Some 5; Retry.delay := Some 10%Q;
                   Retry.backoffFactor := Some 3%Q; Retry.retryableErrors := None |}
                eq_refl)))).
    discriminate.
  - apply (proj2 (proj2 (proj2
             (retry_without_retryableErrors (Demo.flaky 0 (Error "ETIMEOUT") 7%nat)
                {| Retry.retries := Some (-1); Retry.delay := Some 10%Q;
                   Retry.backoffFactor := Some 3%Q; Retry.retryableErrors := None |}
                eq_refl)))).
    reflexivity.
Defined.

(** With [retries: -1] and no [retryableErrors], [retry] does not invoke the
    work function once: it never invokes it, although the function would
    have returned 7, and resolves to [undefined]. *)
Lemma retry_never_calls_with_negative_retries :
  Harness.calls
    (snd (Harness.run_retry (Demo.flaky 0 (Error "ETIMEOUT") 7%nat)
            {| Retry.retries := Some (-1); Retry.delay := None;
               Retry.backoffFactor := None; Retry.retryableErrors := None |}))
  = 0%nat
  /\ fst (Harness.run_retry (Demo.flaky 0 (Error "ETIMEOUT") 7%nat)
            {| Retry.retries := Some (-1); Retry.delay := None;
               Retry.backoffFactor := None; Retry.retryableErrors := None |})
     = Fulfilled None
  /\ Demo.flaky 0 (Error "ETIMEOUT") 7%nat 0%nat = Fulfilled 7%nat.
Proof. repeat split. Qed.

(** C6, as amended.  In a run of [withRetry], every call after the first is
    preceded by exactly one wait, and the wait after failure number
    [attempt] (from 1) is [min(maxDelay, baseDelay * 2^(attempt-1) * jitter)],
    where [jitter] is [1 + 0.2 * r] for the number [r] that [Math.random]
    returned for that attempt, hence in [[1.0, 1.2)] when [r] is in [[0, 1)].
    In a run of [retry], every call after the first is preceded by exactly
    one wait, the wait after failure number [attempt] is
    [delay * backoffFactor^(attempt-1)], without an upper limit, and
    [Math.random] is never called. *)
Theorem retry_wrappers_backoff {A} (script : nat -> Completion A) :
  (forall (rnd : nat -> Q) (options : option RetryOptions),
     (forall i, (0 <= rnd i)%Q /\ (rnd i < 1)%Q) ->
     let h := snd (Harness.run_withRetry script rnd options) in
     S (List.length (Harness.timeouts h)) = Harness.calls h
     /\ forall i wait, nth_error (Harness.timeouts h) i = Some wait ->
          let attempt := Z.of_nat i + 1 in
          let jitter := (1 + rnd i * 0.2)%Q in
          wait = Qmin (WithRetry.maxDelay_of options)
                   (WithRetry.baseDelay_of options * 2 ^ (attempt - 1) * jitter)%Q
          /\ (1 <= jitter)%Q /\ (jitter < 1.2)%Q)
  /\ (forall options : Retry.Options,
     let h := snd (Harness.run_retry script options) in
     List.length (Harness.timeouts h) = (Harness.calls h - 1)%nat
     /\ Harness.draws h = 0%nat
     /\ forall i wait, nth_error (Harness.timeouts h) i = Some wait ->
          let attempt := Z.of_nat i + 1 in
          wait = (Retry.delay_of options
                  * Retry.backoffFactor_of options ^ (attempt - 1))%Q).
Proof.
  split.
  - intros rnd options Hrnd h.
    destruct (withRetry_loop_waits script rnd (WithRetry.maxRetries_of options)
                (WithRetry.baseDelay_of options) (WithRetry.maxDelay_of options)
                (Z.to_nat (WithRetry.maxRetries_of options)) 0 Harness.start)
      as (n & Hn); [lia|].
    assert (Hh : h = {| Harness.calls := n + 1;
                        Harness.timeouts :=
                          map (fun j => WithRetry.backoff
                                          (WithRetry.baseDelay_of options)
                                          (WithRetry.maxDelay_of options)
                                          (0 + 1 + Z.of_nat j) (rnd j))
                              (seq 0 n);
                        Harness.draws := n |}) by exact Hn.
    rewrite Hh. cbn [Harness.calls Harness.timeouts]. split.
    + rewrite length_map, length_seq. lia.
    + intros i wait Hi. cbv zeta.
      apply nth_error_map_seq in Hi. split.
      * rewrite Hi. unfold WithRetry.backoff, WithRetry.jitter.
        simpl (0 + i)%nat.
        replace (0 + 1 + Z.of_nat i - 1) with (Z.of_nat i + 1 - 1) by lia.
        reflexivity.
      * destruct (Hrnd i) as [H0 H1].
        apply (jitter_range (rnd i) H0 H1).
  - intros options h.
    destruct (retry_from_waits script (fun _ => 0%Q) (Retry.retries_of options)
                (Retry.delay_of options) (Retry.backoffFactor_of options)
                (Retry.retryableErrors_of options)
                (Z.to_nat (Retry.retries_of options + 1)) 1 Harness.start)
      as (_ & _ & H3 & H4); [lia|].
    cbv zeta in H3, H4.
    assert (Hh : h = snd (@Retry.retry_from _ (Harness.timers (fun _ => 0%Q)) _
                            (Harness.scripted script) (Retry.retries_of options)
                            (Retry.delay_of options) (Retry.backoffFactor_of options)
                            (Retry.retryableErrors_of options)
                            (Z.to_nat (Retry.retries_of options + 1)) 1
                            Harness.start)) by reflexivity.
    rewrite <- Hh in H3, H4.
    cbn [Harness.timeouts Harness.calls Harness.draws Harness.start app] in H3, H4.
    rewrite Nat.sub_0_r in H4.
    split; [rewrite H4, length_map, length_seq; reflexivity|].
    split; [exact H3|].
    intros i wait Hi. cbv zeta. rewrite H4 in Hi.
    apply nth_error_map_seq in Hi. rewrite Hi. unfold Retry.waitTime.
    simpl (0 + i)%nat.
    replace (1 + Z.of_nat i - 1) with (Z.of_nat i + 1 - 1) by lia.
    reflexivity.
Qed.

Lemma retry_wrappers_backoff_witness :
  (let h := snd (Harness.run_withRetry (Demo.failing (Error "ETIMEOUT"))
                   (fun _ => (1 # 2)%Q) None) in
   S (List.length (Harness.timeouts h)) = Harness.calls h
   /\ forall i wait, nth_error (Harness.timeouts h) i = Some wait ->
        let attempt := Z.of_nat i + 1 in
        let jitter := (1 + (1 # 2) * 0.2)%Q in
        wait = Qmin (WithRetry.maxDelay_of None)
                 (WithRetry.baseDelay_of None * 2 ^ (attempt - 1) * jitter)%Q
        /\ (1 <= jitter)%Q /\ (jitter < 1.2)%Q)
  /\ (let h := snd (Harness.run_retry (Demo.failing (Error "ETIMEOUT"))
                      Index.retry_options) in
      List.length (Harness.timeouts h) = (Harness.calls h - 1)%nat
      /\ Harness.draws h = 0%nat
      /\ forall i wait, nth_error (Harness.timeouts h) i = Some wait ->
           let attempt := Z.of_nat i + 1 in
           wait = (Retry.delay_of Index.retry_options
                   * Retry.backoffFactor_of Index.retry_options ^ (attempt - 1))%Q).
Proof.
  split.
  - apply (proj1 (retry_wrappers_backoff (Demo.failing (Error "ETIMEOUT")))
             (fun _ => (1 # 2)%Q) None).
    intros i. split; [unfold Qle; simpl; lia | reflexivity].
  - apply (proj2 (retry_wrappers_backoff (Demo.failing (Error "ETIMEOUT")))
             Index.retry_options).
Defined.

(** [retry] with [delay: 1000] and [backoffFactor: 3] on a work function that
    keeps failing with a retryable error waits 1000, 3000 and 9000 ms and
    draws no random number.  Its second wait is not
    [min(maxDelay, 1000 * 2^(2-1) * jitter)] for any [maxDelay] and any
    [jitter] in [[1.0, 1.2)], which is below 2400. *)
Lemma retry_waits_by_backoffFactor :
  let h := snd (Harness.run_retry (Demo.failing (Error "ETIMEOUT"))
                  {| Retry.retries := Some 3; Retry.delay := Some 1000%Q;
                     Retry.backoffFactor := Some 3%Q;
                     Retry.retryableErrors := Some ["ETIMEOUT"] |}) in
  Harness.calls h = 4%nat
  /\ Harness.draws h = 0%nat
  /\ Forall2 Qeq (Harness.timeouts h) [1000%Q; 3000%Q; 9000%Q]
  /\ forall maxDelay jitter : Q,
       (1 <= jitter)%Q -> (jitter < 1.2)%Q ->
       ~ (3000 == Qmin maxDelay (1000 * 2 ^ (2 - 1) * jitter))%Q.
Proof.
  cbv zeta. split; [reflexivity|]. split; [reflexivity|]. split.
  - repeat constructor.
  - intros maxDelay jitter H1 H2 H.
    pose proof (Q.le_min_r maxDelay (1000 * 2 ^ (2 - 1) * jitter)%Q) as Hle.
    rewrite <- H in Hle.
    change (2 ^ (2 - 1))%Q with 2%Q in Hle. lra.
Qed.

(** ** Batches *)

Lemma ceil_div_spec (R B : nat) :
  (0 < B)%nat -> (R <= ceil_div R B * B /\ ceil_div R B * B < R + B)%nat.
Proof.
  intros HB. unfold ceil_div.
  pose proof (Nat.div_mod_eq (R + B - 1) B) as E.
  pose proof (Nat.mod_upper_bound (R + B - 1) B) as U.
  nia.
Qed.

Lemma batched_nil (B : nat) : (0 < B)%nat -> batched B [] [].
Proof.
  intros HB. split.
  - unfold ceil_div. simpl. symmetry. apply Nat.div_small. lia.
  - intros i Hi. simpl in Hi. lia.
  - right. reflexivity.
  - reflexivity.
Qed.

Lemma batches_of_batched (B : nat) :
  (0 < B)%nat ->
  forall fuel stream,
    (List.length stream <= fuel)%nat ->
    batched B stream (batches_of fuel B stream).
Proof.
  intros HB. induction fuel as [|fuel IH]; intros stream Hf.
  - destruct stream; [|simpl in Hf; lia]. apply batched_nil, HB.
  - destruct stream as [|row stream].
    + apply batched_nil, HB.
    + cbn [batches_of].
      set (rows := row :: stream) in *.
      assert (Hlen : (0 < List.length rows)%nat) by (subst rows; simpl; lia).
      assert (Hskip : (List.length (skipn B rows) <= fuel)%nat).
      { rewrite length_skipn. lia. }
      destruct (IH (skipn B rows) Hskip) as [Hc Hfull Hlast Hord].
      split.
      * cbn [List.length]. rewrite Hc, length_skipn. unfold ceil_div.
        destruct (Nat.le_gt_cases (List.length rows) B) as [Hle|Hgt].
        -- replace (List.length rows - B)%nat with 0%nat by lia.
           rewrite (Nat.div_small (0 + B - 1) B) by lia.
           apply (Nat.div_unique _ _ 1 (List.length rows - 1)); lia.
        -- replace (List.length rows + B - 1)%nat
             with ((List.length rows - B + B - 1) + 1 * B)%nat by lia.
           rewrite Nat.div_add by lia. lia.
      * intros [|i] Hi; cbn [nth].
        -- rewrite length_firstn.
           cbn [List.length] in Hi.
           destruct (batches_of fuel B (skipn B rows)) as [|b bs] eqn:Eb; [simpl in Hi; lia|].
           destruct (Nat.le_gt_cases B (List.length rows)) as [Hle|Hgt]; [lia|].
           exfalso. rewrite skipn_all2 in Eb by lia.
           destruct fuel; discriminate Eb.
        -- apply Hfull. cbn [List.length] in Hi. lia.
      * left.
        destruct (batches_of fuel B (skipn B rows)) as [|b bs] eqn:Eb.
        -- cbn [last]. rewrite length_firstn. lia.
        -- destruct Hlast as [Hlast|Hnil]; [|discriminate Hnil].
           exact Hlast.
      * cbn [List.concat]. rewrite Hord. apply firstn_skipn.
Qed.

Lemma asyncIterableToBatchedAsyncGenerator_batched
    (stream : list Row) (B : nat) (closeConnection : option Pool) :
  (0 < B)%nat ->
  batched B stream (rows (asyncIterableToBatchedAsyncGenerator stream B closeConnection)).
Proof.
  intros HB. apply batches_of_batched; [exact HB | apply Nat.le_refl].
Qed.

(** ** Inversion of asynchronous computations *)

Lemma bind_fulfilled {W X Y} (m : Async W X) (k : X -> Async W Y) w y w' :
  bind m k w = (Fulfilled y, w') ->
  exists x w1, m w = (Fulfilled x, w1) /\ k x w1 = (Fulfilled y, w').
Proof.
  unfold bind. destruct (m w) as [[x|e] w1]; intros H; [|discriminate H].
  exists x, w1. split; [reflexivity | exact H].
Qed.

Lemma bind_rejected {W X Y} (m : Async W X) (k : X -> Async W Y) w e w' :
  bind m k w = (Rejected e, w') ->
  m w = (Rejected e, w')
  \/ exists x w1, m w = (Fulfilled x, w1) /\ k x w1 = (Rejected e, w').
Proof.
  unfold bind. destruct (m w) as [[x|e1] w1]; intros H.
  - right. exists x, w1. split; [reflexivity | exact H].
  - left. inversion H. reflexivity.
Qed.

Section RetryInversion.
Context {W : Type} {T : Timers W} {A : Type}.
Variable fn : Async W A.

Lemma retry_from_fulfilled_inv retries delay backoffFactor retryableErrors :
  forall n attempt w a w',
    Retry.retry_from fn retries delay backoffFactor retryableErrors n attempt w
    = (Fulfilled (Some a), w') ->
    exists w0, fn w0 = (Fulfilled a, w').
Proof.
  induction n as [|n IH]; intros attempt w a w' H.
  - discriminate H.
  - rewrite retry_from_S in H. destruct (fn w) as [[a0|err] w1] eqn:E.
    + inversion H; subst. exists w. exact E.
    + destruct (negb _ || _); [discriminate H|]. exact (IH _ _ _ _ H).
Qed.

Lemma retry_from_rejected_inv retries delay backoffFactor retryableErrors :
  forall n attempt w v w',
    Retry.retry_from fn retries delay backoffFactor retryableErrors n attempt w
    = (Rejected v, w') ->
    exists w0 err, fn w0 = (Rejected err, w') /\ v = Retry.normalised err.
Proof.
  induction n as [|n IH]; intros attempt w v w' H.
  - discriminate H.
  - rewrite retry_from_S in H. destruct (fn w) as [[a0|err] w1] eqn:E.
    + discriminate H.
    + destruct (negb _ || _).
      * inversion H; subst. exists w, err. split; [exact E | reflexivity].
      * exact (IH _ _ _ _ H).
Qed.

(** The loop does not run out: with [retries + 2 - attempt] iterations left,
    [retry] never returns [undefined]. *)
Lemma retry_from_defined retries delay backoffFactor retryableErrors :
  forall n attempt w w',
    Z.of_nat (S n) = retries + 2 - attempt ->
    Retry.retry_from fn retries delay backoffFactor retryableErrors (S n) attempt w
    <> (Fulfilled None, w').
Proof.
  induction n as [|n IH]; intros attempt w w' Hn; rewrite retry_from_S;
    destruct (fn w) as [[a0|err] w1]; try discriminate.
  - replace (attempt =? retries + 1) with true by (symmetry; apply Z.eqb_eq; lia).
    rewrite orb_true_r. discriminate.
  - destruct (negb _ || _); [discriminate|]. apply IH. lia.
Qed.

Lemma withRetry_loop_fulfilled maxRetries baseDelay maxDelay budget attempts w a w1 :
  fn w = (Fulfilled a, w1) ->
  WithRetry.withRetry_loop fn maxRetries baseDelay maxDelay budget attempts w
  = (Fulfilled a, w1).
Proof. intros H. destruct budget; simpl; rewrite H; reflexivity. Qed.

Lemma withRetry_loop_fulfilled_inv maxRetries baseDelay maxDelay :
  forall budget attempts w a w',
    WithRetry.withRetry_loop fn maxRetries baseDelay maxDelay budget attempts w
    = (Fulfilled a, w') ->
    exists w0, fn w0 = (Fulfilled a, w').
Proof.
  induction budget as [|budget IH]; intros attempts w a w' H;
    cbn [WithRetry.withRetry_loop] in H;
    destruct (fn w) as [[a0|err] w1] eqn:E;
    try (inversion H; subst; exists w; exact E);
    (destruct (_ || _); [discriminate H|]);
    destruct (Math_random w1) as [random w2].
  - discriminate H.
  - exact (IH _ _ _ _ H).
Qed.

Lemma withRetry_loop_rejected_inv maxRetries baseDelay maxDelay :
  forall budget attempts w v w',
    WithRetry.withRetry_loop fn maxRetries baseDelay maxDelay budget attempts w
    = (Rejected v, w') ->
    exists w0 w1, fn w0 = (Rejected v, w1).
Proof.
  induction budget as [|budget IH]; intros attempts w v w' H;
    cbn [WithRetry.withRetry_loop] in H;
    destruct (fn w) as [[a0|err] w1] eqn:E;
    try discriminate H;
    (destruct (_ || _); [inversion H; subst; exists w, w'; exact E|]);
    destruct (Math_random w1) as [random w2].
  - inversion H; subst. exists w, w1. exact E.
  - exact (IH _ _ _ _ H).
Qed.
End RetryInversion.

(** [withRetry] commutes with a relabelling of the result. *)
Lemma withRetry_loop_relabel {W} {T : Timers W} (fn : JsValue -> Async W ResultStream)
    maxRetries baseDelay maxDelay (c : JsValue) :
  (forall w, fn c w = relabel c (fn JUndefined w)) ->
  forall budget attempts w,
    WithRetry.withRetry_loop (fn c) maxRetries baseDelay maxDelay budget attempts w
    = relabel c (WithRetry.withRetry_loop (fn JUndefined) maxRetries baseDelay
                   maxDelay budget attempts w).
Proof.
  intros Hfn. induction budget as [|budget IH]; intros attempts w;
    cbn [WithRetry.withRetry_loop]; rewrite Hfn;
    destruct (fn JUndefined w) as [[a0|err] w1]; cbn [relabel]; try reflexivity;
    (destruct (_ || _); [reflexivity|]);
    destruct (Math_random w1) as [random w2].
  - reflexivity.
  - apply IH.
Qed.

(** ** Query execution of index.cjs *)

Section IndexProperties.
Context {W : Type} {T : Timers W} {D : Driver W} {B : Builtins}.
Variable queryString : string.
Variable database : ConfigArg.
Variable batchSize : option nat.

Lemma Index_streamed_inv pool c s results s' :
  Index.streamed queryString batchSize pool c s = (Fulfilled results, s') ->
  exists columns stream,
    stream_query pool queryString (Index.world s)
    = (Fulfilled (columns, stream), Index.world s')
    /\ results
       = returned None (default default_batchSize batchSize) columns stream c.
Proof.
  unfold Index.streamed, bind, Index.run, resolve, stream_query, settle.
  destruct (request_stream pool queryString (Index.world s))
    as [[columns stream] w1]; intros H; inversion H; subst.
  exists columns, stream. split; reflexivity.
Qed.

Lemma Index_streamed_relabel pool c s :
  Index.streamed queryString batchSize pool c s
  = relabel c (Index.streamed queryString batchSize pool JUndefined s).
Proof.
  unfold Index.streamed, bind, Index.run, resolve, stream_query, settle.
  destruct (request_stream pool queryString (Index.world s))
    as [[columns stream] w1]; reflexivity.
Qed.

Lemma Index_counted_then_streamed_inv pool s results s' :
  Index.counted_then_streamed queryString batchSize pool s = (Fulfilled results, s') ->
  exists c s2,
    Index.streamed queryString batchSize pool c s2 = (Fulfilled results, s').
Proof.
  unfold Index.counted_then_streamed. intros H.
  apply bind_fulfilled in H. destruct H as (expected_count & s1 & _ & H).
  apply bind_fulfilled in H. destruct H as (c & s2 & _ & H).
  exists c, s2. exact H.
Qed.

Lemma Index_queryExecution_inv s results s' :
  Index.queryExecution queryString database batchSize s = (Fulfilled results, s') ->
  exists pool c s2,
    Index.streamed queryString batchSize pool c s2 = (Fulfilled results, s').
Proof.
  unfold Index.queryExecution. intros H.
  apply bind_fulfilled in H. destruct H as (config & s1 & _ & H).
  apply bind_fulfilled in H. destruct H as (pool & s2 & _ & H).
  apply Index_counted_then_streamed_inv in H. destruct H as (c & s3 & H).
  exists pool, c, s3. exact H.
Qed.

Lemma Index_runQuery_fulfilled_inv s results s' :
  Index.runQuery queryString database batchSize s = (Fulfilled (Some results), s') ->
  exists s0,
    Index.queryExecution queryString database batchSize s0 = (Fulfilled results, s').
Proof.
  unfold Index.runQuery, catch, Retry.retry.
  match goal with |- context [Retry.retry_from ?f ?r ?d ?b ?l ?n ?a s] =>
    destruct (Retry.retry_from f r d b l n a s) as [[x|e] s1] eqn:E
  end; intros H; [|discriminate H].
  inversion H; subst. exact (retry_from_fulfilled_inv _ _ _ _ _ _ _ _ _ _ E).
Qed.

(** What [runQuery] rejects with is a string without line breaks. *)
Lemma Index_runQuery_rejected s v s' :
  Index.runQuery queryString database batchSize s = (Rejected v, s') ->
  exists err,
    v = StringValue (replace_newlines (Index.errStr err))
    /\ occurs LF (replace_newlines (Index.errStr err)) = false
    /\ occurs CR (replace_newlines (Index.errStr err)) = false.
Proof.
  unfold Index.runQuery, catch.
  destruct (Retry.retry _ _ s) as [[x|e] s1]; intros H; [discriminate H|].
  unfold Index.surface, reject in H. inversion H; subst.
  exists e. split; [reflexivity | apply replace_newlines_flat].
Qed.

Lemma Index_runQuery_defined s s' :
  Index.runQuery queryString database batchSize s <> (Fulfilled None, s').
Proof.
  unfold Index.runQuery, catch, Retry.retry.
  match goal with |- context [Retry.retry_from ?f ?r ?d ?b ?l ?n ?a s] =>
    destruct (Retry.retry_from f r d b l n a s) as [[x|e] s1] eqn:E
  end; [|discriminate].
  intros H. inversion H; subst.
  revert E. apply retry_from_defined. reflexivity.
Qed.

(** When the counting query is rejected, execution goes on to the streamed
    query with an undefined count. *)
Lemma Index_count_failure pool s e w1 :
  request_query pool (count_query (cleanQuery queryString)) (Index.world s)
  = (Rejected e, w1) ->
  Index.counted_then_streamed queryString batchSize pool s
  = Index.streamed queryString batchSize pool JUndefined
      {| Index.poolPromise := Index.poolPromise s; Index.world := w1 |}.
Proof.
  intros H. unfold Index.counted_then_streamed, or_null, catch, lift, resolve.
  unfold bind at 1. unfold bind at 1. unfold Index.run at 1. rewrite H.
  unfold bind at 1. reflexivity.
Qed.

(** [runQuery] from a state in which the configuration builds, the pool is
    there or the connection is made, the counting query settles with a count
    that can be read or fails, and the streamed query delivers [columns] and
    [stream]. *)
Lemma Index_runQuery_run s config pool s1 counted w2 c columns stream w3 :
  buildConfig (database_or_empty database) = Fulfilled config ->
  Index.getPool config s = (Fulfilled pool, s1) ->
  request_query pool (count_query (cleanQuery queryString)) (Index.world s1)
  = (counted, w2) ->
  expected_row_count_of (caught_null counted) = Fulfilled c ->
  request_stream pool queryString w2 = ((columns, stream), w3) ->
  Index.runQuery queryString database batchSize s
  = (Fulfilled (Some (returned None (default default_batchSize batchSize)
                        columns stream c)),
     {| Index.poolPromise := Index.poolPromise s1; Index.world := w3 |}).
Proof.
  intros Hconfig Hpool Hcount Hc Hstream.
  assert (E : Index.queryExecution queryString database batchSize s
              = (Fulfilled (returned None (default default_batchSize batchSize)
                              columns stream c),
                 {| Index.poolPromise := Index.poolPromise s1; Index.world := w3 |})).
  { unfold Index.queryExecution, lift. unfold bind at 1. rewrite Hconfig.
    unfold bind at 1. rewrite Hpool.
    unfold Index.counted_then_streamed, or_null, catch, lift, resolve.
    unfold bind at 1. unfold bind at 1. unfold Index.run at 1. rewrite Hcount.
    assert (Hc' : expected_row_count_of
                    match counted with
                    | Fulfilled a => Some a
                    | Rejected _ => None
                    end = Fulfilled c) by exact Hc.
    destruct counted as [result|e]; unfold bind at 1; rewrite Hc';
      unfold Index.streamed, bind, Index.run, resolve, stream_query, settle;
      cbn [Index.world Index.poolPromise]; rewrite Hstream; reflexivity. }
  unfold Index.runQuery, catch, Retry.retry.
  change (Z.to_nat (Retry.retries_of Index.retry_options + 1)) with 4%nat.
  rewrite (retry_from_fulfilled _ _ _ _ _ _ _ _ _ _ E). reflexivity.
Qed.
End IndexProperties.

(** ** Query execution of part_000 *)

(** What the [catch] block of [runQuery] throws for an error that has a
    non-empty message or is a string: the flattened text. *)
Lemma rethrown_text (err : Thrown) :
  (exists name message, err = ErrorObject name message /\ truthy message = true
     /\ Part000.rethrown err = StringValue (replace_newlines message))
  \/ (exists message str, err = ObjectValue (Some message) str /\ truthy message = true
     /\ Part000.rethrown err = StringValue (replace_newlines message))
  \/ (exists s, err = StringValue s
     /\ Part000.rethrown err = StringValue (replace_newlines s))
  \/ (exists message, Part000.rethrown err = TypeError message /\ truthy message = true).
Proof.
  destruct err as [name message|s|[message|] str| |]; simpl.
  - destruct (truthy message) eqn:E.
    + left. exists name, message. auto.
    + right. right. right. eexists. split; reflexivity.
  - right. right. left. exists s. auto.
  - destruct (truthy message) eqn:E.
    + right. left. exists message, str. auto.
    + right. right. right. eexists. split; reflexivity.
  - right. right. right. eexists. split; reflexivity.
  - right. right. right. eexists. split; reflexivity.
  - right. right. right. eexists. split; reflexivity.
Qed.

(** Whatever the [catch] block of [runQuery] throws, the handler of
    [testConnection] turns it into a non-empty reason. *)
Lemma reason_of_rethrown (err : Thrown) :
  exists reason,
    reason_of (Part000.rethrown err) = Fulfilled (Reason reason)
    /\ truthy reason = true.
Proof.
  destruct err as [name message|s|[message|] str| |]; simpl;
    try (eexists; split; reflexivity).
  - destruct (truthy message) eqn:E; simpl.
    + rewrite replace_newlines_truthy, E. eexists. split; [reflexivity|].
      rewrite replace_newlines_truthy. exact E.
    + eexists. split; reflexivity.
  - destruct (truthy (replace_newlines s)) eqn:E;
      eexists; (split; [reflexivity|]); [exact E | reflexivity].
  - destruct (truthy message) eqn:E; simpl.
    + rewrite replace_newlines_truthy, E. eexists. split; [reflexivity|].
      rewrite replace_newlines_truthy. exact E.
    + eexists. split; reflexivity.
Qed.

(** The same for the strings [runQuery] of index.cjs throws. *)
Lemma reason_of_string (s : string) :
  exists reason,
    reason_of (StringValue s) = Fulfilled (Reason reason) /\ truthy reason = true.
Proof.
  simpl. destruct (truthy s) eqn:E;
    eexists; (split; [reflexivity|]); [exact E | reflexivity].
Qed.

Section Part000Properties.
Context {W : Type} {T : Timers W} {D : Driver W} {B : Builtins}.
Variable queryString : string.
Variable database : ConfigArg.
Variable batchSize : option nat.

Lemma Part000_streamed_inv pool c w results w' :
  Part000.streamed queryString batchSize pool c w = (Fulfilled results, w') ->
  exists columns stream,
    stream_query pool queryString w = (Fulfilled (columns, stream), w')
    /\ results
       = returned (Some pool) (default default_batchSize batchSize) columns stream c.
Proof.
  unfold Part000.streamed, bind, resolve, stream_query, settle.
  destruct (request_stream pool queryString w)
    as [[columns stream] w1]; intros H; inversion H; subst.
  exists columns, stream. split; reflexivity.
Qed.

Lemma Part000_streamed_relabel pool c w :
  Part000.streamed queryString batchSize pool c w
  = relabel c (Part000.streamed queryString batchSize pool JUndefined w).
Proof.
  unfold Part000.streamed, bind, resolve, stream_query, settle.
  destruct (request_stream pool queryString w)
    as [[columns stream] w1]; reflexivity.
Qed.

(** The [catch] block always throws. *)
Lemma Part000_failed {X} pool err w :
  exists w', @Part000.failed W D X pool err w = (Rejected (Part000.rethrown err), w').
Proof.
  unfold Part000.failed, bind, reject. destruct pool as [pool|].
  - unfold catch, resolve. destruct (pool_close pool w) as [[[]|e] w1];
      eexists; reflexivity.
  - eexists. reflexivity.
Qed.

Lemma Part000_runQuery_fulfilled_inv w results w' :
  Part000.runQuery queryString database batchSize w = (Fulfilled results, w') ->
  exists pool retryOptions c w0,
    WithRetry.withRetry (Part000.streamed queryString batchSize pool c) retryOptions w0
    = (Fulfilled results, w').
Proof.
  unfold Part000.runQuery.
  destruct (Part000.connected database w) as [[[pool retryOptions]|err] w1].
  - unfold catch.
    destruct (Part000.counted_then_streamed queryString batchSize pool retryOptions w1)
      as [[x|err] w2] eqn:E; intros H.
    + inversion H; subst. unfold Part000.counted_then_streamed in E.
      apply bind_fulfilled in E. destruct E as (expected_count & w3 & _ & E).
      apply bind_fulfilled in E. destruct E as (c & w4 & _ & E).
      exists pool, retryOptions, c, w4. exact E.
    + destruct (@Part000_failed ResultStream (Some pool) err w2) as (w3 & F).
      rewrite F in H. discriminate H.
  - intros H. destruct (@Part000_failed ResultStream None err w1) as (w3 & F).
    rewrite F in H. discriminate H.
Qed.

Lemma Part000_runQuery_rejected w v w' :
  Part000.runQuery queryString database batchSize w = (Rejected v, w') ->
  exists err, v = Part000.rethrown err.
Proof.
  unfold Part000.runQuery.
  destruct (Part000.connected database w) as [[[pool retryOptions]|err] w1].
  - unfold catch.
    destruct (Part000.counted_then_streamed queryString batchSize pool retryOptions w1)
      as [[x|err] w2]; intros H; [discriminate H|].
    destruct (@Part000_failed ResultStream (Some pool) err w2) as (w3 & F).
    rewrite F in H. inversion H. exists err. reflexivity.
  - intros H. destruct (@Part000_failed ResultStream None err w1) as (w3 & F).
    rewrite F in H. inversion H. exists err. reflexivity.
Qed.

(** When the counting query, retries included, is rejected, execution goes on
    to the streamed query with an undefined count. *)
Lemma Part000_count_failure pool retryOptions w e w1 :
  WithRetry.withRetry (request_query pool (count_query (cleanQuery queryString)))
    retryOptions w = (Rejected e, w1) ->
  Part000.counted_then_streamed queryString batchSize pool retryOptions w
  = WithRetry.withRetry (Part000.streamed queryString batchSize pool JUndefined)
      retryOptions w1.
Proof.
  intros H. unfold Part000.counted_then_streamed, or_null, catch, lift, resolve.
  unfold bind at 1. unfold bind at 1. rewrite H.
  unfold bind at 1. reflexivity.
Qed.

Lemma Part000_withRetry_streamed_relabel pool retryOptions c w :
  WithRetry.withRetry (Part000.streamed queryString batchSize pool c) retryOptions w
  = relabel c
      (WithRetry.withRetry (Part000.streamed queryString batchSize pool JUndefined)
         retryOptions w).
Proof.
  unfold WithRetry.withRetry.
  apply (withRetry_loop_relabel (Part000.streamed queryString batchSize pool)).
  intros w0. apply Part000_streamed_relabel.
Qed.

(** [runQuery] from a world in which the connection is made, the counting
    query, retries included, settles with a count that can be read or fails,
    and the streamed query delivers [columns] and [stream]. *)
Lemma Part000_runQuery_run w pool retryOptions w1 counted w2 c columns stream w3 :
  Part000.connected database w = (Fulfilled (pool, retryOptions), w1) ->
  WithRetry.withRetry (request_query pool (count_query (cleanQuery queryString)))
    retryOptions w1 = (counted, w2) ->
  expected_row_count_of (caught_null counted) = Fulfilled c ->
  request_stream pool queryString w2 = ((columns, stream), w3) ->
  Part000.runQuery queryString database batchSize w
  = (Fulfilled (returned (Some pool) (default default_batchSize batchSize)
                  columns stream c),
     w3).
Proof.
  intros Hpool Hcount Hc Hstream.
  unfold Part000.runQuery. rewrite Hpool. unfold catch.
  unfold Part000.counted_then_streamed, or_null, catch, lift, resolve.
  unfold bind at 1. unfold bind at 1. rewrite Hcount.
  assert (Hc' : expected_row_count_of
                  match counted with
                  | Fulfilled a => Some a
                  | Rejected _ => None
                  end = Fulfilled c) by exact Hc.
  assert (E : Part000.streamed queryString batchSize pool c w2
              = (Fulfilled (returned (Some pool) (default default_batchSize batchSize)
                              columns stream c), w3)).
  { unfold Part000.streamed, bind, resolve, stream_query, settle.
    rewrite Hstream. reflexivity. }
  destruct counted as [result|e]; unfold bind at 1; rewrite Hc';
    unfold WithRetry.withRetry;
    rewrite (withRetry_loop_fulfilled _ _ _ _ _ _ _ _ _ E); reflexivity.
Qed.
End Part000Properties.

(** ** The claims on query execution *)

(** C5.  [runQuery] returns the delivered rows in batches.  Let the batch
    size [B] be at least 1.  When the configuration builds, the connection
    is made, the counting query leaves a count that can be read or fails, and
    the streamed query delivers a [stream] of [R] rows, [runQuery] returns a
    result stream whose batches are [ceil(R/B)] in number, every one but the
    last of exactly [B] rows, the last of between 1 and [B] rows, and whose
    concatenation is [stream].  Conversely, every result stream [runQuery]
    returns holds the batches of a [stream] the driver delivered. *)
Theorem runQuery_batches {W} {T : Timers W} {D : Driver W} {B : Builtins}
    (queryString : string) (database : ConfigArg) (batchSize : option nat) :
  let size := default default_batchSize batchSize in
  (0 < size)%nat ->
  (forall s config pool s1 counted w2 c columns stream w3,
     buildConfig (database_or_empty database) = Fulfilled config ->
     Index.getPool config s = (Fulfilled pool, s1) ->
     request_query pool (count_query (cleanQuery queryString)) (Index.world s1)
     = (counted, w2) ->
     expected_row_count_of (caught_null counted) = Fulfilled c ->
     request_stream pool queryString w2 = ((columns, stream), w3) ->
     exists results,
       Index.runQuery queryString database batchSize s
       = (Fulfilled (Some results),
          {| Index.poolPromise := Index.poolPromise s1; Index.world := w3 |})
       /\ batched size stream (rows results))
  /\ (forall s results s',
     Index.runQuery queryString database batchSize s = (Fulfilled (Some results), s') ->
     exists pool w columns stream,
       stream_query pool queryString w = (Fulfilled (columns, stream), Index.world s')
       /\ batched size stream (rows results))
  /\ (forall w pool retryOptions w1 counted w2 c columns stream w3,
     Part000.connected database w = (Fulfilled (pool, retryOptions), w1) ->
     WithRetry.withRetry (request_query pool (count_query (cleanQuery queryString)))
       retryOptions w1 = (counted, w2) ->
     expected_row_count_of (caught_null counted) = Fulfilled c ->
     request_stream pool queryString w2 = ((columns, stream), w3) ->
     exists results,
       Part000.runQuery queryString database batchSize w = (Fulfilled results, w3)
       /\ batched size stream (rows results))
  /\ (forall w results w',
     Part000.runQuery queryString database batchSize w = (Fulfilled results, w') ->
     exists pool w0 columns stream,
       stream_query pool queryString w0 = (Fulfilled (columns, stream), w')
       /\ batched size stream (rows results)).
Proof.
  intros size Hsize. split; [|split; [|split]].
  - intros s config pool s1 counted w2 c columns stream w3 Hconfig Hpool Hcount Hc Hs.
    eexists. split.
    + exact (Index_runQuery_run _ _ _ _ _ _ _ _ _ _ _ _ _
               Hconfig Hpool Hcount Hc Hs).
    + apply asyncIterableToBatchedAsyncGenerator_batched. exact Hsize.
  - intros s results s' H.
    apply Index_runQuery_fulfilled_inv in H. destruct H as (s0 & H).
    apply Index_queryExecution_inv in H. destruct H as (pool & c & s2 & H).
    apply Index_streamed_inv in H. destruct H as (columns & stream & H & ->).
    exists pool, (Index.world s2), columns, stream. split; [exact H|].
    apply asyncIterableToBatchedAsyncGenerator_batched. exact Hsize.
  - intros w pool retryOptions w1 counted w2 c columns stream w3 Hpool Hcount Hc Hs.
    eexists. split.
    + exact (Part000_runQuery_run _ _ _ _ _ _ _ _ _ _ _ _ _ Hpool Hcount Hc Hs).
    + apply asyncIterableToBatchedAsyncGenerator_batched. exact Hsize.
  - intros w results w' H.
    apply Part000_runQuery_fulfilled_inv in H.
    destruct H as (pool & retryOptions & c & w0 & H).
    apply withRetry_loop_fulfilled_inv in H. destruct H as (w1 & H).
    apply Part000_streamed_inv in H. destruct H as (columns & stream & H & ->).
    exists pool, w1, columns, stream. split; [exact H|].
    apply asyncIterableToBatchedAsyncGenerator_batched. exact Hsize.
Qed.

Lemma runQuery_batches_witness :
  (exists results,
     @Index.runQuery unit Demo.timers
       (Demo.driver (Demo.count_refused Demo.five_rows)) Demo.builtins
       "SELECT n FROM t" (Given Demo.sql_login) (Some 2%nat)
       {| Index.poolPromise := None; Index.world := tt |}
     = (Fulfilled (Some results),
        {| Index.poolPromise := Some 1%nat; Index.world := tt |})
     /\ batched 2 Demo.five_rows (rows results))
  /\ (exists pool w columns stream,
        @stream_query unit (Demo.driver (Demo.count_refused Demo.five_rows))
          pool "SELECT n FROM t" w = (Fulfilled (columns, stream), tt)
        /\ batched 2 stream
             [ [ [("n", JNumber 1)]; [("n", JNumber 2)] ];
               [ [("n", JNumber 3)]; [("n", JNumber 4)] ];
               [ [("n", JNumber 5)] ] ])
  /\ (exists results,
        @Part000.runQuery unit Demo.timers
          (Demo.driver (Demo.count_answered 5 Demo.five_rows)) Demo.builtins
          "SELECT n FROM t" (Given Demo.sql_login) (Some 2%nat) tt
        = (Fulfilled results, tt)
        /\ batched 2 Demo.five_rows (rows results))
  /\ (exists pool w columns stream,
        @stream_query unit (Demo.driver (Demo.count_answered 5 Demo.five_rows))
          pool "SELECT n FROM t" w = (Fulfilled (columns, stream), tt)
        /\ batched 2 stream
             [ [ [("n", JNumber 1)]; [("n", JNumber 2)] ];
               [ [("n", JNumber 3)]; [("n", JNumber 4)] ];
               [ [("n", JNumber 5)] ] ]).
Proof.
  pose proof (@runQuery_batches unit Demo.timers
                (Demo.driver (Demo.count_refused Demo.five_rows)) Demo.builtins
                "SELECT n FROM t" (Given Demo.sql_login) (Some 2%nat)
                (Nat.lt_0_succ 1)) as (Hrun & Hinv & _ & _).
  pose proof (@runQuery_batches unit Demo.timers
                (Demo.driver (Demo.count_answered 5 Demo.five_rows)) Demo.builtins
                "SELECT n FROM t" (Given Demo.sql_login) (Some 2%nat)
                (Nat.lt_0_succ 1)) as (_ & _ & Hrun' & Hinv').
  split; [|split; [|split]].
  - eapply (Hrun {| Index.poolPromise := None; Index.world := tt |}
             _ 1%nat
             {| Index.poolPromise := Some 1%nat; Index.world := tt |}
             (Rejected (ErrorObject "RequestError" "Incorrect syntax near ';'."))
             tt JUndefined [Demo.test_column] Demo.five_rows tt);
      reflexivity.
  - apply (Hinv {| Index.poolPromise := None; Index.world := tt |}
             (returned None 2 [Demo.test_column] Demo.five_rows JUndefined)
             {| Index.poolPromise := Some 1%nat; Index.world := tt |}).
    reflexivity.
  - apply (Hrun' tt 1%nat (Part000.retryOptions_of Demo.sql_login) tt
             (Fulfilled {| recordset := Some [[("expected_row_count", JNumber 5)]] |})
             tt (JNumber 5) [Demo.test_column] Demo.five_rows tt);
      reflexivity.
  - apply (Hinv' tt
             (returned (Some 1%nat) 2 [Demo.test_column] Demo.five_rows (JNumber 5))
             tt).
    reflexivity.
Defined.

(** C7, the failing case.  In part_000, a connection attempt that fails with
    an [Error] whose message is empty makes [runQuery] reject with a
    [TypeError] object, [err.replace is not a function], not with a string. *)
Theorem Part000_runQuery_surfaces_TypeError :
  @Part000.runQuery unit Demo.timers (Demo.driver Demo.silent_failure)
    Demo.builtins "SELECT 1" (Given Demo.sql_login) None tt
  = (Rejected (TypeError "err.replace is not a function"), tt)
  /\ forall s, TypeError "err.replace is not a function" <> StringValue s.
Proof. split; [reflexivity | discriminate]. Qed.

(** C8, the failing case.  In part_000, [testConnection(null)] and
    [testConnection(undefined)] reject with a [TypeError]: [opts.retryOptions]
    is read before [runQuery] is called and outside any handler, so no
    [{ reason }] is returned.  [testConnection] of index.cjs, which reads
    nothing from [opts], resolves to [{ reason }] for [null]. *)
Theorem Part000_testConnection_rejects {W} {T : Timers W} {D : Driver W} {B : Builtins}
    (w : W) (s : Index.State W) :
  Part000.testConnection NullOpts w
  = (Rejected (TypeError "Cannot read properties of null (reading 'retryOptions')"), w)
  /\ Part000.testConnection UndefinedOpts w
     = (Rejected
          (TypeError "Cannot read properties of undefined (reading 'retryOptions')"),
        w)
  /\ Index.testConnection NotAnObject s
     = (Fulfilled (Reason "Database configuration is required and must be an object"),
        s).
Proof.
  split; [reflexivity|]. split; [reflexivity|].
  unfold Index.testConnection, catch, Index.runQuery, Retry.retry.
  change (Z.to_nat (Retry.retries_of Index.retry_options + 1)) with 4%nat.
  unfold bind at 1. unfold catch. rewrite retry_from_S.
  reflexivity.
Qed.




(** * Further properties *)

(** ** Attempts and waits of the retry wrappers, for any work function *)

Section ScriptedBounds.
Context {A : Type}.
Variable script : nat -> Completion A.
Variable rnd : nat -> Q.

Lemma withRetry_loop_calls maxRetries baseDelay maxDelay :
  forall budget attempts h,
    let h' := snd (@WithRetry.withRetry_loop _ (Harness.timers rnd) _
                     (Harness.scripted script) maxRetries baseDelay maxDelay
                     budget attempts h) in
    (Harness.calls h + 1 <= Harness.calls h'
     <= Harness.calls h + 1 + Z.to_nat (maxRetries - (attempts + 1)))%nat.
Proof.
  induction budget as [|budget IH]; intros attempts h; cbv zeta;
    match goal with |- context [snd ?t] => destruct t as [r h'] eqn:E end;
    cbn [snd]; cbn [WithRetry.withRetry_loop] in E; unfold Harness.scripted at 1 in E;
    (destruct (script (Harness.calls h)) as [a|err];
       [inversion E; subst; cbn [Harness.calls]; lia|]);
    (destruct (attempts + 1 >=? maxRetries) eqn:G;
       [inversion E; subst; cbn [Harness.calls]; lia|]);
    rewrite Z.geb_leb in G; apply Z.leb_gt in G; cbn [orb] in E;
    (destruct (WithRetry.shouldRetry err); cbn [negb] in E;
       [|inversion E; subst; cbn [Harness.calls]; lia]);
    cbn [Math_random Harness.timers] in E.
  - inversion E; subst. cbn [Harness.calls]. lia.
  - specialize (IH (attempts + 1)). cbv zeta in IH.
    match type of E with
    | WithRetry.withRetry_loop _ _ _ _ _ _ ?h1 = _ => specialize (IH h1)
    end.
    rewrite E in IH. cbn [snd Harness.calls setTimeout Harness.timers] in IH. lia.
Qed.

Lemma withRetry_loop_stops maxRetries baseDelay maxDelay e :
  forall k budget attempts h,
    (forall i, (i < k)%nat -> fails_at script WithRetry.shouldRetry (Harness.calls h + i)) ->
    script (Harness.calls h + k) = Rejected e ->
    WithRetry.shouldRetry e = false ->
    (k <= budget)%nat ->
    attempts + Z.of_nat k < maxRetries ->
    exists h',
      @WithRetry.withRetry_loop _ (Harness.timers rnd) _ (Harness.scripted script)
        maxRetries baseDelay maxDelay budget attempts h
      = (Rejected e, h')
      /\ Harness.calls h' = (Harness.calls h + k + 1)%nat.
Proof.
  induction k as [|k IH]; intros budget attempts h Hfail Hko Hr Hb Hatt.
  - rewrite Nat.add_0_r in Hko.
    destruct budget; cbn [WithRetry.withRetry_loop]; unfold Harness.scripted;
      rewrite Hko, Hr, orb_true_r; (eexists; split; [reflexivity|]; simpl; lia).
  - destruct budget as [|budget]; [lia|].
    cbn [WithRetry.withRetry_loop]. unfold Harness.scripted at 1.
    destruct (Hfail 0%nat) as (e0 & He & Hr0); [lia|].
    rewrite Nat.add_0_r in He. rewrite He, Hr0.
    replace (attempts + 1 >=? maxRetries) with false
      by (symmetry; rewrite Z.geb_leb; apply Z.leb_gt; lia).
    cbn [negb orb Math_random Harness.timers].
    match goal with
    | |- context [WithRetry.withRetry_loop _ _ _ _ budget _ ?h'] => set (h1 := h')
    end.
    destruct (IH budget (attempts + 1) h1) as (h' & H1 & H2); try lia; try exact Hr.
    + intros i Hi. simpl. rewrite <- Nat.add_succ_r. apply Hfail. lia.
    + simpl. rewrite <- Nat.add_succ_r. exact Hko.
    + exists h'. split; [exact H1|]. rewrite H2. simpl. lia.
Qed.

Lemma retry_from_stops retries delay backoffFactor retryableErrors e :
  forall k n attempt h,
    (forall i, (i < k)%nat ->
       fails_at script (Retry.isRetryable retryableErrors) (Harness.calls h + i)) ->
    script (Harness.calls h + k) = Rejected e ->
    Retry.isRetryable retryableErrors e = false ->
    (k < n)%nat ->
    attempt + Z.of_nat k <= retries + 1 ->
    exists h',
      @Retry.retry_from _ (Harness.timers rnd) _ (Harness.scripted script)
        retries delay backoffFactor retryableErrors n attempt h
      = (Rejected (Retry.normalised e), h')
      /\ Harness.calls h' = (Harness.calls h + k + 1)%nat.
Proof.
  induction k as [|k IH]; intros n attempt h Hfail Hko Hr Hn Hatt;
    (destruct n as [|n]; [lia|]); rewrite retry_from_S; unfold Harness.scripted at 1.
  - rewrite Nat.add_0_r in Hko. rewrite Hko, Hr. cbn [negb orb].
    eexists. split; [reflexivity|]. simpl. lia.
  - destruct (Hfail 0%nat) as (e0 & He & Hr0); [lia|].
    rewrite Nat.add_0_r in He. rewrite He, Hr0.
    replace (attempt =? retries + 1) with false by (symmetry; apply Z.eqb_neq; lia).
    cbn [negb orb].
    match goal with |- context [Retry.retry_from _ _ _ _ _ n _ ?h'] => set (h1 := h') end.
    destruct (IH n (attempt + 1) h1) as (h' & H1 & H2); try lia; try exact Hr.
    + intros i Hi. simpl. rewrite <- Nat.add_succ_r. apply Hfail. lia.
    + simpl. rewrite <- Nat.add_succ_r. exact Hko.
    + exists h'. split; [exact H1|]. rewrite H2. simpl. lia.
Qed.
End ScriptedBounds.

(** X1.  Whatever the work function does, [withRetry] calls it at least once
    and at most [max(1, maxRetries)] times. *)
Theorem withRetry_attempt_bounds {A} (script : nat -> Completion A) (rnd : nat -> Q)
    (options : option RetryOptions) :
  let h := snd (Harness.run_withRetry script rnd options) in
  (1 <= Harness.calls h <= Z.to_nat (Z.max 1 (WithRetry.maxRetries_of options)))%nat.
Proof.
  pose proof (withRetry_loop_calls script rnd (WithRetry.maxRetries_of options)
                (WithRetry.baseDelay_of options) (WithRetry.maxDelay_of options)
                (Z.to_nat (WithRetry.maxRetries_of options)) 0 Harness.start) as H.
  cbv zeta in *. unfold Harness.run_withRetry, WithRetry.withRetry.
  cbn [Harness.calls Harness.start] in H. lia.
Qed.

(** X2.  Whatever the work function does, [retry] calls it at most
    [retries + 1] times, and at least once unless [retries] is negative. *)
Theorem retry_attempt_bounds {A} (script : nat -> Completion A)
    (options : Retry.Options) :
  let h := snd (Harness.run_retry script options) in
  (Z.to_nat (Z.min 1 (Retry.retries_of options + 1)) <= Harness.calls h
   <= Z.to_nat (Retry.retries_of options + 1))%nat.
Proof.
  destruct (retry_from_waits script (fun _ => 0%Q) (Retry.retries_of options)
              (Retry.delay_of options) (Retry.backoffFactor_of options)
              (Retry.retryableErrors_of options)
              (Z.to_nat (Retry.retries_of options + 1)) 1 Harness.start)
    as (H1 & H2 & _); [lia|].
  cbv zeta. unfold Harness.run_retry, Retry.retry.
  cbn [Harness.calls Harness.start] in H1, H2. lia.
Qed.

(** X3.  In a run of [retry] every call after the first is preceded by
    exactly one wait, the wait after failure number [attempt] (from 1) is
    [delay * backoffFactor^(attempt-1)] with no upper limit, and
    [Math.random] is never called. *)
Theorem retry_backoff {A} (script : nat -> Completion A) (options : Retry.Options) :
  let h := snd (Harness.run_retry script options) in
  Harness.timeouts h
  = map (fun i => let attempt := Z.of_nat i + 1 in
                  (Retry.delay_of options
                   * Retry.backoffFactor_of options ^ (attempt - 1))%Q)
        (seq 0 (Harness.calls h - 1))
  /\ Harness.draws h = 0%nat.
Proof.
  destruct (retry_from_waits script (fun _ => 0%Q) (Retry.retries_of options)
              (Retry.delay_of options) (Retry.backoffFactor_of options)
              (Retry.retryableErrors_of options)
              (Z.to_nat (Retry.retries_of options + 1)) 1 Harness.start)
    as (_ & _ & H3 & H4); [lia|].
  cbv zeta. unfold Harness.run_retry, Retry.retry.
  split; [|exact H3].
  rewrite H4. cbn [Harness.timeouts Harness.calls Harness.start app].
  rewrite Nat.sub_0_r. apply map_ext. intros i. unfold Retry.waitTime.
  replace (1 + Z.of_nat i) with (Z.of_nat i + 1) by lia. reflexivity.
Qed.

(** X4.  With a negative [retries] the [for] loop of [retry] has no
    iteration: the work function is never called and the promise resolves
    to [undefined]. *)
Theorem retry_negative_retries {W} {T : Timers W} {A} (fn : Async W A)
    (options : Retry.Options) (w : W) :
  Retry.retries_of options < 0 ->
  Retry.retry fn options w = (Fulfilled None, w).
Proof.
  intros H. unfold Retry.retry.
  replace (Z.to_nat (Retry.retries_of options + 1)) with 0%nat by lia.
  reflexivity.
Qed.

Lemma retry_negative_retries_witness :
  Harness.run_retry (Demo.failing (Error "ETIMEOUT"))
    {| Retry.retries := Some (-1); Retry.delay := None;
       Retry.backoffFactor := None; Retry.retryableErrors := None |}
  = (Fulfilled None, Harness.start).
Proof.
  apply (@retry_negative_retries Harness.World (Harness.timers (fun _ => 0%Q)) nat).
  reflexivity.
Defined.

(** X5.  When [withRetry] has been failed [k] times with transient errors,
    [k] below [maxRetries], and the next call fails with an error that
    matches no signature, it rejects with that error after [k+1] calls. *)
Theorem withRetry_stops_at_fatal {A} (script : nat -> Completion A) (rnd : nat -> Q)
    (options : option RetryOptions) (k : nat) (e : Thrown) :
  (forall i, (i < k)%nat -> fails_at script WithRetry.shouldRetry i) ->
  script k = Rejected e ->
  WithRetry.shouldRetry e = false ->
  Z.of_nat k < WithRetry.maxRetries_of options ->
  exists h, Harness.run_withRetry script rnd options = (Rejected e, h)
            /\ Harness.calls h = (k + 1)%nat.
Proof.
  intros Hfail Hko Hr Hk.
  destruct (withRetry_loop_stops script rnd (WithRetry.maxRetries_of options)
              (WithRetry.baseDelay_of options) (WithRetry.maxDelay_of options) e
              k (Z.to_nat (WithRetry.maxRetries_of options)) 0 Harness.start)
    as (h & H1 & H2); try (simpl; assumption); try lia.
  exists h. split; [exact H1 | exact H2].
Qed.

Lemma withRetry_stops_at_fatal_witness :
  exists h,
    Harness.run_withRetry
      (fun i => if (i <? 1)%nat then Rejected (Error "ETIMEOUT")
                else Rejected (Error "Login failed") : Completion nat)
      (fun _ => 0%Q) None
    = (Rejected (Error "Login failed"), h)
    /\ Harness.calls h = 2%nat.
Proof.
  apply (withRetry_stops_at_fatal
           (fun i => if (i <? 1)%nat then Rejected (Error "ETIMEOUT")
                     else Rejected (Error "Login failed") : Completion nat)
           (fun _ => 0%Q) None 1%nat (Error "Login failed")).
  - intros i Hi. destruct i; [|lia]. exists (Error "ETIMEOUT"). split; reflexivity.
  - reflexivity.
  - reflexivity.
  - reflexivity.
Defined.

(** X6.  When [retry] has been failed [k] times with retryable errors, [k]
    at most [retries], and the next call fails with an error that is not
    retryable, it rejects with that error, normalised, after [k+1] calls. *)
Theorem retry_stops_at_fatal {A} (script : nat -> Completion A)
    (options : Retry.Options) (k : nat) (e : Thrown) :
  (forall i, (i < k)%nat ->
     fails_at script (Retry.isRetryable (Retry.retryableErrors_of options)) i) ->
  script k = Rejected e ->
  Retry.isRetryable (Retry.retryableErrors_of options) e = false ->
  Z.of_nat k <= Retry.retries_of options ->
  exists h, Harness.run_retry script options = (Rejected (Retry.normalised e), h)
            /\ Harness.calls h = (k + 1)%nat.
Proof.
  intros Hfail Hko Hr Hk.
  destruct (retry_from_stops script (fun _ => 0%Q) (Retry.retries_of options)
              (Retry.delay_of options) (Retry.backoffFactor_of options)
              (Retry.retryableErrors_of options) e
              k (Z.to_nat (Retry.retries_of options + 1)) 1 Harness.start)
    as (h & H1 & H2); try (simpl; assumption); try lia.
  exists h. split; [exact H1 | exact H2].
Qed.

Lemma retry_stops_at_fatal_witness :
  exists h,
    Harness.run_retry
      (fun i => if (i <? 3)%nat then Rejected (Error "ETIMEOUT")
                else Rejected (StringValue "Login failed") : Completion nat)
      Index.retry_options
    = (Rejected (Error "Login failed"), h)
    /\ Harness.calls h = 4%nat.
Proof.
  apply (retry_stops_at_fatal
           (fun i => if (i <? 3)%nat then Rejected (Error "ETIMEOUT")
                     else Rejected (StringValue "Login failed") : Completion nat)
           Index.retry_options 3%nat (StringValue "Login failed")).
  - intros i Hi. destruct i as [|[|[|i]]]; [| | |lia];
      (exists (Error "ETIMEOUT"); split; reflexivity).
  - reflexivity.
  - reflexivity.
  - discriminate.
Defined.

(** ** Flattening of error text *)

Lemma replace_newlines_fixed (s : string) :
  occurs LF s = false -> occurs CR s = false -> replace_newlines s = s.
Proof.
  induction s as [|c s IH]; [reflexivity|].
  cbn [replace_newlines occurs]. intros H1 H2.
  apply orb_false_iff in H1, H2.
  destruct H1 as [H1 H1'], H2 as [H2 H2'].
  rewrite (IH H1' H2'). unfold is_newline.
  rewrite (Ascii.eqb_sym c LF), H1, (Ascii.eqb_sym c CR), H2. reflexivity.
Qed.

(** X7.  Replacing the line breaks keeps the length of the text, leaves a
    text without [\n] and [\r] as it is, and so changes nothing when it is
    applied a second time. *)
Theorem replace_newlines_length_fixed (s : string) :
  String.length (replace_newlines s) = String.length s
  /\ (occurs LF s = false -> occurs CR s = false -> replace_newlines s = s)
  /\ replace_newlines (replace_newlines s) = replace_newlines s.
Proof.
  split; [|split].
  - induction s as [|c s IH]; simpl; [reflexivity | rewrite IH; reflexivity].
  - apply replace_newlines_fixed.
  - destruct (replace_newlines_flat s) as [H1 H2].
    apply replace_newlines_fixed; assumption.
Qed.

Lemma replace_newlines_length_fixed_witness :
  replace_newlines "Login failed" = "Login failed".
Proof.
  apply (proj1 (proj2 (replace_newlines_length_fixed "Login failed")));
    reflexivity.
Defined.

(** ** The pool of index.cjs *)

Section PoolProperties.
Context {W : Type} {T : Timers W} {D : Driver W} {B : Builtins}.

(** X8.  Once [getPool] has resolved, the pool is kept: every later call,
    with whatever configuration, resolves to the same pool without calling
    [mssql.connect].  When [getPool] rejects there was no pool before, the
    rejection is that of [mssql.connect], and there is no pool after. *)
Theorem getPool_reuse (config : option credentials.t) (s : Index.State W) :
  (forall pool s1,
     Index.getPool config s = (Fulfilled pool, s1) ->
     Index.poolPromise s1 = Some pool
     /\ forall config', Index.getPool config' s1 = (Fulfilled pool, s1))
  /\ (forall e s1,
     Index.getPool config s = (Rejected e, s1) ->
     Index.poolPromise s = None
     /\ mssql_connect config (Index.world s) = (Rejected e, Index.world s1)
     /\ Index.poolPromise s1 = None).
Proof.
  unfold Index.getPool. split.
  - intros pool s1 H. destruct s as [[p|] w]; cbn [Index.poolPromise Index.world] in H.
    + inversion H; subst. split; reflexivity.
    + destruct (mssql_connect config w) as [[p|e] w1]; inversion H; subst.
      split; reflexivity.
  - intros e s1 H. destruct s as [[p|] w]; cbn [Index.poolPromise Index.world] in *.
    + discriminate H.
    + destruct (mssql_connect config w) as [[p|e0] w1]; inversion H; subst.
      repeat split.
Qed.
End PoolProperties.

Lemma getPool_reuse_witness :
  @Index.getPool unit (Demo.driver Demo.healthy) None
    {| Index.poolPromise := Some 1%nat; Index.world := tt |}
  = (Fulfilled 1%nat, {| Index.poolPromise := Some 1%nat; Index.world := tt |}).
Proof.
  apply (proj2 (proj1 (@getPool_reuse unit (Demo.driver Demo.healthy) None
                         {| Index.poolPromise := None; Index.world := tt |})
                  1%nat {| Index.poolPromise := Some 1%nat; Index.world := tt |}
                  eq_refl)).
Defined.

(** ** Errors and clean-up of [runQuery] *)

Lemma errStr_normalised (err : Thrown) :
  Index.errStr (Retry.normalised err) = snd (Retry.normalise err).
Proof. destruct err as [n m|s|m [t|]| |]; reflexivity. Qed.

Section RunQueryProperties.
Context {W : Type} {T : Timers W} {D : Driver W} {B : Builtins}.
Variable queryString : string.
Variable database : ConfigArg.
Variable batchSize : option nat.

(** X9.  What [runQuery] of index.cjs rejects with is always a string: the
    text of the error its last [queryExecution] failed with (the message of
    an [Error], a thrown string itself, otherwise the [toString()] text or
    ['Unknown error']) with every line break replaced by a space. *)
Theorem Index_runQuery_rejects_with_flat_text (s : Index.State W) v s' :
  Index.runQuery queryString database batchSize s = (Rejected v, s') ->
  exists s0 err,
    Index.queryExecution queryString database batchSize s0 = (Rejected err, s')
    /\ v = StringValue (replace_newlines (snd (Retry.normalise err)))
    /\ occurs LF (replace_newlines (snd (Retry.normalise err))) = false
    /\ occurs CR (replace_newlines (snd (Retry.normalise err))) = false.
Proof.
  unfold Index.runQuery, catch, Retry.retry.
  match goal with |- context [Retry.retry_from ?f ?r ?d ?b ?l ?n ?a s] =>
    destruct (Retry.retry_from f r d b l n a s) as [[x|e] s1] eqn:E
  end; intros H; [discriminate H|].
  apply retry_from_rejected_inv in E. destruct E as (s0 & err & E & ->).
  unfold Index.surface, reject in H. inversion H; subst.
  exists s0, err. rewrite errStr_normalised.
  split; [exact E|]. split; [reflexivity|]. apply replace_newlines_flat.
Qed.

(** X10.  [runQuery] of part_000 and its pool.  A failure to connect closes
    nothing.  A failure after the connection was made is followed by one
    [pool.close()] whose own outcome is ignored, the rejection being decided
    by the first error alone.  A success closes nothing either: the pool is
    the one the [closeConnection] callback of the returned stream closes, so
    that it is draining the stream that closes it. *)
Theorem Part000_runQuery_cleanup (w : W) :
  (forall err w1,
     Part000.connected database w = (Rejected err, w1) ->
     Part000.runQuery queryString database batchSize w
     = (Rejected (Part000.rethrown err), w1))
  /\ (forall pool retryOptions w1 results w2,
     Part000.connected database w = (Fulfilled (pool, retryOptions), w1) ->
     Part000.counted_then_streamed queryString batchSize pool retryOptions w1
     = (Fulfilled results, w2) ->
     Part000.runQuery queryString database batchSize w = (Fulfilled results, w2)
     /\ closeConnection results = Some pool
     /\ exhaustStream results = pool_close pool)
  /\ (forall pool retryOptions w1 err w2,
     Part000.connected database w = (Fulfilled (pool, retryOptions), w1) ->
     Part000.counted_then_streamed queryString batchSize pool retryOptions w1
     = (Rejected err, w2) ->
     Part000.runQuery queryString database batchSize w
     = (Rejected (Part000.rethrown err), snd (pool_close pool w2))).
Proof.
  unfold Part000.runQuery. split; [|split].
  - intros err w1 H. rewrite H. reflexivity.
  - intros pool retryOptions w1 results w2 H1 H2. rewrite H1.
    unfold catch. rewrite H2. split; [reflexivity|].
    unfold Part000.counted_then_streamed in H2.
    apply bind_fulfilled in H2. destruct H2 as (expected_count & w3 & _ & H2).
    apply bind_fulfilled in H2. destruct H2 as (c & w4 & _ & H2).
    apply withRetry_loop_fulfilled_inv in H2. destruct H2 as (w5 & H2).
    apply Part000_streamed_inv in H2. destruct H2 as (columns & stream & _ & ->).
    split; reflexivity.
  - intros pool retryOptions w1 err w2 H1 H2. rewrite H1.
    unfold catch at 1. rewrite H2.
    unfold Part000.failed, bind, catch, resolve, reject.
    destruct (pool_close pool w2) as [[[]|e] w3]; reflexivity.
Qed.

(** X11.  A configuration that is [null] or not an object makes [runQuery]
    of either file reject with the text of the configuration error, without
    a retry, a wait or a call of the driver. *)
Theorem runQuery_without_object :
  (forall s,
     Index.runQuery queryString NotAnObject batchSize s
     = (Rejected (StringValue
          "Database configuration is required and must be an object"), s))
  /\ (forall w,
     Part000.runQuery queryString NotAnObject batchSize w
     = (Rejected (StringValue
          "Database configuration is required and must be an object"), w)).
Proof. split; intros; reflexivity. Qed.
End RunQueryProperties.

Lemma Part000_runQuery_cleanup_witness :
  @Part000.runQuery unit Demo.timers (Demo.driver Demo.login_failed) Demo.builtins
    "SELECT 1" (Given Demo.sql_login) None tt
  = (Rejected (StringValue "Login failed for user 'sa'."), tt)
  /\ (@Part000.runQuery unit Demo.timers (Demo.driver Demo.healthy) Demo.builtins
        "SELECT 1" (Given Demo.sql_login) None tt
      = (Fulfilled (returned (Some 1%nat) default_batchSize [Demo.test_column]
                      [Demo.one_row] (JNumber 1)), tt)
      /\ closeConnection
           (returned (Some 1%nat) default_batchSize [Demo.test_column]
              [Demo.one_row] (JNumber 1)) = Some 1%nat
      /\ @exhaustStream unit (Demo.driver Demo.healthy)
           (returned (Some 1%nat) default_batchSize [Demo.test_column]
              [Demo.one_row] (JNumber 1))
         = @pool_close unit (Demo.driver Demo.healthy) 1%nat)
  /\ @Part000.runQuery unit Demo.timers
       (Demo.driver
          {| Demo.connecting := Fulfilled 1%nat;
             Demo.counting := Fulfilled {| recordset := None |};
             Demo.streaming := ([Demo.test_column], [Demo.one_row]);
             Demo.closing := Rejected (Error "close failed") |})
       Demo.builtins "SELECT 1" (Given Demo.sql_login) None tt
     = (Rejected
          (StringValue "Cannot read properties of undefined (reading '0')"), tt).
Proof.
  split; [|split].
  - apply (proj1 (@Part000_runQuery_cleanup unit Demo.timers
                    (Demo.driver Demo.login_failed) Demo.builtins
                    "SELECT 1" (Given Demo.sql_login) None tt)
             (ErrorObject "ConnectionError" "Login failed for user 'sa'.") tt).
    reflexivity.
  - apply (proj1 (proj2 (@Part000_runQuery_cleanup unit Demo.timers
                    (Demo.driver Demo.healthy) Demo.builtins
                    "SELECT 1" (Given Demo.sql_login) None tt))
             1%nat (Part000.retryOptions_of Demo.sql_login) tt
             (returned (Some 1%nat) default_batchSize [Demo.test_column]
                [Demo.one_row] (JNumber 1))
             tt);
      reflexivity.
  - apply (proj2 (proj2 (@Part000_runQuery_cleanup unit Demo.timers
                    (Demo.driver
                       {| Demo.connecting := Fulfilled 1%nat;
                          Demo.counting := Fulfilled {| recordset := None |};
                          Demo.streaming := ([Demo.test_column], [Demo.one_row]);
                          Demo.closing := Rejected (Error "close failed") |})
                    Demo.builtins "SELECT 1" (Given Demo.sql_login) None tt))
             1%nat (Part000.retryOptions_of Demo.sql_login)
             tt (TypeError "Cannot read properties of undefined (reading '0')") tt);
      reflexivity.
Defined.

Lemma Index_runQuery_rejects_with_flat_text_witness :
  exists s0 err,
    @Index.queryExecution unit (Demo.driver Demo.login_failed) Demo.builtins
      "SELECT 1" (Given Demo.sql_login) None s0
    = (Rejected err, {| Index.poolPromise := None; Index.world := tt |})
    /\ StringValue "Login failed for user 'sa'."
       = StringValue (replace_newlines (snd (Retry.normalise err)))
    /\ occurs LF (replace_newlines (snd (Retry.normalise err))) = false
    /\ occurs CR (replace_newlines (snd (Retry.normalise err))) = false.
Proof.
  apply (@Index_runQuery_rejects_with_flat_text unit Demo.timers
           (Demo.driver Demo.login_failed) Demo.builtins
           "SELECT 1" (Given Demo.sql_login) None
           {| Index.poolPromise := None; Index.world := tt |}).
  reflexivity.
Defined.

(** ** Defaults of the credential builder *)

Lemma is_true_iff (v : JsValue) :
  is_true v = true <-> v = JString "true" \/ v = JBoolean true.
Proof.
  destruct v as [| |b|n| |s]; simpl; split; intros H;
    try discriminate H;
    try (destruct H as [H|H]; inversion H; subst; reflexivity).
  - right. rewrite H. reflexivity.
  - left. apply String.eqb_eq in H. rewrite H. reflexivity.
Qed.

Section BuildConfigDefaults.
Context {B : Builtins}.

(** X12.  In every descriptor [buildConfig] returns, [encrypt] is on unless
    the configuration sets it to something other than [true] or ['true'],
    [trustServerCertificate] is on only for [true] or ['true'], and the
    port and the two timeouts are [parseInt] of the configured value, or of
    1433 and 30000 where the configuration has [undefined] or [null]. *)
Theorem buildConfig_defaults (d : database.t) (c : credentials.t) :
  buildConfig (Given d) = Fulfilled (Some c) ->
  (credentials.encrypt (credentials.options c) = true <->
     database.encrypt d = JUndefined \/ database.encrypt d = JNull
     \/ database.encrypt d = JString "true" \/ database.encrypt d = JBoolean true)
  /\ (credentials.trustServerCertificate (credentials.options c) = true <->
     database.trust_server_certificate d = JString "true"
     \/ database.trust_server_certificate d = JBoolean true)
  /\ credentials.port c
     = parseInt (nullish_or (database.connection_port d) (JNumber 1433))
  /\ credentials.connectionTimeout c
     = parseInt (nullish_or (database.connection_timeout d) (JNumber 30000))
  /\ credentials.requestTimeout c
     = parseInt (nullish_or (database.request_timeout d) (JNumber 30000))
  /\ credentials.server c = database.server d
  /\ credentials.database c = database.database d
  /\ credentials.user c = database.user d
  /\ credentials.password c = database.password d.
Proof.
  unfold buildConfig. intros H.
  assert (Henc : is_true (nullish_or (database.encrypt d) (JString "true")) = true <->
            database.encrypt d = JUndefined \/ database.encrypt d = JNull
            \/ database.encrypt d = JString "true" \/ database.encrypt d = JBoolean true).
  { rewrite is_true_iff.
    destruct (database.encrypt d) as [| |b|n| |s]; simpl; intuition congruence. }
  assert (Htrust : is_true (nullish_or (database.trust_server_certificate d)
                              (JString "false")) = true <->
            database.trust_server_certificate d = JString "true"
            \/ database.trust_server_certificate d = JBoolean true).
  { rewrite is_true_iff.
    destruct (database.trust_server_certificate d) as [| |b|n| |s]; simpl;
      intuition congruence. }
  repeat match type of H with
         | (if ?b then _ else _) = _ => destruct b
         end;
    inversion H; subst c; cbn; repeat split; try apply Henc; try apply Htrust.
Qed.
End BuildConfigDefaults.

Lemma buildConfig_defaults_witness :
  exists c,
    @buildConfig Demo.builtins (Given Demo.sql_login) = Fulfilled (Some c)
    /\ credentials.encrypt (credentials.options c) = true
    /\ credentials.port c = JNumber 1433.
Proof.
  eexists. split; [reflexivity|].
  destruct (@buildConfig_defaults Demo.builtins Demo.sql_login _ eq_refl)
    as (H1 & _ & H3 & _).
  split; [apply H1; left; reflexivity | exact H3].
Defined.

(** ** Configuration without a known authentication type *)

Lemma buildConfig_unknown {B : Builtins} (d : database.t) :
  (forall s, In s known_authenticationTypes ->
     database.authenticationType d <> JString s) ->
  buildConfig (Given d) = Fulfilled None.
Proof.
  intros H. unfold buildConfig.
  rewrite !is_string_false; [reflexivity | | | | |]; apply H; simpl; tauto.
Qed.

Section CountProperties.
Context {W : Type} {T : Timers W} {D : Driver W} {B : Builtins}.
Variable queryString : string.
Variable batchSize : option nat.

(** X13.  When no configuration is passed, or one whose [authenticationType]
    is none of the five known values, [runQuery] raises no configuration
    error: it goes on to connect, and [mssql.connect] is called with
    [undefined]. *)
Theorem unknown_authentication_connects_with_undefined (database : ConfigArg) :
  database = NotGiven
  \/ (exists d, database = Given d
        /\ forall s, In s known_authenticationTypes ->
             database.authenticationType d <> JString s) ->
  (forall s,
     Index.queryExecution queryString database batchSize s
     = bind (Index.getPool None)
            (Index.counted_then_streamed queryString batchSize) s)
  /\ (forall w, exists retryOptions,
     Part000.connected database w
     = bind (WithRetry.withRetry (mssql_connect None) retryOptions)
            (fun pool => resolve (pool, retryOptions)) w).
Proof.
  intros [->|(d & -> & H)].
  - split; [reflexivity|]. intros w. eexists. reflexivity.
  - split.
    + intros s. unfold Index.queryExecution, database_or_empty.
      unfold bind at 1. unfold lift. rewrite (buildConfig_unknown d H). reflexivity.
    + intros w. eexists. unfold Part000.connected, database_or_empty.
      unfold bind at 1. unfold lift. rewrite (buildConfig_unknown d H). reflexivity.
Qed.

(** X14.  When the counting query succeeds with at least one row, the value
    of that first row's [expected_row_count] property is the count the
    streamed query is run with, and so the [expectedRowCount] of the result. *)
Theorem count_success_sets_expectedRowCount (pool : Pool) (row : Row) (rest : list Row) :
  (forall s w1,
     request_query pool (count_query (cleanQuery queryString)) (Index.world s)
     = (Fulfilled {| recordset := Some (row :: rest) |}, w1) ->
     Index.counted_then_streamed queryString batchSize pool s
     = Index.streamed queryString batchSize pool (property "expected_row_count" row)
         {| Index.poolPromise := Index.poolPromise s; Index.world := w1 |})
  /\ (forall retryOptions w w1,
     WithRetry.withRetry (request_query pool (count_query (cleanQuery queryString)))
       retryOptions w
     = (Fulfilled {| recordset := Some (row :: rest) |}, w1) ->
     Part000.counted_then_streamed queryString batchSize pool retryOptions w
     = WithRetry.withRetry
         (Part000.streamed queryString batchSize pool
            (property "expected_row_count" row))
         retryOptions w1).
Proof.
  split.
  - intros s w1 H. unfold Index.counted_then_streamed, or_null, catch, lift, resolve.
    unfold bind at 1. unfold bind at 1. unfold Index.run at 1. rewrite H.
    unfold bind at 1. reflexivity.
  - intros retryOptions w w1 H.
    unfold Part000.counted_then_streamed, or_null, catch, lift, resolve.
    unfold bind at 1. unfold bind at 1. rewrite H.
    unfold bind at 1. reflexivity.
Qed.

(** X15.  When the counting query succeeds without a record set, or with an
    empty one, [runQuery] does not go on as it does after a failed counting
    query: reading the count throws a [TypeError], and the streamed query is
    not started. *)
Theorem count_success_without_rows_aborts (pool : Pool) (result : QueryResult) :
  recordset result = None \/ recordset result = Some [] ->
  (forall s w1,
     request_query pool (count_query (cleanQuery queryString)) (Index.world s)
     = (Fulfilled result, w1) ->
     exists message,
       Index.counted_then_streamed queryString batchSize pool s
       = (Rejected (TypeError message),
          {| Index.poolPromise := Index.poolPromise s; Index.world := w1 |}))
  /\ (forall retryOptions w w1,
     WithRetry.withRetry (request_query pool (count_query (cleanQuery queryString)))
       retryOptions w
     = (Fulfilled result, w1) ->
     exists message,
       Part000.counted_then_streamed queryString batchSize pool retryOptions w
       = (Rejected (TypeError message), w1)).
Proof.
  intros Hr. split.
  - intros s w1 H. unfold Index.counted_then_streamed, or_null, catch, lift, resolve.
    unfold bind at 1. unfold bind at 1. unfold Index.run at 1. rewrite H.
    unfold bind at 1. unfold expected_row_count_of.
    destruct Hr as [-> | ->]; eexists; reflexivity.
  - intros retryOptions w w1 H.
    unfold Part000.counted_then_streamed, or_null, catch, lift, resolve.
    unfold bind at 1. unfold bind at 1. rewrite H.
    unfold bind at 1. unfold expected_row_count_of.
    destruct Hr as [-> | ->]; eexists; reflexivity.
Qed.
End CountProperties.

Lemma unknown_authentication_connects_with_undefined_witness :
  @Index.queryExecution unit (Demo.driver Demo.healthy) Demo.builtins "SELECT 1"
    (Given (Demo.with_authenticationType (JString "sqlauth"))) None
    {| Index.poolPromise := None; Index.world := tt |}
  = bind (@Index.getPool unit (Demo.driver Demo.healthy) None)
         (@Index.counted_then_streamed unit (Demo.driver Demo.healthy)
            Demo.builtins "SELECT 1" None)
         {| Index.poolPromise := None; Index.world := tt |}.
Proof.
  assert (H : Given (Demo.with_authenticationType (JString "sqlauth")) = NotGiven
              \/ (exists d,
                    Given (Demo.with_authenticationType (JString "sqlauth")) = Given d
                    /\ forall s, In s known_authenticationTypes ->
                          database.authenticationType d <> JString s)).
  { right. exists (Demo.with_authenticationType (JString "sqlauth")).
    split; [reflexivity|]. intros s Hs. simpl in Hs.
    repeat (destruct Hs as [<- | Hs]; [discriminate|]). contradiction. }
  apply (proj1 (@unknown_authentication_connects_with_undefined unit Demo.timers
                  (Demo.driver Demo.healthy) Demo.builtins "SELECT 1" None
                  (Given (Demo.with_authenticationType (JString "sqlauth"))) H)).
Defined.

Lemma count_success_sets_expectedRowCount_witness :
  @Index.counted_then_streamed unit (Demo.driver Demo.healthy) Demo.builtins
    "SELECT 1" None 1%nat {| Index.poolPromise := Some 1%nat; Index.world := tt |}
  = @Index.streamed unit (Demo.driver Demo.healthy) "SELECT 1" None 1%nat (JNumber 1)
      {| Index.poolPromise := Some 1%nat; Index.world := tt |}.
Proof.
  apply (proj1 (@count_success_sets_expectedRowCount unit Demo.timers
                  (Demo.driver Demo.healthy) Demo.builtins "SELECT 1" None 1%nat
                  [("expected_row_count", JNumber 1)] [])
           {| Index.poolPromise := Some 1%nat; Index.world := tt |} tt).
  reflexivity.
Defined.

Lemma count_success_without_rows_aborts_witness :
  exists message,
    @Part000.counted_then_streamed unit Demo.timers
      (Demo.driver
         {| Demo.connecting := Fulfilled 1%nat;
            Demo.counting := Fulfilled {| recordset := None |};
            Demo.streaming := ([Demo.test_column], [Demo.one_row]);
            Demo.closing := Fulfilled tt |})
      Demo.builtins "CREATE TABLE t (n int)" None 1%nat None tt
    = (Rejected (TypeError message), tt).
Proof.
  apply (proj2 (@count_success_without_rows_aborts unit Demo.timers
                  (Demo.driver
                     {| Demo.connecting := Fulfilled 1%nat;
                        Demo.counting := Fulfilled {| recordset := None |};
                        Demo.streaming := ([Demo.test_column], [Demo.one_row]);
                        Demo.closing := Fulfilled tt |})
                  Demo.builtins "CREATE TABLE t (n int)" None 1%nat
                  {| recordset := None |} (or_introl eq_refl))
           None tt tt).
  reflexivity.
Defined.

(** ** Runners *)

Lemma endsWith_spec (s suffix : string) :
  endsWith s suffix = true <-> exists p, s = (p ++ suffix)%string.
Proof.
  induction s as [|c s IH]; cbn [endsWith].
  - rewrite orb_false_r. split.
    + intros H. apply String.eqb_eq in H. exists "". exact H.
    + intros ([|d p] & H); [apply String.eqb_eq; exact H | discriminate H].
  - rewrite orb_true_iff, IH. split.
    + intros [H|(p & ->)].
      * apply String.eqb_eq in H. exists "". exact H.
      * exists (String c p). reflexivity.
    + intros ([|d p] & H).
      * left. apply String.eqb_eq. exact H.
      * right. inversion H. exists p. reflexivity.
Qed.

Lemma or_number_positive (v : option nat) (d : Z) :
  0 < d -> (0 < or_number v (Z.to_nat d))%nat.
Proof. intros H. destruct v as [[|n]|]; simpl; lia. Qed.

Section RunnerProperties.
Context {W : Type} {T : Timers W} {D : Driver W} {B : Builtins}.
Variables queryContent queryPath : string.

(** X17.  [processSource] of part_000 resolves to [null] for a path that
    does not end in [.sql], without touching the driver.  Otherwise it runs
    the query with [sourceConfig.batchSize], or with 100000 when that is
    [undefined] or 0, and a stream it returns holds the rows the driver
    delivered in batches of that size. *)
Theorem Part000_processSource_batches (sourceConfig : database.t)
    (batchSize : option nat) (w : W) :
  let size := or_number batchSize (Z.to_nat 100000) in
  (0 < size)%nat
  /\ ((forall p, queryPath <> (p ++ ".sql")%string) ->
      Part000.processSource sourceConfig batchSize queryContent queryPath w
      = (Fulfilled None, w))
  /\ (forall results w',
      Part000.processSource sourceConfig batchSize queryContent queryPath w
      = (Fulfilled (Some results), w') ->
      (exists p, queryPath = (p ++ ".sql")%string)
      /\ exists pool w0 columns stream,
           stream_query pool queryContent w0 = (Fulfilled (columns, stream), w')
           /\ batched size stream (rows results)).
Proof.
  intros size.
  assert (Hsize : (0 < size)%nat) by (apply or_number_positive; lia).
  split; [exact Hsize|]. unfold Part000.processSource. fold size. split.
  - intros Hp. destruct (endsWith queryPath ".sql") eqn:E; [|reflexivity].
    apply endsWith_spec in E. destruct E as (p & E). destruct (Hp p E).
  - intros results w' H. destruct (endsWith queryPath ".sql") eqn:E;
      cbn [negb] in H; [|discriminate H].
    split; [apply endsWith_spec; exact E|].
    apply bind_fulfilled in H. destruct H as (r & w1 & H & Hr).
    unfold resolve in Hr. inversion Hr; subst.
    apply Part000_runQuery_fulfilled_inv in H.
    destruct H as (pool & retryOptions & c & w0 & H).
    apply withRetry_loop_fulfilled_inv in H. destruct H as (w2 & H).
    apply Part000_streamed_inv in H. destruct H as (columns & stream & H & ->).
    exists pool, w2, columns, stream. split; [exact H|].
    apply asyncIterableToBatchedAsyncGenerator_batched. exact Hsize.
Qed.

(** X18.  The runner of part_000 resolves to [null] for a path that does not
    end in [.sql], without touching the driver, and otherwise settles as
    [runQuery] does on the same configuration and batch size. *)
Theorem Part000_getRunner_filters (opts : ConfigArg) (batchSize : option nat) (w : W) :
  ((forall p, queryPath <> (p ++ ".sql")%string) ->
   Part000.getRunner opts queryContent queryPath batchSize w = (Fulfilled None, w))
  /\ ((exists p, queryPath = (p ++ ".sql")%string) ->
      Part000.getRunner opts queryContent queryPath batchSize w
      = match Part000.runQuery queryContent opts batchSize w with
        | (Fulfilled results, w') => (Fulfilled (Some results), w')
        | (Rejected e, w') => (Rejected e, w')
        end).
Proof.
  unfold Part000.getRunner. split.
  - intros Hp. destruct (endsWith queryPath ".sql") eqn:E; [|reflexivity].
    apply endsWith_spec in E. destruct E as (p & E). destruct (Hp p E).
  - intros Hp. apply endsWith_spec in Hp. rewrite Hp. cbn [negb].
    unfold bind, resolve.
    destruct (Part000.runQuery queryContent opts batchSize w) as [[r|e] w'];
      reflexivity.
Qed.
End RunnerProperties.

Lemma not_sql (path : string) :
  endsWith path ".sql" = false -> forall p, path <> (p ++ ".sql")%string.
Proof.
  intros E p H.
  assert (E' : endsWith path ".sql" = true) by (apply endsWith_spec; exists p; exact H).
  rewrite E in E'. discriminate E'.
Qed.

Lemma Part000_processSource_batches_witness :
  @Part000.processSource unit Demo.timers (Demo.driver Demo.healthy) Demo.builtins
    Demo.sql_login None "SELECT 1 AS TEST" "notes.md" tt
  = (Fulfilled None, tt)
  /\ exists pool w columns stream,
       @stream_query unit (Demo.driver (Demo.count_refused Demo.five_rows))
         pool "SELECT n FROM t" w = (Fulfilled (columns, stream), tt)
       /\ batched (Z.to_nat 100000) stream [Demo.five_rows].
Proof.
  split.
  - apply (proj1 (proj2 (@Part000_processSource_batches unit Demo.timers
                           (Demo.driver Demo.healthy) Demo.builtins
                           "SELECT 1 AS TEST" "notes.md" Demo.sql_login None tt))).
    apply not_sql. reflexivity.
  - apply (proj2 (proj2 (proj2 (@Part000_processSource_batches unit Demo.timers
                           (Demo.driver (Demo.count_refused Demo.five_rows))
                           Demo.builtins
                           "SELECT n FROM t" "t.sql" Demo.sql_login None tt))
                    {| rows := [Demo.five_rows];
                       closeConnection := Some 1%nat;
                       columnTypes := [ {| name := "TEST"; evidenceType := NUMBER;
                                           typeFidelity := PRECISE |} ];
                       expectedRowCount := JUndefined |}
                    tt eq_refl)).
Defined.

Lemma Part000_getRunner_filters_witness :
  @Part000.getRunner unit Demo.timers (Demo.driver Demo.healthy) Demo.builtins
    (Given Demo.sql_login) "SELECT 1 AS TEST" "notes.md" None tt
  = (Fulfilled None, tt).
Proof.
  apply (proj1 (@Part000_getRunner_filters unit Demo.timers
                  (Demo.driver Demo.healthy) Demo.builtins
                  "SELECT 1 AS TEST" "notes.md" (Given Demo.sql_login) None tt)).
  apply not_sql. reflexivity.
Defined.

(** ** Fidelity of the mapped columns *)

(** X19.  The mapper returns one column per field, and a column it marks
    INFERRED always has the portable type STRING: NUMBER, DATE and BOOLEAN
    columns are always PRECISE. *)
Theorem inferred_columns_are_strings (fields : list Field) :
  List.length (mapResultsToEvidenceColumnTypes fields) = List.length fields
  /\ forall column,
       In column (mapResultsToEvidenceColumnTypes fields) ->
       typeFidelity column = INFERRED -> evidenceType column = STRING.
Proof.
  unfold mapResultsToEvidenceColumnTypes. split; [apply length_map|].
  intros column H. apply in_map_iff in H. destruct H as (field & <- & _).
  destruct (nativeTypeToEvidenceType (field_type field) None);
    simpl; [discriminate | reflexivity].
Qed.

Lemma inferred_columns_are_strings_witness :
  evidenceType {| name := "at"; evidenceType := STRING; typeFidelity := INFERRED |}
  = STRING.
Proof.
  apply (proj2 (inferred_columns_are_strings
                  [ {| field_name := "at"; field_type := Some mssql.Time |} ])).
  - left. reflexivity.
  - reflexivity.
Defined.

(** ** The Azure-only module *)

Section AzureProperties.
Context {W : Type} {D : Azure.Driver W} {B : Builtins}.

(** X20.  [getAuthenticationMethod] returns a descriptor exactly for the four
    method names it knows, with the matching authentication [type]; whatever
    the configuration says, the descriptor has [encrypt] and
    [trustServerCertificate] switched on, and its port is [parseInt] of the
    configured port, or of 1433. *)
Theorem getAuthenticationMethod_descriptor (d : Azure.database.t) (authtype : JsValue) :
  (forall c, Azure.getAuthenticationMethod d authtype = Some c ->
     (exists method, authtype = JString method
        /\ In (method, authentication.type (Azure.credentials.authentication c))
              authentication_methods)
     /\ Azure.credentials.encrypt (Azure.credentials.options c) = true
     /\ Azure.credentials.trustServerCertificate (Azure.credentials.options c) = true
     /\ Azure.credentials.port (Azure.credentials.options c)
        = parseInt (nullish_or (Azure.database.port d) (JNumber 1433))
     /\ Azure.credentials.server c = Azure.database.server d
     /\ Azure.credentials.database c = Azure.database.database d)
  /\ (Azure.getAuthenticationMethod d authtype = None <->
      forall method type, In (method, type) authentication_methods ->
        authtype <> JString method).
Proof.
  unfold Azure.getAuthenticationMethod. split.
  - intros c H.
    assert (Hs : forall s, is_string authtype s = true -> authtype = JString s).
    { intros s E. destruct authtype; try discriminate E.
      simpl in E. apply String.eqb_eq in E. rewrite E. reflexivity. }
    destruct (is_string authtype "aadpassword") eqn:E1;
      [|destruct (is_string authtype "aadaccesstoken") eqn:E2;
        [|destruct (is_string authtype "aadserviceprincipal") eqn:E3;
          [|destruct (is_string authtype "aaddefault") eqn:E4; [|discriminate H]]]];
      inversion H; subst c; cbn; (split; [|repeat split]).
    + exists "aadpassword". split; [apply Hs; exact E1 | simpl; tauto].
    + exists "aadaccesstoken". split; [apply Hs; exact E2 | simpl; tauto].
    + exists "aadserviceprincipal". split; [apply Hs; exact E3 | simpl; tauto].
    + exists "aaddefault". split; [apply Hs; exact E4 | simpl; tauto].
  - split.
    + intros H method type Hin ->. simpl in Hin.
      repeat (destruct Hin as [Hin|Hin];
              [inversion Hin; subst; simpl in H; discriminate H|]).
      contradiction.
    + intros H.
      rewrite !is_string_false; [reflexivity | | | |];
        eapply H; simpl; eauto.
Qed.

(** X21.  [runQuery] of the Azure-only module swallows a failure whose error
    is a thrown string or has no non-empty message: the promise resolves to
    [undefined].  A failure with a non-empty message is rejected as that
    message with its line breaks replaced. *)
Theorem Azure_runQuery_swallows (queryString : string)
    (database : option Azure.database.t) (batchSize : option nat)
    (w : W) (err : Thrown) (w' : W) :
  Azure.attempted queryString database batchSize w = (Rejected err, w') ->
  (forall s, err = StringValue s ->
     Azure.runQuery queryString database batchSize w = (Fulfilled None, w'))
  /\ (forall name, err = ErrorObject name "" ->
     Azure.runQuery queryString database batchSize w = (Fulfilled None, w'))
  /\ (forall str, err = ObjectValue None str ->
     Azure.runQuery queryString database batchSize w = (Fulfilled None, w'))
  /\ (forall name message, err = ErrorObject name message ->
     truthy message = true ->
     Azure.runQuery queryString database batchSize w
     = (Rejected (StringValue (replace_newlines message)), w')).
Proof.
  intros H. unfold Azure.runQuery, catch, bind, lift. rewrite H.
  repeat split.
  - intros s ->. reflexivity.
  - intros name ->. reflexivity.
  - intros str ->. reflexivity.
  - intros name message -> Ht. simpl. rewrite Ht. reflexivity.
Qed.
End AzureProperties.

Lemma getAuthenticationMethod_descriptor_witness :
  exists c,
    @Azure.getAuthenticationMethod Demo.builtins Azure.database.empty
      (JString "aaddefault") = Some c
    /\ Azure.credentials.encrypt (Azure.credentials.options c) = true
    /\ Azure.credentials.port (Azure.credentials.options c) = JNumber 1433.
Proof.
  eexists. split; [reflexivity|].
  destruct (proj1 (@getAuthenticationMethod_descriptor Demo.builtins
                     Azure.database.empty (JString "aaddefault")) _ eq_refl)
    as (_ & H1 & _ & H3 & _).
  split; [exact H1 | exact H3].
Defined.

Lemma Azure_runQuery_swallows_witness :
  @Azure.runQuery unit (refusing (StringValue "Login failed")) Demo.builtins
    "SELECT 1" None None tt
  = (Fulfilled None, tt).
Proof.
  apply (proj1 (@Azure_runQuery_swallows unit
                  (refusing (StringValue "Login failed")) Demo.builtins
                  "SELECT 1" None None tt (StringValue "Login failed") tt eq_refl)
           "Login failed").
  reflexivity.
Defined.

(** ** The pool is left open by index.cjs *)

(** X22.  [runQuery] of index.cjs never calls [pool.close()]: two drivers
    that differ in nothing but [pool.close] give the same run. *)
Theorem Index_runQuery_never_closes {W} {T : Timers W} {B : Builtins}
    (D1 D2 : Driver W) (queryString : string) (database : ConfigArg)
    (batchSize : option nat) (s : Index.State W) :
  @mssql_connect W D1 = @mssql_connect W D2 ->
  @request_query W D1 = @request_query W D2 ->
  @stream_query W D1 = @stream_query W D2 ->
  @Index.runQuery W T D1 B queryString database batchSize s
  = @Index.runQuery W T D2 B queryString database batchSize s.
Proof.
  intros Hconnect Hquery Hstream.
  unfold Index.runQuery, Index.queryExecution, Index.counted_then_streamed,
    Index.streamed, Index.getPool.
  rewrite Hconnect, Hquery, Hstream. reflexivity.
Qed.

Lemma Index_runQuery_never_closes_witness :
  @Index.runQuery unit Demo.timers (Demo.driver Demo.healthy) Demo.builtins
    "SELECT 1" (Given Demo.sql_login) None
    {| Index.poolPromise := None; Index.world := tt |}
  = @Index.runQuery unit Demo.timers
      (Demo.driver
         {| Demo.connecting := Demo.connecting Demo.healthy;
            Demo.counting := Demo.counting Demo.healthy;
            Demo.streaming := Demo.streaming Demo.healthy;
            Demo.closing := Rejected (Error "close failed") |})
      Demo.builtins "SELECT 1" (Given Demo.sql_login) None
      {| Index.poolPromise := None; Index.world := tt |}.
Proof.
  apply (@Index_runQuery_never_closes unit Demo.timers Demo.builtins
           (Demo.driver Demo.healthy)
           (Demo.driver
              {| Demo.connecting := Demo.connecting Demo.healthy;
                 Demo.counting := Demo.counting Demo.healthy;
                 Demo.streaming := Demo.streaming Demo.healthy;
                 Demo.closing := Rejected (Error "close failed") |}));
    reflexivity.
Defined.

(** ** Connection tests *)

(** X16.  [testConnection] once [runQuery] has settled.  In index.cjs: when
    [runQuery] returns a stream the test resolves to [true]; when it rejects
    the test resolves to [{ reason }] with a non-empty string; the test
    never rejects.  In part_000, for an [opts] that is neither [null] nor
    [undefined]: when [runQuery] returns a stream and draining it succeeds,
    the test resolves to [true]; when draining it fails with [e], the test
    resolves to what the handler makes of [e], which is an empty [reason]
    for an [Error] with an empty message; when [runQuery] rejects, the test
    resolves to [{ reason }] with a non-empty string. *)
Theorem testConnection_outcomes {W} {T : Timers W} {D : Driver W} {B : Builtins} :
  (forall opts s,
     (forall results s',
        Index.runQuery "SELECT 1 AS TEST;" opts None s = (Fulfilled (Some results), s') ->
        Index.testConnection opts s = (Fulfilled IsTrue, s'))
     /\ (forall v s',
        Index.runQuery "SELECT 1 AS TEST;" opts None s = (Rejected v, s') ->
        exists reason,
          Index.testConnection opts s = (Fulfilled (Reason reason), s')
          /\ reason <> "")
     /\ exists r s', Index.testConnection opts s = (Fulfilled r, s'))
  /\ (forall opts w,
     opts <> NullOpts -> opts <> UndefinedOpts ->
     (forall results w' w'',
        Part000.runQuery "SELECT 1 AS TEST;" (Part000.database_of_opts opts) None w
        = (Fulfilled results, w') ->
        exhaustStream results w' = (Fulfilled tt, w'') ->
        Part000.testConnection opts w = (Fulfilled IsTrue, w''))
     /\ (forall results w' e w'' r,
        Part000.runQuery "SELECT 1 AS TEST;" (Part000.database_of_opts opts) None w
        = (Fulfilled results, w') ->
        exhaustStream results w' = (Rejected e, w'') ->
        reason_of e = Fulfilled r ->
        Part000.testConnection opts w = (Fulfilled r, w''))
     /\ (forall v w',
        Part000.runQuery "SELECT 1 AS TEST;" (Part000.database_of_opts opts) None w
        = (Rejected v, w') ->
        exists reason,
          Part000.testConnection opts w = (Fulfilled (Reason reason), w')
          /\ reason <> "")).
Proof.
  split.
  - intros opts s.
    assert (Hok : forall results s',
              Index.runQuery "SELECT 1 AS TEST;" opts None s = (Fulfilled (Some results), s') ->
              Index.testConnection opts s = (Fulfilled IsTrue, s')).
    { intros results s' H. unfold Index.testConnection, catch, bind.
      rewrite H.
      apply Index_runQuery_fulfilled_inv in H. destruct H as (s0 & H).
      apply Index_queryExecution_inv in H. destruct H as (pool & c & s2 & H).
      apply Index_streamed_inv in H. destruct H as (columns & stream & _ & ->).
      unfold Index.drain, Index.run, exhaustStream, resolve.
      cbn [closeConnection returned set_expectedRowCount set_columnTypes
           asyncIterableToBatchedAsyncGenerator].
      destruct s'. reflexivity. }
    assert (Hko : forall v s',
              Index.runQuery "SELECT 1 AS TEST;" opts None s = (Rejected v, s') ->
              exists reason,
                Index.testConnection opts s = (Fulfilled (Reason reason), s')
                /\ reason <> "").
    { intros v s' H. destruct (Index_runQuery_rejected _ _ _ _ _ _ H) as (err & -> & _).
      destruct (reason_of_string (replace_newlines (Index.errStr err)))
        as (reason & Hr & Ht).
      exists reason. split; [|apply truthy_nonempty; exact Ht].
      unfold Index.testConnection, catch, bind. rewrite H. unfold lift.
      rewrite Hr. reflexivity. }
    split; [exact Hok|]. split; [exact Hko|].
    destruct (Index.runQuery "SELECT 1 AS TEST;" opts None s) as [[[results|]|v] s'] eqn:E.
    + exists IsTrue, s'. exact (Hok results s' eq_refl).
    + exfalso. exact (Index_runQuery_defined _ _ _ _ _ E).
    + destruct (Hko v s' eq_refl) as (reason & H & _). exists (Reason reason), s'. exact H.
  - intros opts w Hnull Hundefined.
    assert (Hopts : exists retryOptions,
              Part000.testConnection opts w
              = WithRetry.withRetry
                  (catch
                     (bind (Part000.runQuery "SELECT 1 AS TEST;"
                              (Part000.database_of_opts opts) None)
                        (fun results =>
                           bind (exhaustStream results) (fun _ => resolve IsTrue)))
                     (fun e => lift (reason_of e)))
                  retryOptions w).
    { destruct opts as [| | |d]; try contradiction; eexists; reflexivity. }
    destruct Hopts as (retryOptions & Hopts).
    split; [|split].
    + intros results w' w'' H Hdrain. rewrite Hopts. unfold WithRetry.withRetry.
      apply withRetry_loop_fulfilled. unfold catch, bind. rewrite H, Hdrain.
      reflexivity.
    + intros results w' e w'' r H Hdrain Hr. rewrite Hopts. unfold WithRetry.withRetry.
      apply withRetry_loop_fulfilled. unfold catch, bind. rewrite H, Hdrain.
      unfold lift. rewrite Hr. reflexivity.
    + intros v w' H. destruct (Part000_runQuery_rejected _ _ _ _ _ _ H) as (err & ->).
      destruct (reason_of_rethrown err) as (reason & Hr & Ht).
      exists reason. split; [|apply truthy_nonempty; exact Ht].
      rewrite Hopts. unfold WithRetry.withRetry.
      apply withRetry_loop_fulfilled. unfold catch, bind. rewrite H. unfold lift.
      rewrite Hr. reflexivity.
Qed.

Lemma testConnection_outcomes_witness :
  @Index.testConnection unit Demo.timers (Demo.driver Demo.healthy) Demo.builtins
    (Given Demo.sql_login) {| Index.poolPromise := None; Index.world := tt |}
  = (Fulfilled IsTrue, {| Index.poolPromise := Some 1%nat; Index.world := tt |})
  /\ (exists reason,
        @Index.testConnection unit Demo.timers (Demo.driver Demo.login_failed)
          Demo.builtins (Given Demo.sql_login)
          {| Index.poolPromise := None; Index.world := tt |}
        = (Fulfilled (Reason reason), {| Index.poolPromise := None; Index.world := tt |})
        /\ reason <> "")
  /\ @Part000.testConnection unit Demo.timers (Demo.driver Demo.healthy)
       Demo.builtins (ObjectOpts Demo.sql_login) tt
     = (Fulfilled IsTrue, tt)
  /\ @Part000.testConnection unit Demo.timers
       (Demo.driver
          {| Demo.connecting := Demo.connecting Demo.healthy;
             Demo.counting := Demo.counting Demo.healthy;
             Demo.streaming := Demo.streaming Demo.healthy;
             Demo.closing := Rejected (Error "") |})
       Demo.builtins (ObjectOpts Demo.sql_login) tt
     = (Fulfilled (Reason ""), tt)
  /\ (exists reason,
        @Part000.testConnection unit Demo.timers (Demo.driver Demo.login_failed)
          Demo.builtins PrimitiveOpts tt
        = (Fulfilled (Reason reason), tt)
        /\ reason <> "").
Proof.
  split; [|split; [|split; [|split]]].
  - eapply (proj1 (proj1 (@testConnection_outcomes unit Demo.timers
                            (Demo.driver Demo.healthy) Demo.builtins)
                     (Given Demo.sql_login)
                     {| Index.poolPromise := None; Index.world := tt |})).
    reflexivity.
  - eapply (proj1 (proj2 (proj1 (@testConnection_outcomes unit Demo.timers
                            (Demo.driver Demo.login_failed) Demo.builtins)
                     (Given Demo.sql_login)
                     {| Index.poolPromise := None; Index.world := tt |}))).
    reflexivity.
  - assert (H1 : ObjectOpts Demo.sql_login <> NullOpts) by discriminate.
    assert (H2 : ObjectOpts Demo.sql_login <> UndefinedOpts) by discriminate.
    eapply (proj1 (proj2 (@testConnection_outcomes unit Demo.timers
                            (Demo.driver Demo.healthy) Demo.builtins)
                     (ObjectOpts Demo.sql_login) tt H1 H2));
      reflexivity.
  - assert (H1 : ObjectOpts Demo.sql_login <> NullOpts) by discriminate.
    assert (H2 : ObjectOpts Demo.sql_login <> UndefinedOpts) by discriminate.
    eapply (proj1 (proj2 (proj2 (@testConnection_outcomes unit Demo.timers
                            (Demo.driver
                               {| Demo.connecting := Demo.connecting Demo.healthy;
                                  Demo.counting := Demo.counting Demo.healthy;
                                  Demo.streaming := Demo.streaming Demo.healthy;
                                  Demo.closing := Rejected (Error "") |})
                            Demo.builtins)
                     (ObjectOpts Demo.sql_login) tt H1 H2)));
      reflexivity.
  - assert (H1 : PrimitiveOpts <> NullOpts) by discriminate.
    assert (H2 : PrimitiveOpts <> UndefinedOpts) by discriminate.
    eapply (proj2 (proj2 (proj2 (@testConnection_outcomes unit Demo.timers
                            (Demo.driver Demo.login_failed) Demo.builtins)
                     PrimitiveOpts tt H1 H2))).
    reflexivity.
Defined.
